(** * tinyhci: the CC3000 host driver (tinyhci.cpp), embedded and verified

    The driver talks to the CC3000 over SPI from two contexts: the
    application thread (the socket API) and the interrupt handler [hci_irq].
    The embedding keeps the driver's variables in one record, threads it
    through a state-and-failure monad, and keeps next to them the part of
    the world the code observes: the bytes the CC3000 shifts out, the
    moments at which its interrupt fires, the level of the IRQ pin and the
    readings of [millis()].  Everything the driver does to the outside (chip
    select, bytes on the link, calls of the user callback) is appended to a
    trace. *)

From Stdlib Require Import ZArith List Bool Lia Sorted.
Import ListNotations.
Local Open Scope Z_scope.

(** ** Fixed-width integers *)

Definition u8 (x : Z) : Z := x mod 256.
Definition u16 (x : Z) : Z := x mod 65536.
Definition u32 (x : Z) : Z := x mod 4294967296.

(** Conversion of a value to a signed integer of [bits] bits (the
    two's-complement wrap every supported compiler performs). *)
Definition to_signed (bits : Z) (x : Z) : Z :=
  let m := x mod 2 ^ bits in
  if m <? 2 ^ (bits - 1) then m else m - 2 ^ bits.

Definition is_u16 (x : Z) : Prop := 0 <= x < 65536.

(** The widths of [int] the driver is compiled for. *)
Definition int_width (bits : Z) : Prop := 16 <= bits <= 32.

(** ** Values declared in tinyhci.h

    The header is not among the sources at hand; the constants it gives the
    driver are taken as parameters. *)
Record tinyhci_h : Type := {
  HCI_EVNT_WLAN_UNSOL_CONNECT : Z;
  HCI_EVNT_WLAN_UNSOL_DISCONNECT : Z;
  HCI_EVNT_WLAN_UNSOL_DHCP : Z;
  HCI_EVNT_WLAN_UNSOL_TCP_CLOSE_WAIT : Z;
  HCI_EVNT_DATA_UNSOL_FREE_BUFF : Z;
  HCI_EVNT_CC3000_LOCKED : Z;
  HCI_EVNT_SEND : Z;
  EFAIL : Z
}.

(** The labels of the [switch] in [hci_dispatch_event]: a C++ compiler
    rejects duplicate case labels, so they are pairwise different. *)
Definition case_labels (h : tinyhci_h) : list Z :=
  [ HCI_EVNT_WLAN_UNSOL_CONNECT h; HCI_EVNT_WLAN_UNSOL_DISCONNECT h;
    HCI_EVNT_WLAN_UNSOL_DHCP h; HCI_EVNT_WLAN_UNSOL_TCP_CLOSE_WAIT h;
    HCI_EVNT_DATA_UNSOL_FREE_BUFF h ].

(** The values of TI's CC3000 host driver, with the "locked" event and
    [EFAIL] chosen as a sample; used for concrete runs only. *)
Definition cc3000_h : tinyhci_h :=
  {| HCI_EVNT_WLAN_UNSOL_CONNECT := 0x8001;
     HCI_EVNT_WLAN_UNSOL_DISCONNECT := 0x8002;
     HCI_EVNT_WLAN_UNSOL_DHCP := 0x8010;
     HCI_EVNT_WLAN_UNSOL_TCP_CLOSE_WAIT := 0x8800;
     HCI_EVNT_DATA_UNSOL_FREE_BUFF := 0x4100;
     HCI_EVNT_CC3000_LOCKED := 0x8FFF;
     HCI_EVNT_SEND := 0x1003;
     EFAIL := -1 |}.

(** ** HCI interface constants (tinyhci.cpp) *)

Definition HCI_STATE_IDLE : Z := 0.
Definition HCI_STATE_WAIT_ASSERT : Z := 1.

Definition HCI_READ : Z := 0x3.
Definition HCI_WRITE : Z := 0x1.

Definition HCI_TYPE_CMND : Z := 0x1.
Definition HCI_TYPE_DATA : Z := 0x2.
Definition HCI_TYPE_EVNT : Z := 0x4.

Definition HCI_CMND_SEND : Z := 0x0081.
Definition HCI_CMND_SOCKET : Z := 0x1001.
Definition HCI_CMND_RECV : Z := 0x1004.
Definition HCI_CMND_CONNECT : Z := 0x1007.

(** ** What the driver does to the outside *)

Inductive action : Type :=
| CsAssert                      (* digitalWrite(CC3K_CS_PIN, LOW) *)
| CsRelease                     (* digitalWrite(CC3K_CS_PIN, HIGH) *)
| Xfer (out inb : Z)            (* SPI.transfer(out) returned inb *)
| Callback (ev arg : Z).        (* wifi_callback(ev, arg) *)

(** An event of the trace: the action and whether it was done inside the
    interrupt handler. *)
Definition event : Type := (bool * action)%type.

(** ** The state: the driver's variables and the observed world *)

Record state : Type := {
  (* global and static variables of tinyhci.cpp *)
  wifi_connected : Z;
  wifi_dhcp : Z;
  ip_addr : list Z;
  hci_data_available : Z;
  hci_pending_event_available : Z;
  hci_pending_event : Z;
  hci_buffer_size : Z;
  hci_buffer_count : Z;
  hci_available_buffer_count : Z;
  hci_payload_size : Z;
  hci_pad : Z;
  hci_state : Z;
  (* the world *)
  miso : list Z;      (* bytes the CC3000 shifts out on the coming transfers *)
  irqs : list bool;   (* per poll of a shared variable: did the interrupt fire *)
  pins : list bool;   (* coming digitalRead(CC3K_IRQ_PIN): true is LOW *)
  clock : list Z;     (* coming readings of millis() *)
  in_isr : bool;      (* executing inside the interrupt handler *)
  trace : list event
}.

Definition set_wifi_connected (v : Z) (st : state) : state :=
  {| wifi_connected := v; wifi_dhcp := wifi_dhcp st; ip_addr := ip_addr st;
     hci_data_available := hci_data_available st;
     hci_pending_event_available := hci_pending_event_available st;
     hci_pending_event := hci_pending_event st; hci_buffer_size := hci_buffer_size st;
     hci_buffer_count := hci_buffer_count st;
     hci_available_buffer_count := hci_available_buffer_count st;
     hci_payload_size := hci_payload_size st; hci_pad := hci_pad st; hci_state := hci_state st;
     miso := miso st; irqs := irqs st; pins := pins st; clock := clock st; in_isr := in_isr st;
     trace := trace st |}.

Definition set_wifi_dhcp (v : Z) (st : state) : state :=
  {| wifi_connected := wifi_connected st; wifi_dhcp := v; ip_addr := ip_addr st;
     hci_data_available := hci_data_available st;
     hci_pending_event_available := hci_pending_event_available st;
     hci_pending_event := hci_pending_event st; hci_buffer_size := hci_buffer_size st;
     hci_buffer_count := hci_buffer_count st;
     hci_available_buffer_count := hci_available_buffer_count st;
     hci_payload_size := hci_payload_size st; hci_pad := hci_pad st; hci_state := hci_state st;
     miso := miso st; irqs := irqs st; pins := pins st; clock := clock st; in_isr := in_isr st;
     trace := trace st |}.

Definition set_ip_addr (v : list Z) (st : state) : state :=
  {| wifi_connected := wifi_connected st; wifi_dhcp := wifi_dhcp st; ip_addr := v;
     hci_data_available := hci_data_available st;
     hci_pending_event_available := hci_pending_event_available st;
     hci_pending_event := hci_pending_event st; hci_buffer_size := hci_buffer_size st;
     hci_buffer_count := hci_buffer_count st;
     hci_available_buffer_count := hci_available_buffer_count st;
     hci_payload_size := hci_payload_size st; hci_pad := hci_pad st; hci_state := hci_state st;
     miso := miso st; irqs := irqs st; pins := pins st; clock := clock st; in_isr := in_isr st;
     trace := trace st |}.

Definition set_hci_data_available (v : Z) (st : state) : state :=
  {| wifi_connected := wifi_connected st; wifi_dhcp := wifi_dhcp st; ip_addr := ip_addr st;
     hci_data_available := v; hci_pending_event_available := hci_pending_event_available st;
     hci_pending_event := hci_pending_event st; hci_buffer_size := hci_buffer_size st;
     hci_buffer_count := hci_buffer_count st;
     hci_available_buffer_count := hci_available_buffer_count st;
     hci_payload_size := hci_payload_size st; hci_pad := hci_pad st; hci_state := hci_state st;
     miso := miso st; irqs := irqs st; pins := pins st; clock := clock st; in_isr := in_isr st;
     trace := trace st |}.

Definition set_hci_pending_event_available (v : Z) (st : state) : state :=
  {| wifi_connected := wifi_connected st; wifi_dhcp := wifi_dhcp st; ip_addr := ip_addr st;
     hci_data_available := hci_data_available st; hci_pending_event_available := v;
     hci_pending_event := hci_pending_event st; hci_buffer_size := hci_buffer_size st;
     hci_buffer_count := hci_buffer_count st;
     hci_available_buffer_count := hci_available_buffer_count st;
     hci_payload_size := hci_payload_size st; hci_pad := hci_pad st; hci_state := hci_state st;
     miso := miso st; irqs := irqs st; pins := pins st; clock := clock st; in_isr := in_isr st;
     trace := trace st |}.

Definition set_hci_pending_event (v : Z) (st : state) : state :=
  {| wifi_connected := wifi_connected st; wifi_dhcp := wifi_dhcp st; ip_addr := ip_addr st;
     hci_data_available := hci_data_available st;
     hci_pending_event_available := hci_pending_event_available st; hci_pending_event := v;
     hci_buffer_size := hci_buffer_size st; hci_buffer_count := hci_buffer_count st;
     hci_available_buffer_count := hci_available_buffer_count st;
     hci_payload_size := hci_payload_size st; hci_pad := hci_pad st; hci_state := hci_state st;
     miso := miso st; irqs := irqs st; pins := pins st; clock := clock st; in_isr := in_isr st;
     trace := trace st |}.

Definition set_hci_available_buffer_count (v : Z) (st : state) : state :=
  {| wifi_connected := wifi_connected st; wifi_dhcp := wifi_dhcp st; ip_addr := ip_addr st;
     hci_data_available := hci_data_available st;
     hci_pending_event_available := hci_pending_event_available st;
     hci_pending_event := hci_pending_event st; hci_buffer_size := hci_buffer_size st;
     hci_buffer_count := hci_buffer_count st; hci_available_buffer_count := v;
     hci_payload_size := hci_payload_size st; hci_pad := hci_pad st; hci_state := hci_state st;
     miso := miso st; irqs := irqs st; pins := pins st; clock := clock st; in_isr := in_isr st;
     trace := trace st |}.

Definition set_hci_payload_size (v : Z) (st : state) : state :=
  {| wifi_connected := wifi_connected st; wifi_dhcp := wifi_dhcp st; ip_addr := ip_addr st;
     hci_data_available := hci_data_available st;
     hci_pending_event_available := hci_pending_event_available st;
     hci_pending_event := hci_pending_event st; hci_buffer_size := hci_buffer_size st;
     hci_buffer_count := hci_buffer_count st;
     hci_available_buffer_count := hci_available_buffer_count st; hci_payload_size := v;
     hci_pad := hci_pad st; hci_state := hci_state st; miso := miso st; irqs := irqs st;
     pins := pins st; clock := clock st; in_isr := in_isr st; trace := trace st |}.

Definition set_hci_pad (v : Z) (st : state) : state :=
  {| wifi_connected := wifi_connected st; wifi_dhcp := wifi_dhcp st; ip_addr := ip_addr st;
     hci_data_available := hci_data_available st;
     hci_pending_event_available := hci_pending_event_available st;
     hci_pending_event := hci_pending_event st; hci_buffer_size := hci_buffer_size st;
     hci_buffer_count := hci_buffer_count st;
     hci_available_buffer_count := hci_available_buffer_count st;
     hci_payload_size := hci_payload_size st; hci_pad := v; hci_state := hci_state st;
     miso := miso st; irqs := irqs st; pins := pins st; clock := clock st; in_isr := in_isr st;
     trace := trace st |}.

Definition set_hci_state (v : Z) (st : state) : state :=
  {| wifi_connected := wifi_connected st; wifi_dhcp := wifi_dhcp st; ip_addr := ip_addr st;
     hci_data_available := hci_data_available st;
     hci_pending_event_available := hci_pending_event_available st;
     hci_pending_event := hci_pending_event st; hci_buffer_size := hci_buffer_size st;
     hci_buffer_count := hci_buffer_count st;
     hci_available_buffer_count := hci_available_buffer_count st;
     hci_payload_size := hci_payload_size st; hci_pad := hci_pad st; hci_state := v;
     miso := miso st; irqs := irqs st; pins := pins st; clock := clock st; in_isr := in_isr st;
     trace := trace st |}.

Definition set_miso (v : list Z) (st : state) : state :=
  {| wifi_connected := wifi_connected st; wifi_dhcp := wifi_dhcp st; ip_addr := ip_addr st;
     hci_data_available := hci_data_available st;
     hci_pending_event_available := hci_pending_event_available st;
     hci_pending_event := hci_pending_event st; hci_buffer_size := hci_buffer_size st;
     hci_buffer_count := hci_buffer_count st;
     hci_available_buffer_count := hci_available_buffer_count st;
     hci_payload_size := hci_payload_size st; hci_pad := hci_pad st; hci_state := hci_state st;
     miso := v; irqs := irqs st; pins := pins st; clock := clock st; in_isr := in_isr st;
     trace := trace st |}.

Definition set_irqs (v : list bool) (st : state) : state :=
  {| wifi_connected := wifi_connected st; wifi_dhcp := wifi_dhcp st; ip_addr := ip_addr st;
     hci_data_available := hci_data_available st;
     hci_pending_event_available := hci_pending_event_available st;
     hci_pending_event := hci_pending_event st; hci_buffer_size := hci_buffer_size st;
     hci_buffer_count := hci_buffer_count st;
     hci_available_buffer_count := hci_available_buffer_count st;
     hci_payload_size := hci_payload_size st; hci_pad := hci_pad st; hci_state := hci_state st;
     miso := miso st; irqs := v; pins := pins st; clock := clock st; in_isr := in_isr st;
     trace := trace st |}.

Definition set_pins (v : list bool) (st : state) : state :=
  {| wifi_connected := wifi_connected st; wifi_dhcp := wifi_dhcp st; ip_addr := ip_addr st;
     hci_data_available := hci_data_available st;
     hci_pending_event_available := hci_pending_event_available st;
     hci_pending_event := hci_pending_event st; hci_buffer_size := hci_buffer_size st;
     hci_buffer_count := hci_buffer_count st;
     hci_available_buffer_count := hci_available_buffer_count st;
     hci_payload_size := hci_payload_size st; hci_pad := hci_pad st; hci_state := hci_state st;
     miso := miso st; irqs := irqs st; pins := v; clock := clock st; in_isr := in_isr st;
     trace := trace st |}.

Definition set_clock (v : list Z) (st : state) : state :=
  {| wifi_connected := wifi_connected st; wifi_dhcp := wifi_dhcp st; ip_addr := ip_addr st;
     hci_data_available := hci_data_available st;
     hci_pending_event_available := hci_pending_event_available st;
     hci_pending_event := hci_pending_event st; hci_buffer_size := hci_buffer_size st;
     hci_buffer_count := hci_buffer_count st;
     hci_available_buffer_count := hci_available_buffer_count st;
     hci_payload_size := hci_payload_size st; hci_pad := hci_pad st; hci_state := hci_state st;
     miso := miso st; irqs := irqs st; pins := pins st; clock := v; in_isr := in_isr st;
     trace := trace st |}.

Definition set_in_isr (v : bool) (st : state) : state :=
  {| wifi_connected := wifi_connected st; wifi_dhcp := wifi_dhcp st; ip_addr := ip_addr st;
     hci_data_available := hci_data_available st;
     hci_pending_event_available := hci_pending_event_available st;
     hci_pending_event := hci_pending_event st; hci_buffer_size := hci_buffer_size st;
     hci_buffer_count := hci_buffer_count st;
     hci_available_buffer_count := hci_available_buffer_count st;
     hci_payload_size := hci_payload_size st; hci_pad := hci_pad st; hci_state := hci_state st;
     miso := miso st; irqs := irqs st; pins := pins st; clock := clock st; in_isr := v;
     trace := trace st |}.

Definition set_trace (v : list event) (st : state) : state :=
  {| wifi_connected := wifi_connected st; wifi_dhcp := wifi_dhcp st; ip_addr := ip_addr st;
     hci_data_available := hci_data_available st;
     hci_pending_event_available := hci_pending_event_available st;
     hci_pending_event := hci_pending_event st; hci_buffer_size := hci_buffer_size st;
     hci_buffer_count := hci_buffer_count st;
     hci_available_buffer_count := hci_available_buffer_count st;
     hci_payload_size := hci_payload_size st; hci_pad := hci_pad st; hci_state := hci_state st;
     miso := miso st; irqs := irqs st; pins := pins st; clock := clock st; in_isr := in_isr st;
     trace := v |}.

(** [ip_addr[i] = v] *)
Fixpoint store_at (i : nat) (v : Z) (l : list Z) : list Z :=
  match l, i with
  | [], _ => []
  | _ :: t, O => v :: t
  | x :: t, S j => x :: store_at j v t
  end.

(** ** The monad: state passing, [None] when the world's script is used up
    (a busy-wait that the script never releases) *)

Definition M (A : Type) : Type := state -> option (A * state).

Definition ret {A : Type} (a : A) : M A := fun st => Some (a, st).

Definition bind {A B : Type} (m : M A) (f : A -> M B) : M B :=
  fun st => match m st with
            | Some (a, st') => f a st'
            | None => None
            end.

Notation "x <- c1 ;; c2" := (bind c1 (fun x => c2))
  (at level 61, c1 at next level, right associativity).
Notation "c1 ;; c2" := (bind c1 (fun _ => c2))
  (at level 61, right associativity).

Definition get {A : Type} (f : state -> A) : M A := fun st => Some (f st, st).
Definition modify (g : state -> state) : M unit := fun st => Some (tt, g st).

Definition log (a : action) : M unit :=
  fun st => Some (tt, set_trace (trace st ++ [(in_isr st, a)]) st).

(** ** The hardware the driver touches *)

(** [SPI.transfer]: one byte out, one byte in.  A used-up script reads 0. *)
Definition hci_transfer (out : Z) : M Z :=
  fun st =>
    let inb := u8 (hd 0 (miso st)) in
    Some (inb, set_trace (trace st ++ [(in_isr st, Xfer (u8 out) inb)])
                 (set_miso (tl (miso st)) st)).

(** [digitalRead(CC3K_IRQ_PIN) == LOW] *)
Definition irq_pin_low : M bool :=
  fun st => match pins st with
            | [] => None
            | b :: ps => Some (b, set_pins ps st)
            end.

(** [millis()] *)
Definition millis : M Z :=
  fun st => match clock st with
            | [] => None
            | t :: ts => Some (u32 t, set_clock ts st)
            end.

(** [wifi_callback], the user's function: only the call is recorded. *)
Definition wifi_callback (ev arg : Z) : M unit := log (Callback ev arg).

(** ** Low level SPI reading and writing *)

Definition hci_read_u8 : M Z :=
  fun st =>
    if 0 <? hci_payload_size st
    then (modify (set_hci_payload_size (hci_payload_size st - 1)) ;;
          hci_transfer 0) st
    else ret 0 st.

Definition hci_read_u16_le : M Z :=
  b0 <- hci_read_u8 ;;
  b1 <- hci_read_u8 ;;
  ret (Z.lor b0 (Z.shiftl b1 8)).

Definition hci_read_u32_le : M Z :=
  b0 <- hci_read_u8 ;;
  b1 <- hci_read_u8 ;;
  b2 <- hci_read_u8 ;;
  b3 <- hci_read_u8 ;;
  ret (Z.lor (Z.lor (Z.lor b0 (Z.shiftl b1 8)) (Z.shiftl b2 16)) (Z.shiftl b3 24)).

(** [hci_read_array(data, length)]: the bytes stored at data[0..length-1]. *)
Fixpoint hci_read_array (length : nat) : M (list Z) :=
  match length with
  | O => ret []
  | S n => b <- hci_read_u8 ;; bs <- hci_read_array n ;; ret (b :: bs)
  end.

Definition hci_write_u8 (v : Z) : M unit :=
  fun st =>
    if 0 <? hci_payload_size st
    then (modify (set_hci_payload_size (hci_payload_size st - 1)) ;;
          hci_transfer v ;; ret tt) st
    else ret tt st.

Definition hci_write_u16_le (v : Z) : M unit :=
  hci_write_u8 (Z.land (Z.shiftr v 0) 0xff) ;;
  hci_write_u8 (Z.land (Z.shiftr v 8) 0xff).

(** The argument is converted to [uint32_t] at the call. *)
Definition hci_write_u32_le (v : Z) : M unit :=
  let v := u32 v in
  hci_write_u8 (Z.land (Z.shiftr v 0) 0xff) ;;
  hci_write_u8 (Z.land (Z.shiftr v 8) 0xff) ;;
  hci_write_u8 (Z.land (Z.shiftr v 16) 0xff) ;;
  hci_write_u8 (Z.land (Z.shiftr v 24) 0xff).

(** [hci_write_array(data, length)]: [data] is the memory at the pointer;
    a read past its end (undefined in C) is taken as 0. *)
Fixpoint hci_write_array (data : list Z) (length : nat) : M unit :=
  match length with
  | O => ret tt
  | S n => hci_write_u8 (hd 0 data) ;; hci_write_array (tl data) n
  end.

Section Driver.

(** The header's constants, and the width of [int] on the target (16 on the
    AVR boards the pin numbers belong to, 32 on the ARM ones). *)
Variable h : tinyhci_h.
Variable INT_BITS : Z.

(** A C++ compiler accepts the [switch] only with pairwise different case
    labels; the event codes are [uint16_t] values. *)
Hypothesis labels_distinct : NoDup (case_labels h).
Hypothesis free_buff_u16 : is_u16 (HCI_EVNT_DATA_UNSOL_FREE_BUFF h).
Hypothesis int_bits : int_width INT_BITS.

(** ** Receiving: [hci_begin_receive], [hci_end_receive] *)

Definition hci_begin_receive : M unit :=
  log CsAssert ;;
  hci_transfer HCI_READ ;;
  hci_transfer 0 ;;
  hci_transfer 0 ;;
  p0 <- hci_transfer 0 ;;
  p1 <- hci_transfer 0 ;;
  modify (set_hci_payload_size (u16 (Z.lor (Z.shiftl p0 8) p1))).

(** [while (hci_payload_size) hci_read_u8();] *)
Fixpoint discard_unread (fuel : nat) : M unit :=
  fun st =>
    if hci_payload_size st =? 0 then ret tt st
    else match fuel with
         | O => None
         | S f => (hci_read_u8 ;; discard_unread f) st
         end.

(** [while (digitalRead(CC3K_IRQ_PIN) == LOW) ;] *)
Fixpoint wait_irq_release (fuel : nat) : M unit :=
  match fuel with
  | O => fun _ => None
  | S f => low <- irq_pin_low ;; if (low : bool) then wait_irq_release f else ret tt
  end.

Definition hci_end_receive : M unit :=
  (fun st => discard_unread (Z.to_nat (hci_payload_size st)) st) ;;
  log CsRelease ;;
  (fun st => wait_irq_release (length (pins st)) st).

(** ** The incoming event handler *)

(** The loop of the [HCI_EVNT_DATA_UNSOL_FREE_BUFF] case. *)
Fixpoint free_buff_entries (n : nat) : M unit :=
  match n with
  | O => ret tt
  | S k =>
      hci_read_u16_le ;;
      c <- hci_read_u16_le ;;
      modify (fun st => set_hci_available_buffer_count
                          (u8 (hci_available_buffer_count st + c)) st) ;;
      free_buff_entries k
  end.

(** The [switch (rx_event_type)]; its value is [arg]. *)
Definition unsolicited_event (rx_event_type : Z) : M Z :=
  if rx_event_type =? HCI_EVNT_WLAN_UNSOL_CONNECT h then
    modify (set_wifi_connected 1) ;; ret 0
  else if rx_event_type =? HCI_EVNT_WLAN_UNSOL_DISCONNECT h then
    modify (set_wifi_connected 0) ;; modify (set_wifi_dhcp 0) ;; ret 0
  else if rx_event_type =? HCI_EVNT_WLAN_UNSOL_DHCP h then
    modify (set_wifi_dhcp 1) ;;
    hci_read_u8 ;;
    b3 <- hci_read_u8 ;; modify (fun st => set_ip_addr (store_at 3 b3 (ip_addr st)) st) ;;
    b2 <- hci_read_u8 ;; modify (fun st => set_ip_addr (store_at 2 b2 (ip_addr st)) st) ;;
    b1 <- hci_read_u8 ;; modify (fun st => set_ip_addr (store_at 1 b1 (ip_addr st)) st) ;;
    b0 <- hci_read_u8 ;; modify (fun st => set_ip_addr (store_at 0 b0 (ip_addr st)) st) ;;
    ret 0
  else if rx_event_type =? HCI_EVNT_WLAN_UNSOL_TCP_CLOSE_WAIT h then
    hci_read_u8 ;;
    arg <- hci_read_u32_le ;;
    ret arg
  else if rx_event_type =? HCI_EVNT_DATA_UNSOL_FREE_BUFF h then
    hci_read_u8 ;;
    fce_count <- hci_read_u16_le ;;
    free_buff_entries (Z.to_nat fce_count) ;;
    ret 0
  else ret 0.

Definition hci_dispatch_event : M unit :=
  rx_event_type <- hci_read_u16_le ;;
  rx_args_size <- hci_read_u8 ;;
  pending <- get hci_pending_event ;;
  if rx_event_type =? pending then
    modify (set_hci_pending_event_available 1)
  else
    arg <- unsolicited_event rx_event_type ;;
    wifi_callback rx_event_type arg ;;
    hci_end_receive.

(** [for (uint8_t i = 0; i < rx_args_size; i++) hci_read_u8();] *)
Fixpoint skip_args (n : nat) : M unit :=
  match n with
  | O => ret tt
  | S k => hci_read_u8 ;; skip_args k
  end.

Definition hci_dispatch_data : M unit :=
  rx_data_type <- hci_read_u8 ;;
  rx_args_size <- hci_read_u8 ;;
  rx_payload_size <- hci_read_u16_le ;;
  skip_args (Z.to_nat rx_args_size) ;;
  modify (set_hci_data_available 1).

Definition hci_dispatch : M unit :=
  rx_type <- hci_read_u8 ;;
  if rx_type =? HCI_TYPE_EVNT then hci_dispatch_event
  else if rx_type =? HCI_TYPE_DATA then hci_dispatch_data
  else ret tt.

Definition hci_irq : M unit :=
  st_now <- get hci_state ;;
  if st_now =? HCI_STATE_WAIT_ASSERT then
    modify (set_hci_state HCI_STATE_IDLE)
  else
    hci_begin_receive ;; hci_dispatch.

(** ** Interrupts and busy-waits

    The handler runs with interrupts disabled.  Towards the application
    thread an interrupt shows at the places where the thread reads a
    variable the handler writes, that is between two polls of a
    busy-wait: each poll takes the next entry of [irqs]. *)

Definition interrupt : M unit :=
  modify (set_in_isr true) ;; hci_irq ;; modify (set_in_isr false).

Definition poll_irq : M unit :=
  fun st => match irqs st with
            | [] => None
            | b :: bs => (if (b : bool) then interrupt else ret tt) (set_irqs bs st)
            end.

(** [while (!ready) ;] *)
Fixpoint spin (fuel : nat) (ready : state -> bool) : M unit :=
  fun st =>
    if ready st then ret tt st
    else match fuel with
         | O => None
         | S f => (poll_irq ;; spin f ready) st
         end.

Definition busy_wait (ready : state -> bool) : M unit :=
  fun st => spin (length (irqs st)) ready st.

(** [while (!hci_pending_event_available && millis() <= tmr) ;] *)
Fixpoint spin_until (fuel : nat) (tmr : Z) : M unit :=
  fun st =>
    if negb (hci_pending_event_available st =? 0) then ret tt st
    else (now <- millis ;;
          if now <=? tmr then
            match fuel with
            | O => fun _ => None
            | S f => poll_irq ;; spin_until f tmr
            end
          else ret tt) st.

(** ** Sending: commands and data *)

Definition hci_begin_command (opcode argsSize : Z) : M unit :=
  let opcode := u16 opcode in
  let argsSize := u16 argsSize in
  modify (set_hci_state HCI_STATE_WAIT_ASSERT) ;;
  log CsAssert ;;
  busy_wait (fun st => hci_state st =? HCI_STATE_IDLE) ;;
  let pad := if Z.land argsSize 1 =? 0 then 1 else 0 in
  modify (set_hci_pad pad) ;;
  modify (set_hci_payload_size (u16 (4 + argsSize + pad))) ;;
  size <- get hci_payload_size ;;
  hci_transfer HCI_WRITE ;;
  hci_transfer (Z.shiftr size 8) ;;
  hci_transfer (Z.land size 0xff) ;;
  hci_transfer 0 ;;
  hci_transfer 0 ;;
  hci_transfer HCI_TYPE_CMND ;;
  hci_transfer (Z.land opcode 0xff) ;;
  hci_transfer (Z.shiftr opcode 8) ;;
  hci_transfer argsSize ;;
  ret tt.

(** The wait of [hci_end_command_begin_receive] and the test after it
    (the lines from [wdt_reset()] on). *)
Definition await_reply (tmr : Z) : M unit :=
  (fun st => spin_until (length (irqs st)) tmr st) ;;
  late <- millis ;;
  if tmr <? late then wifi_callback (HCI_EVNT_CC3000_LOCKED h) 0 else ret tt.

Definition hci_end_command_begin_receive (event timeout : Z) : M unit :=
  modify (set_hci_pending_event (u16 event)) ;;
  modify (set_hci_pending_event_available 0) ;;
  modify (set_hci_data_available 0) ;;
  now <- millis ;;
  let tmr := u32 (now + u32 timeout) in
  pad <- get hci_pad ;;
  (if negb (pad =? 0) then hci_transfer 0 ;; ret tt else ret tt) ;;
  log CsRelease ;;
  await_reply tmr.

(** [int totalSize = argsSize + bufferSize;] is an [int]. *)
Definition hci_begin_data (opcode argsSize bufferSize : Z) : M unit :=
  let opcode := u16 opcode in
  let argsSize := u8 argsSize in
  let bufferSize := u16 bufferSize in
  modify (set_hci_state HCI_STATE_WAIT_ASSERT) ;;
  log CsAssert ;;
  busy_wait (fun st => hci_state st =? HCI_STATE_IDLE) ;;
  let totalSize := to_signed INT_BITS (argsSize + bufferSize) in
  let pad := if negb (Z.land totalSize 1 =? 0) then 1 else 0 in
  modify (set_hci_pad pad) ;;
  modify (set_hci_payload_size (u16 (4 + totalSize + pad))) ;;
  size <- get hci_payload_size ;;
  hci_transfer HCI_WRITE ;;
  hci_transfer (Z.shiftr size 8) ;;
  hci_transfer size ;;
  hci_transfer 0 ;;
  hci_transfer 0 ;;
  hci_transfer HCI_TYPE_DATA ;;
  hci_transfer opcode ;;
  hci_transfer argsSize ;;
  hci_transfer totalSize ;;
  hci_transfer (Z.shiftr totalSize 8) ;;
  ret tt.

Definition hci_end_data_begin_receive : Z -> Z -> M unit :=
  hci_end_command_begin_receive.

Definition hci_wait_data : M unit :=
  busy_wait (fun st => negb (hci_data_available st =? 0)).

Definition hci_read_status : M unit := hci_read_u8 ;; ret tt.

Definition hci_end_command_receive_u32_result (event timeout : Z) : M Z :=
  hci_end_command_begin_receive event timeout ;;
  hci_read_status ;;
  result <- hci_read_u32_le ;;
  hci_end_receive ;;
  ret result.

(** ** The socket API *)

(** The [uint32_t] result leaves through the function's [int]. *)
Definition socket (domain type protocol : Z) : M Z :=
  hci_begin_command HCI_CMND_SOCKET 12 ;;
  hci_write_u32_le domain ;;
  hci_write_u32_le type ;;
  hci_write_u32_le protocol ;;
  r <- hci_end_command_receive_u32_result HCI_CMND_SOCKET 1000 ;;
  ret (to_signed INT_BITS r).

(** [for (int i = 0; i < return_length; i++) buffer[i] = hci_read_u8();]
    gives the bytes stored at buffer[0], buffer[1], ... *)
Fixpoint recv_copy (n : nat) : M (list Z) :=
  match n with
  | O => ret []
  | S k => b <- hci_read_u8 ;; bs <- recv_copy k ;; ret (b :: bs)
  end.

(** [recv] returns its [int] and the bytes it stored in [buffer]. *)
Definition recv (sd size flags : Z) : M (Z * list Z) :=
  hci_begin_command HCI_CMND_RECV 12 ;;
  hci_write_u32_le sd ;;
  hci_write_u32_le size ;;
  hci_write_u32_le flags ;;
  hci_end_command_begin_receive HCI_CMND_RECV 5000 ;;
  hci_read_status ;;
  return_sd <- hci_read_u32_le ;;
  len <- hci_read_u32_le ;;
  let return_length := to_signed 32 len in
  return_flags <- hci_read_u32_le ;;
  hci_end_receive ;;
  if 0 <? return_length then
    hci_wait_data ;;
    let return_length := if size <? return_length then size else return_length in
    stored <- recv_copy (Z.to_nat return_length) ;;
    hci_end_receive ;;
    ret (to_signed INT_BITS return_length, stored)
  else ret (to_signed INT_BITS return_length, []).

(** [hci_available_buffer_count--] *)
Definition take_buffer (st : state) : state :=
  set_hci_available_buffer_count (u8 (hci_available_buffer_count st - 1)) st.



(** [addr] is [None] for a null pointer, else the memory it points to. *)
Definition connect (sd : Z) (addr : option (list Z)) (addrlen : Z) : M Z :=
  match addr with
  | None => ret (EFAIL h)
  | Some a =>
      if addrlen =? 0 then ret (EFAIL h)
      else
        let addrlen := 8 in
        hci_begin_command HCI_CMND_CONNECT (12 + addrlen) ;;
        hci_write_u32_le sd ;;
        hci_write_u32_le 0x08 ;;
        hci_write_u32_le addrlen ;;
        hci_write_array a (Z.to_nat (u16 addrlen)) ;;
        r <- hci_end_command_receive_u32_result HCI_CMND_CONNECT 10000 ;;
        ret (to_signed INT_BITS r)
  end.


(** ** The rest of the API *)

(** More of tinyhci.h: the longest host name [gethostbyname] accepts, the
    longest service name of [mdnsAdvertiser], and the two event bits
    [wlan_init] masks. *)
Variable HOSTNAME_MAX_LENGTH : Z.
Variable MDNS_DEVICE_SERVICE_MAX_LENGTH : Z.
Variable HCI_EVNT_WLAN_KEEPALIVE : Z.
Variable HCI_EVNT_WLAN_UNSOL_INIT : Z.

Definition HCI_CMND_WLAN_CONNECT : Z := 0x0001.
Definition HCI_CMND_WLAN_IOCTL_SET_CONNECTION_POLICY : Z := 0x0004.
Definition HCI_CMND_EVENT_MASK : Z := 0x0008.
Definition HCI_CMND_BIND : Z := 0x1002.
Definition HCI_CMND_LISTEN : Z := 0x1006.
Definition HCI_CMND_SELECT : Z := 0x1008.
Definition HCI_CMND_SETSOCKOPT : Z := 0x1009.
Definition HCI_CMND_GETHOSTNAME : Z := 0x1010.
Definition HCI_CMND_MDNS_ADVERTISE : Z := 0x1011.
Definition HCI_NETAPP_SET_TIMERS : Z := 0x2009.
Definition HCI_CMND_SIMPLE_LINK_START : Z := 0x4000.
Definition HCI_CMND_READ_BUFFER_SIZE : Z := 0x400B.
Definition SL_PATCHES_REQUEST_DEFAULT : Z := 0.
Definition MIN_TIMER_VAL_SECONDS : Z := 20.

Definition set_hci_buffer_size (v : Z) (st : state) : state :=
  {| wifi_connected := wifi_connected st; wifi_dhcp := wifi_dhcp st; ip_addr := ip_addr st;
     hci_data_available := hci_data_available st;
     hci_pending_event_available := hci_pending_event_available st;
     hci_pending_event := hci_pending_event st; hci_buffer_size := v;
     hci_buffer_count := hci_buffer_count st;
     hci_available_buffer_count := hci_available_buffer_count st;
     hci_payload_size := hci_payload_size st; hci_pad := hci_pad st; hci_state := hci_state st;
     miso := miso st; irqs := irqs st; pins := pins st; clock := clock st; in_isr := in_isr st;
     trace := trace st |}.

Definition set_hci_buffer_count (v : Z) (st : state) : state :=
  {| wifi_connected := wifi_connected st; wifi_dhcp := wifi_dhcp st; ip_addr := ip_addr st;
     hci_data_available := hci_data_available st;
     hci_pending_event_available := hci_pending_event_available st;
     hci_pending_event := hci_pending_event st; hci_buffer_size := hci_buffer_size st;
     hci_buffer_count := v;
     hci_available_buffer_count := hci_available_buffer_count st;
     hci_payload_size := hci_payload_size st; hci_pad := hci_pad st; hci_state := hci_state st;
     miso := miso st; irqs := irqs st; pins := pins st; clock := clock st; in_isr := in_isr st;
     trace := trace st |}.

(** *** Power-up: [hci_begin_first_command], [wlan_init] *)

(** [for (;;);]: the call does not return. *)
Definition hang {A : Type} : M A := fun _ => None.

(** The loop that waits for the IRQ pin to go low after power-up; [true]
    when the pin was seen low, [false] when the loop gave up (the branch
    with the message and the endless loop).  [start] is a [uint16_t]; the
    difference is taken in [unsigned long]. *)
Fixpoint detect_cc3000 (fuel : nat) (start : Z) : M bool :=
  match fuel with
  | O => fun _ => None
  | S f =>
      low <- irq_pin_low ;;
      if (low : bool) then ret true
      else
        now <- millis ;;
        if 5000 <=? u32 (now - start) then ret false
        else detect_cc3000 f start
  end.

(** [delay(ms)]: time passes; nothing of the state changes. *)
Definition delay (ms : Z) : M unit := ret tt.

Definition hci_begin_first_command (opcode argsSize : Z) : M unit :=
  let opcode := u16 opcode in
  let argsSize := u16 argsSize in
  t0 <- millis ;;
  let start := u16 t0 in
  seen <- (fun st => detect_cc3000 (length (pins st)) start st) ;;
  if (seen : bool) then
    log CsAssert ;;
    delay 50 ;;
    let pad := if Z.land argsSize 1 =? 0 then 1 else 0 in
    modify (set_hci_pad pad) ;;
    modify (set_hci_payload_size (u16 (4 + argsSize + pad))) ;;
    size <- get hci_payload_size ;;
    hci_transfer HCI_WRITE ;;
    hci_transfer (Z.shiftr size 8) ;;
    hci_transfer (Z.land size 0xff) ;;
    hci_transfer 0 ;;
    delay 50 ;;
    hci_transfer 0 ;;
    hci_transfer HCI_TYPE_CMND ;;
    hci_transfer (Z.land opcode 0xff) ;;
    hci_transfer (Z.shiftr opcode 8) ;;
    hci_transfer argsSize ;;
    ret tt
  else hang.

(** [wlan_init].  The watchdog set-up, the pin modes, the enable pin and
    the SPI settings are outside the state; of the pins only chip select
    is traced.  [attachInterrupt] comes before the first wait that polls
    for the handler. *)
Definition wlan_init : M unit :=
  delay 500 ;;
  log CsRelease ;;
  delay 100 ;;
  delay 100 ;;
  hci_begin_first_command HCI_CMND_SIMPLE_LINK_START 1 ;;
  hci_write_u8 SL_PATCHES_REQUEST_DEFAULT ;;
  hci_end_command_begin_receive HCI_CMND_SIMPLE_LINK_START 1000 ;;
  hci_end_receive ;;
  hci_begin_command HCI_CMND_READ_BUFFER_SIZE 0 ;;
  hci_end_command_begin_receive HCI_CMND_READ_BUFFER_SIZE 1000 ;;
  hci_read_status ;;
  count <- hci_read_u8 ;;
  modify (set_hci_buffer_count count) ;;
  modify (fun st => set_hci_available_buffer_count (hci_buffer_count st) st) ;;
  size <- hci_read_u16_le ;;
  modify (set_hci_buffer_size size) ;;
  hci_end_receive ;;
  hci_begin_command HCI_CMND_EVENT_MASK 4 ;;
  hci_write_u32_le (Z.lor HCI_EVNT_WLAN_KEEPALIVE HCI_EVNT_WLAN_UNSOL_INIT) ;;
  hci_end_command_begin_receive HCI_CMND_EVENT_MASK 1000 ;;
  hci_end_receive.

(** *** Network settings *)

(** [MIN_TIMER_SET(t)] *)
Definition MIN_TIMER_SET (t : Z) : Z :=
  if negb (0 =? t) && (t <? MIN_TIMER_VAL_SECONDS) then MIN_TIMER_VAL_SECONDS else t.

(** [netapp_timeout_values]: the four [unsigned long] variables the
    pointers name are given by value; the result comes with the values the
    call leaves in them. *)
Definition netapp_timeout_values (aucDHCP aucARP aucKeepalive aucInactivity : Z)
    : M (Z * (Z * Z * Z * Z)) :=
  let aucDHCP := MIN_TIMER_SET aucDHCP in
  let aucARP := MIN_TIMER_SET aucARP in
  let aucKeepalive := MIN_TIMER_SET aucKeepalive in
  let aucInactivity := MIN_TIMER_SET aucInactivity in
  hci_begin_command HCI_NETAPP_SET_TIMERS 16 ;;
  hci_write_u32_le aucDHCP ;;
  hci_write_u32_le aucARP ;;
  hci_write_u32_le aucKeepalive ;;
  hci_write_u32_le aucInactivity ;;
  r <- hci_end_command_receive_u32_result HCI_NETAPP_SET_TIMERS 1000 ;;
  ret (to_signed 32 r, (aucDHCP, aucARP, aucKeepalive, aucInactivity)).

Definition wlan_ioctl_set_connection_policy
    (should_connect_to_open_ap should_use_fast_connect use_profiles : bool) : M Z :=
  hci_begin_command HCI_CMND_WLAN_IOCTL_SET_CONNECTION_POLICY 12 ;;
  hci_write_u32_le (if should_connect_to_open_ap then 1 else 0) ;;
  hci_write_u32_le (if should_use_fast_connect then 1 else 0) ;;
  hci_write_u32_le (if use_profiles then 1 else 0) ;;
  r <- hci_end_command_receive_u32_result HCI_CMND_WLAN_IOCTL_SET_CONNECTION_POLICY 1000 ;;
  ret (to_signed 32 r).

(** [wlan_connect]: [ssid] is the memory at the pointer, [bssid] and [key]
    are [None] for a null pointer. *)
Definition wlan_connect (sec_type : Z) (ssid : list Z) (ssid_len : Z)
    (bssid key : option (list Z)) (key_len : Z) : M Z :=
  hci_begin_command HCI_CMND_WLAN_CONNECT (28 + ssid_len + key_len) ;;
  hci_write_u32_le 0x1c ;;
  hci_write_u32_le ssid_len ;;
  hci_write_u32_le sec_type ;;
  hci_write_u32_le (16 + ssid_len) ;;
  hci_write_u32_le key_len ;;
  hci_write_u16_le 0 ;;
  match bssid with
  | Some b => hci_write_array b 6
  | None => hci_write_array [0; 0; 0; 0; 0; 0] 6
  end ;;
  hci_write_array ssid (Z.to_nat (u16 ssid_len)) ;;
  match key with
  | Some k => if key_len =? 0 then ret tt else hci_write_array k (Z.to_nat (u16 key_len))
  | None => ret tt
  end ;;
  r <- hci_end_command_receive_u32_result HCI_CMND_WLAN_CONNECT 60000 ;;
  ret (to_signed 32 r).

(** *** Sockets *)

Definition setsockopt (sd level optname : Z) (optval : list Z) (optlen : Z) : M Z :=
  hci_begin_command HCI_CMND_SETSOCKOPT (20 + optlen) ;;
  hci_write_u32_le sd ;;
  hci_write_u32_le level ;;
  hci_write_u32_le optname ;;
  hci_write_u32_le 8 ;;
  hci_write_u32_le optlen ;;
  hci_write_array optval (Z.to_nat (u16 optlen)) ;;
  r <- hci_end_command_receive_u32_result HCI_CMND_SETSOCKOPT 1000 ;;
  ret (to_signed INT_BITS r).

Definition listen (sd backlog : Z) : M Z :=
  hci_begin_command HCI_CMND_LISTEN 8 ;;
  hci_write_u32_le sd ;;
  hci_write_u32_le backlog ;;
  r <- hci_end_command_receive_u32_result HCI_CMND_LISTEN 1000 ;;
  ret (to_signed INT_BITS r).

(** The API's [bind] (the monad has the name). *)
Definition bind_socket (sd : Z) (addr : list Z) (addrlen : Z) : M Z :=
  hci_begin_command HCI_CMND_BIND 20 ;;
  hci_write_u32_le sd ;;
  hci_write_u32_le 0x8 ;;
  hci_write_u32_le addrlen ;;
  hci_write_array addr 8 ;;
  r <- hci_end_command_receive_u32_result HCI_CMND_BIND 1000 ;;
  ret (to_signed INT_BITS r).


(** [select]: a set is [None] for a null pointer, else the [unsigned long]
    it points to; [timeout] is [None] or the two fields of the [timeval].
    The result comes with what the call leaves in the sets and in the
    [timeval]. *)
Definition select (nfds : Z) (readsds writesds exceptsds : option Z)
    (timeout : option (Z * Z))
    : M (Z * (option Z * option Z * option Z) * option (Z * Z)) :=
  hci_begin_command HCI_CMND_SELECT 44 ;;
  hci_write_u32_le nfds ;;
  hci_write_u32_le 0x14 ;;
  hci_write_u32_le 0x14 ;;
  hci_write_u32_le 0x14 ;;
  hci_write_u32_le 0x14 ;;
  hci_write_u32_le (match timeout with Some _ => 1 | None => 0 end) ;;
  hci_write_u32_le (match readsds with Some s => s | None => 0 end) ;;
  hci_write_u32_le (match writesds with Some s => s | None => 0 end) ;;
  hci_write_u32_le (match exceptsds with Some s => s | None => 0 end) ;;
  let timeout :=
    match timeout with
    | Some (tv_sec, tv_usec) =>
        Some (tv_sec, if (tv_sec =? 0) && (tv_usec <? 5000) then 5000 else tv_usec)
    | None => None
    end in
  match timeout with
  | Some (tv_sec, tv_usec) => hci_write_u32_le tv_sec ;; hci_write_u32_le tv_usec
  | None => hci_write_u32_le 0 ;; hci_write_u32_le 0
  end ;;
  hci_end_command_begin_receive HCI_CMND_SELECT 10000 ;;
  hci_read_status ;;
  status <- hci_read_u32_le ;;
  let return_status := to_signed 32 status in
  rdfd <- hci_read_u32_le ;;
  let readsds := match readsds with Some _ => Some rdfd | None => None end in
  wrfd <- hci_read_u32_le ;;
  let writesds := match writesds with Some _ => Some wrfd | None => None end in
  exfd <- hci_read_u32_le ;;
  let exceptsds := match exceptsds with Some _ => Some exfd | None => None end in
  hci_end_receive ;;
  ret (to_signed INT_BITS return_status, (readsds, writesds, exceptsds), timeout).

(** [gethostbyname]: [hostname] is [None] for a null pointer; the result
    comes with the value stored at [ip], if one was. *)
Definition gethostbyname (hostname : option (list Z)) (hnLength : Z) : M (Z * option Z) :=
  let hnLength := u16 hnLength in
  match hostname with
  | None => ret (EFAIL h, None)
  | Some name =>
      if (hnLength =? 0) || (HOSTNAME_MAX_LENGTH <? hnLength) then ret (EFAIL h, None)
      else
        hci_begin_command HCI_CMND_GETHOSTNAME (8 + hnLength) ;;
        hci_write_u32_le 0x08 ;;
        hci_write_u32_le hnLength ;;
        hci_write_array name (Z.to_nat hnLength) ;;
        hci_end_command_begin_receive HCI_CMND_GETHOSTNAME 10000 ;;
        hci_read_status ;;
        return_status <- hci_read_u32_le ;;
        ip <- hci_read_u32_le ;;
        hci_end_receive ;;
        ret (to_signed INT_BITS return_status, Some ip)
  end.

(** [mdnsAdvertiser], compiled for firmware before 1.32. *)
Definition mdnsAdvertiser (mdnsEnabled : Z) (deviceServiceName : list Z)
    (deviceServiceNameLength : Z) : M Z :=
  let mdnsEnabled := u16 mdnsEnabled in
  let deviceServiceNameLength := u16 deviceServiceNameLength in
  if MDNS_DEVICE_SERVICE_MAX_LENGTH <? deviceServiceNameLength then ret (-1)
  else
    hci_begin_command HCI_CMND_MDNS_ADVERTISE (12 + deviceServiceNameLength) ;;
    hci_write_u32_le mdnsEnabled ;;
    hci_write_u32_le 8 ;;
    hci_write_u32_le deviceServiceNameLength ;;
    hci_write_array deviceServiceName (Z.to_nat deviceServiceNameLength) ;;
    r <- hci_end_command_receive_u32_result HCI_CMND_MDNS_ADVERTISE 5000 ;;
    ret (to_signed INT_BITS r).
(** ** Reading the trace, and the frames the CC3000 sends *)

(** The transfers of the bytes [outs] while the CC3000 shifts out [ms]. *)
Fixpoint xfers (isr : bool) (outs ms : list Z) : list event :=
  match outs with
  | [] => []
  | o :: os => (isr, Xfer (u8 o) (u8 (hd 0 ms))) :: xfers isr os (tl ms)
  end.

(** The state a transfer of [outs] leaves. *)
Definition after_xfers (outs : list Z) (st : state) : state :=
  set_trace (trace st ++ xfers (in_isr st) outs (miso st))
    (set_miso (skipn (length outs) (miso st)) st).

(** The next [n] bytes the CC3000 shifts out. *)
Fixpoint shifted_in (n : nat) (ms : list Z) : list Z :=
  match n with
  | O => []
  | S k => u8 (hd 0 ms) :: shifted_in k (tl ms)
  end.

Definition le16 (v : Z) : list Z :=
  [Z.land (Z.shiftr v 0) 0xff; Z.land (Z.shiftr v 8) 0xff].

Definition le32 (v : Z) : list Z :=
  [Z.land (Z.shiftr v 0) 0xff; Z.land (Z.shiftr v 8) 0xff;
   Z.land (Z.shiftr v 16) 0xff; Z.land (Z.shiftr v 24) 0xff].

Definition is_xfer (e : event) : bool :=
  match snd e with Xfer _ _ => true | _ => false end.

(** The calls of the user callback, with their context. *)
Definition calls (tr : list event) : list (bool * Z * Z) :=
  flat_map (fun e => match snd e with
                     | Callback ev arg => [(fst e, ev, arg)]
                     | _ => []
                     end) tr.

(** What the application thread itself did. *)
Definition by_thread (tr : list event) : list action :=
  map snd (filter (fun e => negb (fst e)) tr).

(** The calls of the callback the application thread itself made. *)
Definition thread_calls (tr : list event) : list (Z * Z) :=
  flat_map (fun a => match a with
                     | Callback ev arg => [(ev, arg)]
                     | _ => []
                     end) (by_thread tr).

(** What the CC3000 shifts out in a read transaction: three bytes while the
    read opcode and the two busy bytes go out, the payload length
    (big-endian), the payload. *)
Definition rx_frame (b0 b1 b2 : Z) (payload : list Z) : list Z :=
  let len := Z.of_nat (length payload) in
  [b0; b1; b2; len / 256; len mod 256] ++ payload.

(** The payload of a "buffers freed" event: per entry a 16-bit field the
    driver skips and the 16-bit number of freed buffers. *)
Definition free_buff_entry (e : Z * Z) : list Z := le16 (fst e) ++ le16 (snd e).

Definition free_buff_payload (args_size status : Z) (entries : list (Z * Z)) : list Z :=
  [HCI_TYPE_EVNT] ++ le16 (HCI_EVNT_DATA_UNSOL_FREE_BUFF h) ++ [args_size; status]
  ++ le16 (Z.of_nat (length entries)) ++ flat_map free_buff_entry entries.

Definition freed_total (entries : list (Z * Z)) : Z :=
  fold_right (fun e acc => snd e + acc) 0 entries.

(** The payload of the event that answers a command with a 32-bit result. *)
Definition reply_payload (event args_size status result : Z) (more : list Z) : list Z :=
  [HCI_TYPE_EVNT] ++ le16 event ++ [args_size; status] ++ le32 result ++ more.

(** The [n] bytes [hci_write_array] takes from the memory [data]. *)
Fixpoint mem_bytes (n : nat) (data : list Z) : list Z :=
  match n with
  | O => []
  | S k => hd 0 data :: mem_bytes k (tl data)
  end.

(** The bytes [hci_begin_command] puts on the link, and the state it leaves
    when the interrupt that answers chip select has come, [irs] being the
    polls still to come. *)
Definition command_pad_flag (argsSize : Z) : Z :=
  if Z.land (u16 argsSize) 1 =? 0 then 1 else 0.

Definition command_size (argsSize : Z) : Z :=
  u16 (4 + u16 argsSize + command_pad_flag argsSize).

Definition command_header (opcode argsSize : Z) : list Z :=
  [HCI_WRITE; Z.shiftr (command_size argsSize) 8; Z.land (command_size argsSize) 0xff; 0; 0;
   HCI_TYPE_CMND; Z.land (u16 opcode) 0xff; Z.shiftr (u16 opcode) 8; u16 argsSize].

Definition after_begin_command (opcode argsSize : Z) (irs : list bool) (st : state) : state :=
  after_xfers (command_header opcode argsSize)
    (set_hci_payload_size (command_size argsSize)
       (set_hci_pad (command_pad_flag argsSize)
          (set_hci_state HCI_STATE_IDLE
             (set_irqs irs (set_trace (trace st ++ [(in_isr st, CsAssert)]) st))))).

(** The same for [hci_begin_data]. *)
Definition data_total (argsSize bufferSize : Z) : Z :=
  to_signed INT_BITS (u8 argsSize + u16 bufferSize).

Definition data_pad_flag (argsSize bufferSize : Z) : Z :=
  if negb (Z.land (data_total argsSize bufferSize) 1 =? 0) then 1 else 0.

Definition data_size (argsSize bufferSize : Z) : Z :=
  u16 (4 + data_total argsSize bufferSize + data_pad_flag argsSize bufferSize).

Definition data_header (opcode argsSize bufferSize : Z) : list Z :=
  [HCI_WRITE; Z.shiftr (data_size argsSize bufferSize) 8; data_size argsSize bufferSize; 0; 0;
   HCI_TYPE_DATA; u16 opcode; u8 argsSize; data_total argsSize bufferSize;
   Z.shiftr (data_total argsSize bufferSize) 8].

Definition after_begin_data (opcode argsSize bufferSize : Z) (irs : list bool)
    (st : state) : state :=
  after_xfers (data_header opcode argsSize bufferSize)
    (set_hci_payload_size (data_size argsSize bufferSize)
       (set_hci_pad (data_pad_flag argsSize bufferSize)
          (set_hci_state HCI_STATE_IDLE
             (set_irqs irs (set_trace (trace st ++ [(in_isr st, CsAssert)]) st))))).

(** The state in which [hci_end_command_begin_receive] starts to wait:
    the reply slot armed, the pad byte out if there is one, chip select
    released; [cl] are the clock readings still to come. *)
Definition after_end_command (event : Z) (cl : list Z) (st : state) : state :=
  let st1 := set_clock cl
               (set_hci_data_available 0
                  (set_hci_pending_event_available 0
                     (set_hci_pending_event (u16 event) st))) in
  let st2 := if negb (hci_pad st =? 0) then after_xfers [0] st1 else st1 in
  set_trace (trace st2 ++ [(in_isr st, CsRelease)]) st2.

(** The number of pad bytes that makes a frame of even length on the wire:
    the 5 bytes of the SPI write header, the HCI header (4 bytes for a
    command, 5 for data), the arguments. *)
Definition command_pad (argsSize : Z) : nat := Z.to_nat ((5 + 4 + argsSize) mod 2).
Definition data_pad (totalSize : Z) : nat := Z.to_nat ((5 + 5 + totalSize) mod 2).

(** The state the interrupt handler leaves when the event that arrives is
    the awaited one: the frame header and the four bytes of the event header
    read (inside the handler), [payload] bytes declared, the transaction
    open. *)
Definition after_reply_irq (payload : Z) (st : state) : state :=
  set_in_isr false
    (set_hci_pending_event_available 1
       (after_xfers [HCI_READ; 0; 0; 0; 0; 0; 0; 0; 0]
          (set_hci_payload_size (payload - 4)
             (set_trace (trace st ++ [(true, CsAssert)]) (set_in_isr true st))))).

(** The same for a data frame with [nargs] argument bytes: the handler
    reads the type byte, the four bytes of the data header and the
    arguments, and raises [hci_data_available]. *)
Definition after_data_irq (payload : Z) (nargs : nat) (st : state) : state :=
  set_in_isr false
    (set_hci_data_available 1
       (after_xfers ([HCI_READ; 0; 0; 0; 0; 0; 0; 0; 0; 0] ++ repeat 0 nargs)
          (set_hci_payload_size (payload - 5 - Z.of_nat nargs)
             (set_trace (trace st ++ [(true, CsAssert)]) (set_in_isr true st))))).

(** ** A sample board

    The driver after [wlan_init] on a CC3000 with six buffers, nothing in
    flight and an empty script; concrete runs start from it. *)
Definition idle_board : state :=
  {| wifi_connected := 0; wifi_dhcp := 0; ip_addr := [0; 0; 0; 0];
     hci_data_available := 0; hci_pending_event_available := 0;
     hci_pending_event := 0xffff;
     hci_buffer_size := 1500; hci_buffer_count := 6; hci_available_buffer_count := 6;
     hci_payload_size := 0; hci_pad := 0; hci_state := HCI_STATE_IDLE;
     miso := []; irqs := []; pins := []; clock := [];
     in_isr := false; trace := [] |}.

(** ** Relations between the state before and after an operation *)

(** [m] relates the state it starts in to the state it leaves by [R]. *)
Definition keeps {A : Type} (R : state -> state -> Prop) (m : M A) : Prop :=
  forall st a st', m st = Some (a, st') -> R st st'.

(** The operation leaves the variable (or part of the world) [f] alone. *)
Definition same {B : Type} (f : state -> B) (st st' : state) : Prop := f st' = f st.

(** The operation stays in its context and appends to the trace only
    events of that context that satisfy [P]. *)
Definition adds (P : action -> Prop) (st st' : state) : Prop :=
  in_isr st' = in_isr st /\
  exists l, trace st' = trace st ++ l /\
            Forall (fun e : event => fst e = in_isr st /\ P (snd e)) l.

Definition only_xfer (a : action) : Prop :=
  match a with Xfer _ _ => True | _ => False end.

Definition any_action (a : action) : Prop := True.

(** What an operation of the application thread may leave behind while it
    polls: events of the interrupt handler only. *)
Definition only_isr_events (st st' : state) : Prop :=
  in_isr st = false ->
  in_isr st' = false /\
  exists l, trace st' = trace st ++ l /\ Forall (fun e : event => fst e = true) l.

(** The operation returns whatever the world's script is. *)
Definition total {A : Type} (m : M A) : Prop :=
  forall st, exists a st', m st = Some (a, st').

(** The operation's value is [v] whenever it returns. *)
Definition returns {A : Type} (v : A) (m : M A) : Prop :=
  forall st a st', m st = Some (a, st') -> a = v.

Definition payload_nonneg (st st' : state) : Prop :=
  0 <= hci_payload_size st -> 0 <= hci_payload_size st'.

(** The state [hci_end_receive] leaves once the IRQ pin is released, [ps]
    being the pin's readings still to come. *)
Definition after_end_receive (ps : list bool) (st : state) : state :=
  let st1 := after_xfers (repeat 0 (Z.to_nat (hci_payload_size st)))
               (set_hci_payload_size 0 st) in
  set_pins ps (set_trace (trace st1 ++ [(in_isr st, CsRelease)]) st1).

(** The payload of the event that answers [recv]: the socket, the length
    of the data to come and the flags follow the status byte. *)
Definition recv_reply_payload (args_size status rsd len rflags : Z) (more : list Z)
    : list Z :=
  [HCI_TYPE_EVNT] ++ le16 HCI_CMND_RECV ++ [args_size; status]
  ++ le32 rsd ++ le32 len ++ le32 rflags ++ more.

(** The payload of a data frame: type, data opcode, the length of the
    arguments, a 16-bit length, the arguments, the data, what may follow. *)
Definition data_payload (dtype plen : Z) (args data extra : list Z) : list Z :=
  [HCI_TYPE_DATA; dtype; Z.of_nat (length args)] ++ le16 plen ++ args ++ data ++ extra.

(** ** The flow-control pool as a transition system

    The two places of the driver that write [hci_available_buffer_count]
    after [wlan_init] has set it to [hci_buffer_count]: the decrement in
    [send], enabled when its busy-wait falls through, and the interrupt
    handler receiving a "buffers freed" event.  [guarded] restricts the
    CC3000 to events that free no more than is in use. *)
Inductive pool_step (guarded : bool) : state -> state -> Prop :=
| pool_send : forall st,
    hci_available_buffer_count st <> 0 ->
    pool_step guarded st (take_buffer st)
| pool_freed : forall st b0 b1 b2 args_size status entries ms ps st',
    in_isr st = false ->
    hci_state st = HCI_STATE_IDLE ->
    hci_pending_event st <> HCI_EVNT_DATA_UNSOL_FREE_BUFF h ->
    Z.of_nat (length (free_buff_payload args_size status entries)) < 65536 ->
    Forall (fun e => 0 <= snd e < 65536) entries ->
    (guarded = true ->
     freed_total entries <= hci_buffer_count st - hci_available_buffer_count st) ->
    interrupt (set_miso (rx_frame b0 b1 b2 (free_buff_payload args_size status entries) ++ ms)
                 (set_pins ps st)) = Some (tt, st') ->
    pool_step guarded st st'.

Inductive pool_reach (guarded : bool) (st0 : state) : state -> Prop :=
| reach_init : pool_reach guarded st0 st0
| reach_step : forall st st',
    pool_reach guarded st0 st -> pool_step guarded st st' -> pool_reach guarded st0 st'.


(** A board with the world's script filled in: the bytes the CC3000 shifts
    out, the polls at which its interrupt fires, the readings of the IRQ
    pin and of the clock. *)
Definition scripted (ms : list Z) (irs ps : list bool) (cl : list Z) (st : state) : state :=
  set_miso ms (set_irqs irs (set_pins ps (set_clock cl st))).

(** The unread part of the current frame on the link, [rest] being what
    the CC3000 shifts out after the frame: [hci_payload_size] counts the
    bytes still to come before [rest]. *)
Definition in_frame (rest : list Z) (st : state) : Prop :=
  exists pre, miso st = pre ++ rest /\ Z.of_nat (length pre) = hci_payload_size st.

(** The operation moves the counter and the link together. *)
Definition stays_in_frame (st st' : state) : Prop :=
  forall rest, in_frame rest st -> in_frame rest st'.

(** The state in which the handler enters the [switch] of
    [hci_dispatch_event]: inside the handler, chip select asserted, the
    frame header, the type byte and the three bytes of the event header
    read, [n] bytes of the frame still to come. *)
Definition event_header_read (n : Z) (st : state) : state :=
  after_xfers [HCI_READ; 0; 0; 0; 0; 0; 0; 0; 0]
    (set_hci_payload_size n
       (set_trace (trace st ++ [(true, CsAssert)]) (set_in_isr true st))).

(** The state the handler leaves after an unsolicited event: [st3] is the
    state after the [switch], [arg] the argument it extracted. *)
Definition after_event_irq (ev arg : Z) (ps : list bool) (st3 : state) : state :=
  set_in_isr false
    (after_end_receive ps (set_trace (trace st3 ++ [(true, Callback ev arg)]) st3)).

(** The bytes the driver put on the link, in order. *)
Definition sent (tr : list event) : list Z :=
  flat_map (fun e => match snd e with
                     | Xfer o _ => [o]
                     | _ => []
                     end) tr.


(** The payload of the event that answers [gethostbyname]: the status and
    the address follow the status byte. *)
Definition gethostbyname_reply_payload (args_size status rstatus rip : Z) (more : list Z)
    : list Z :=
  [HCI_TYPE_EVNT] ++ le16 HCI_CMND_GETHOSTNAME ++ [args_size; status]
  ++ le32 rstatus ++ le32 rip ++ more.

(** The payload of the event that answers [select]: the status and the
    three descriptor sets follow the status byte. *)
Definition select_reply_payload (args_size status rstatus rdfd wrfd exfd : Z)
    (more : list Z) : list Z :=
  [HCI_TYPE_EVNT] ++ le16 HCI_CMND_SELECT ++ [args_size; status]
  ++ le32 rstatus ++ le32 rdfd ++ le32 wrfd ++ le32 exfd ++ more.

(** The value a set pointer stands for in the command, and what the call
    stores through it. *)
Definition set_or_zero (s : option Z) : Z :=
  match s with Some v => v | None => 0 end.

Definition stored_through (s : option Z) (v : Z) : option Z :=
  match s with Some _ => Some v | None => None end.
(** * Properties *)

(** ** Bytes and bits *)

Lemma u8_range : forall x, 0 <= u8 x < 256.
Proof. intro x. unfold u8. apply Z.mod_pos_bound. lia. Qed.

Lemma u8_small : forall x, 0 <= x < 256 -> u8 x = x.
Proof. intros x Hx. unfold u8. apply Z.mod_small. exact Hx. Qed.

Lemma lor_shiftl_add : forall a b n,
  0 <= n -> 0 <= a < 2 ^ n -> Z.lor a (Z.shiftl b n) = a + b * 2 ^ n.
Proof.
  intros a b n Hn Ha.
  rewrite Z.shiftl_mul_pow2 by assumption.
  rewrite <- Z.lxor_lor.
  - symmetry. apply Z.add_nocarry_lxor.
    apply Z.bits_inj'. intros i Hi. rewrite Z.land_spec, Z.bits_0.
    destruct (Z.ltb_spec i n).
    + rewrite Z.mul_pow2_bits_low by assumption. apply andb_false_r.
    + assert (Z.testbit a i = false) as ->; [| reflexivity].
      destruct (Z.eq_dec a 0) as [-> | Hne]; [apply Z.bits_0 |].
      apply Z.bits_above_log2; [lia |].
      apply Z.log2_lt_pow2; [lia |].
      apply Z.lt_le_trans with (2 ^ n); [lia |]. apply Z.pow_le_mono_r; lia.
  - apply Z.bits_inj'. intros i Hi. rewrite Z.land_spec, Z.bits_0.
    destruct (Z.ltb_spec i n).
    + rewrite Z.mul_pow2_bits_low by assumption. apply andb_false_r.
    + assert (Z.testbit a i = false) as ->; [| reflexivity].
      destruct (Z.eq_dec a 0) as [-> | Hne]; [apply Z.bits_0 |].
      apply Z.bits_above_log2; [lia |].
      apply Z.log2_lt_pow2; [lia |].
      apply Z.lt_le_trans with (2 ^ n); [lia |]. apply Z.pow_le_mono_r; lia.
Qed.

Lemma byte_of : forall v k, 0 <= k -> Z.land (Z.shiftr v k) 0xff = (v / 2 ^ k) mod 256.
Proof.
  intros v k Hk. rewrite Z.shiftr_div_pow2 by assumption.
  change 0xff with (Z.ones 8). rewrite Z.land_ones by lia. reflexivity.
Qed.

(** Decoding what [le16] encodes. *)
Lemma le16_decode : forall v,
  0 <= v < 65536 ->
  Z.lor (u8 (Z.land (Z.shiftr v 0) 0xff)) (Z.shiftl (u8 (Z.land (Z.shiftr v 8) 0xff)) 8) = v.
Proof.
  intros v Hv. rewrite !byte_of by lia. unfold u8.
  rewrite !Z.mod_mod by lia.
  rewrite lor_shiftl_add; [| lia | apply Z.mod_pos_bound; lia].
  change (2 ^ 0) with 1. change (2 ^ 8) with 256. rewrite Z.div_1_r.
  Z.to_euclidean_division_equations. lia.
Qed.

Lemma le32_decode : forall v,
  0 <= v < 4294967296 ->
  Z.lor (Z.lor (Z.lor (u8 (Z.land (Z.shiftr v 0) 0xff))
                      (Z.shiftl (u8 (Z.land (Z.shiftr v 8) 0xff)) 8))
               (Z.shiftl (u8 (Z.land (Z.shiftr v 16) 0xff)) 16))
        (Z.shiftl (u8 (Z.land (Z.shiftr v 24) 0xff)) 24) = v.
Proof.
  intros v Hv. rewrite !byte_of by lia. unfold u8.
  rewrite !Z.mod_mod by lia.
  change (2 ^ 0) with 1. change (2 ^ 8) with 256.
  change (2 ^ 16) with 65536. change (2 ^ 24) with 16777216. rewrite Z.div_1_r.
  rewrite (lor_shiftl_add (v mod 256) _ 8); [| lia | apply Z.mod_pos_bound; lia].
  change (2 ^ 8) with 256.
  assert (H0 : 0 <= v mod 256 < 256) by (apply Z.mod_pos_bound; lia).
  assert (H1 : 0 <= (v / 256) mod 256 < 256) by (apply Z.mod_pos_bound; lia).
  assert (H2 : 0 <= (v / 65536) mod 256 < 256) by (apply Z.mod_pos_bound; lia).
  rewrite (lor_shiftl_add _ _ 16); [| lia | change (2 ^ 16) with 65536; lia].
  rewrite (lor_shiftl_add _ _ 24); [| lia | change (2 ^ 16) with 65536; change (2 ^ 24) with 16777216; lia].
  change (2 ^ 16) with 65536. change (2 ^ 24) with 16777216.
  Z.to_euclidean_division_equations. lia.
Qed.

(** ** Running the primitives *)

Ltac run :=
  cbv [bind ret get modify log wifi_callback hci_transfer irq_pin_low millis];
  cbn [set_wifi_connected set_wifi_dhcp set_ip_addr set_hci_data_available
       set_hci_pending_event_available set_hci_pending_event
       set_hci_available_buffer_count set_hci_payload_size set_hci_pad
       set_hci_state set_miso set_irqs set_pins set_clock set_in_isr set_trace
       take_buffer
       wifi_connected wifi_dhcp ip_addr hci_data_available
       hci_pending_event_available hci_pending_event hci_buffer_size
       hci_buffer_count hci_available_buffer_count hci_payload_size hci_pad
       hci_state miso irqs pins clock in_isr trace
       fst snd].

Ltac run_in H :=
  cbv [bind ret get modify log wifi_callback hci_transfer irq_pin_low millis] in H;
  cbn [set_wifi_connected set_wifi_dhcp set_ip_addr set_hci_data_available
       set_hci_pending_event_available set_hci_pending_event
       set_hci_available_buffer_count set_hci_payload_size set_hci_pad
       set_hci_state set_miso set_irqs set_pins set_clock set_in_isr set_trace
       take_buffer
       wifi_connected wifi_dhcp ip_addr hci_data_available
       hci_pending_event_available hci_pending_event hci_buffer_size
       hci_buffer_count hci_available_buffer_count hci_payload_size hci_pad
       hci_state miso irqs pins clock in_isr trace
       fst snd] in H.

(** Two states built with the setters are compared field by field. *)
Ltac fields :=
  cbv [after_xfers take_buffer
       set_wifi_connected set_wifi_dhcp set_ip_addr set_hci_data_available
       set_hci_pending_event_available set_hci_pending_event
       set_hci_available_buffer_count set_hci_payload_size set_hci_pad
       set_hci_state set_miso set_irqs set_pins set_clock set_in_isr set_trace
       wifi_connected wifi_dhcp ip_addr hci_data_available
       hci_pending_event_available hci_pending_event hci_buffer_size
       hci_buffer_count hci_available_buffer_count hci_payload_size hci_pad
       hci_state miso irqs pins clock in_isr trace] in *.

Ltac gfields :=
  cbv [after_xfers take_buffer
       set_wifi_connected set_wifi_dhcp set_ip_addr set_hci_data_available
       set_hci_pending_event_available set_hci_pending_event
       set_hci_available_buffer_count set_hci_payload_size set_hci_pad
       set_hci_state set_miso set_irqs set_pins set_clock set_in_isr set_trace
       wifi_connected wifi_dhcp ip_addr hci_data_available
       hci_pending_event_available hci_pending_event hci_buffer_size
       hci_buffer_count hci_available_buffer_count hci_payload_size hci_pad
       hci_state miso irqs pins clock in_isr trace].

(** Proofs depend on the section's hypotheses only where they say so. *)
Set Default Proof Using "Type".

Lemma some_pair : forall (A : Type) (a a' : A) (s s' : state),
  a = a' -> s = s' -> Some (a, s) = Some (a', s').
Proof. intros; subst; reflexivity. Qed.

Lemma hci_read_u8_some : forall st,
  0 < hci_payload_size st ->
  hci_read_u8 st =
  Some (u8 (hd 0 (miso st)),
        after_xfers [0] (set_hci_payload_size (hci_payload_size st - 1) st)).
Proof.
  intros st Hp. unfold hci_read_u8.
  apply Z.ltb_lt in Hp. rewrite Hp. destruct st; reflexivity.
Qed.

Lemma hci_read_u8_none : forall st,
  hci_payload_size st <= 0 -> hci_read_u8 st = Some (0, st).
Proof.
  intros st Hp. unfold hci_read_u8.
  apply Z.ltb_ge in Hp. rewrite Hp. reflexivity.
Qed.

Lemma tl_skipn : forall (A : Type) (n : nat) (l : list A), tl (skipn n l) = skipn (S n) l.
Proof.
  intros A n. induction n as [| n IH]; intros [| x l]; try reflexivity.
  change (tl (skipn n l) = skipn (S n) l). apply IH.
Qed.

Lemma skipn_tl : forall (A : Type) (n : nat) (l : list A), skipn n (tl l) = skipn (S n) l.
Proof. intros A n [| x l]; [destruct n |]; reflexivity. Qed.

Lemma xfers_app : forall isr a b ms,
  xfers isr (a ++ b) ms = xfers isr a ms ++ xfers isr b (skipn (length a) ms).
Proof.
  intros isr a. induction a as [| o a IH]; intros b ms; [reflexivity |].
  cbn [xfers app length]. rewrite IH, skipn_tl. reflexivity.
Qed.

Lemma after_xfers_app : forall a b st,
  after_xfers b (after_xfers a st) = after_xfers (a ++ b) st.
Proof.
  intros a b st. destruct st; fields.
  rewrite xfers_app, app_assoc, length_app, Nat.add_comm, skipn_skipn. reflexivity.
Qed.

Lemma after_xfers_nil : forall st, after_xfers [] st = st.
Proof. intro st. destruct st; fields. cbn. rewrite app_nil_r. reflexivity. Qed.

Lemma shifted_in_length : forall n ms, length (shifted_in n ms) = n.
Proof. induction n as [| n IH]; intro ms; cbn; [| rewrite IH]; reflexivity. Qed.

Lemma hci_read_array_some : forall n st,
  Z.of_nat n <= hci_payload_size st ->
  hci_read_array n st =
  Some (shifted_in n (miso st),
        after_xfers (repeat 0 n) (set_hci_payload_size (hci_payload_size st - Z.of_nat n) st)).
Proof.
  induction n as [| n IH]; intros st Hn.
  - cbn [hci_read_array shifted_in repeat]. unfold ret. rewrite after_xfers_nil.
    apply some_pair; [reflexivity |]. destruct st; fields. f_equal. cbn. lia.
  - cbn [hci_read_array]. unfold bind at 1. rewrite hci_read_u8_some by lia.
    unfold bind at 1. rewrite IH by (destruct st; fields; lia).
    unfold ret. cbn [shifted_in repeat]. apply some_pair.
    + destruct st; reflexivity.
    + change (0 :: repeat 0 n) with ([0] ++ repeat 0 n). rewrite <- after_xfers_app.
      apply f_equal. destruct st; fields. f_equal. lia.
Qed.

Lemma hci_read_array_zero : forall k st,
  hci_payload_size st = 0 -> hci_read_array k st = Some (repeat 0 k, st).
Proof.
  induction k as [| k IH]; intros st Hp; [reflexivity |].
  cbn [hci_read_array]. unfold bind at 1. rewrite hci_read_u8_none by lia.
  unfold bind at 1. rewrite IH by assumption. reflexivity.
Qed.

(** C6.  [hci_read_u8] with a positive counter does one transfer and takes
    one off the counter; at zero it returns 0, transfers nothing and leaves
    the state as it is; so of [n + k] reads in a frame of declared length
    [n] the first [n] are transfers, the counter ends at zero and the last
    [k] reads are 0. *)
Theorem hci_read_u8_floor : forall (n k : nat) (st : state),
  hci_payload_size st = Z.of_nat n ->
  (0 < hci_payload_size st ->
   hci_read_u8 st =
   Some (u8 (hd 0 (miso st)),
         after_xfers [0] (set_hci_payload_size (hci_payload_size st - 1) st)))
  /\ (hci_payload_size st = 0 -> hci_read_u8 st = Some (0, st))
  /\ (exists st',
        hci_read_array (n + k) st = Some (shifted_in n (miso st) ++ repeat 0 k, st')
        /\ st' = after_xfers (repeat 0 n) (set_hci_payload_size 0 st)
        /\ hci_payload_size st' = 0
        /\ hci_read_u8 st' = Some (0, st')).
Proof.
  intros n k st Hp. split; [| split].
  - apply hci_read_u8_some.
  - intro H0. apply hci_read_u8_none. lia.
  - eexists. split; [| split; [reflexivity | split]].
    + assert (Hsplit : forall a b s,
                 hci_read_array (a + b) s =
                 (x <- hci_read_array a ;; y <- hci_read_array b ;; ret (x ++ y)) s).
      { induction a as [| a IH]; intros b s.
        - cbn [Nat.add hci_read_array]. unfold bind, ret.
          destruct (hci_read_array b s) as [[y s'] |]; reflexivity.
        - cbn [Nat.add hci_read_array]. unfold bind, ret in *.
          destruct (hci_read_u8 s) as [[x s1] |]; [| reflexivity].
          rewrite IH.
          destruct (hci_read_array a s1) as [[xs s2] |]; [| reflexivity].
          destruct (hci_read_array b s2) as [[ys s3] |]; reflexivity. }
      rewrite Hsplit. unfold bind at 1. rewrite hci_read_array_some by lia.
      unfold bind at 1. rewrite hci_read_array_zero by (destruct st; fields; lia).
      unfold ret. rewrite Hp, Z.sub_diag. reflexivity.
    + destruct st; reflexivity.
    + apply hci_read_u8_none. destruct st; fields. lia.
Qed.

(** ** What operations keep *)

Unset Default Proof Using.

Section Keeping.

Variable R : state -> state -> Prop.
Hypothesis R_refl : forall st, R st st.
Hypothesis R_trans : forall a b c, R a b -> R b c -> R a c.

Lemma keeps_ret : forall (A : Type) (a : A), keeps R (ret a).
Proof. intros A a st x st' H. inversion H; subst. apply R_refl. Qed.

Lemma keeps_get : forall (A : Type) (f : state -> A), keeps R (get f).
Proof. intros A f st x st' H. inversion H; subst. apply R_refl. Qed.

Lemma keeps_bind : forall (A B : Type) (m : M A) (f : A -> M B),
  keeps R m -> (forall a, keeps R (f a)) -> keeps R (bind m f).
Proof.
  intros A B m f Hm Hf st b st' H. unfold bind in H.
  destruct (m st) as [[a s1] |] eqn:E; [| discriminate].
  eapply R_trans; [eapply Hm; eassumption | eapply Hf; eassumption].
Qed.

Lemma keeps_modify : forall g, (forall st, R st (g st)) -> keeps R (modify g).
Proof. intros g Hg st x st' H. inversion H; subst. apply Hg. Qed.

Lemma keeps_log : forall a,
  (forall st, R st (set_trace (trace st ++ [(in_isr st, a)]) st)) -> keeps R (log a).
Proof. intros a Ha st x st' H. inversion H; subst. apply Ha. Qed.

Lemma keeps_transfer : forall o,
  (forall v st, R st (after_xfers [v] st)) -> keeps R (hci_transfer o).
Proof.
  intros o Ho st x st' H. unfold hci_transfer in H. inversion H; subst.
  replace (set_trace _ _) with (after_xfers [o] st); [apply Ho |].
  destruct st; reflexivity.
Qed.

Lemma keeps_pin :
  (forall ps st, R st (set_pins ps st)) -> keeps R irq_pin_low.
Proof.
  intros Hp st x st' H. unfold irq_pin_low in H.
  destruct (pins st); [discriminate |]. inversion H; subst. apply Hp.
Qed.

Lemma keeps_millis :
  (forall ts st, R st (set_clock ts st)) -> keeps R millis.
Proof.
  intros Hp st x st' H. unfold millis in H.
  destruct (clock st); [discriminate |]. inversion H; subst. apply Hp.
Qed.

Lemma keeps_with_state : forall (A : Type) (f : state -> M A),
  (forall s, keeps R (f s)) -> keeps R (fun st => f st st).
Proof. intros A f Hf st a st' H. eapply Hf. eassumption. Qed.

Lemma keeps_spin_of_poll :
  keeps R poll_irq -> forall ready fuel, keeps R (spin fuel ready).
Proof.
  intros Hpoll ready. induction fuel as [| f IH]; intros st a st' H; cbn [spin] in H;
    destruct (ready st).
  - revert H. apply keeps_ret.
  - discriminate.
  - revert H. apply keeps_ret.
  - revert H. apply keeps_bind; [apply Hpoll | intro]. apply IH.
Qed.

Lemma keeps_busy_wait_of_poll :
  keeps R poll_irq -> forall ready, keeps R (busy_wait ready).
Proof.
  intros Hpoll ready st a st' H. unfold busy_wait in H.
  eapply keeps_spin_of_poll; eassumption.
Qed.

Lemma keeps_spin_until_of_poll :
  keeps R poll_irq -> keeps R millis ->
  forall tmr fuel, keeps R (spin_until fuel tmr).
Proof.
  intros Hpoll Hms tmr. induction fuel as [| f IH]; intros st a st' H;
    cbn [spin_until] in H;
    destruct (negb (hci_pending_event_available st =? 0));
    try (revert H; apply keeps_ret).
  - revert H. apply keeps_bind; [apply Hms | intro now].
    destruct (now <=? tmr); [intros s x s' H; discriminate | apply keeps_ret].
  - revert H. apply keeps_bind; [apply Hms | intro now].
    destruct (now <=? tmr); [| apply keeps_ret].
    apply keeps_bind; [apply Hpoll | intro]. apply IH.
Qed.

Hypothesis R_payload : forall v st, R st (set_hci_payload_size v st).
Hypothesis R_xfer : forall v st, R st (after_xfers [v] st).

Lemma keeps_read_u8 : keeps R hci_read_u8.
Proof.
  intros st a st' H. unfold hci_read_u8 in H.
  destruct (0 <? hci_payload_size st).
  - revert H. apply keeps_bind; [apply keeps_modify, R_payload |].
    intros _. apply keeps_transfer, R_xfer.
  - revert H. apply keeps_ret.
Qed.

Lemma keeps_write_u8 : forall v, keeps R (hci_write_u8 v).
Proof.
  intros v st a st' H. unfold hci_write_u8 in H.
  destruct (0 <? hci_payload_size st).
  - revert H. apply keeps_bind; [apply keeps_modify, R_payload |].
    intros _. apply keeps_bind; [apply keeps_transfer, R_xfer | intro]. apply keeps_ret.
  - revert H. apply keeps_ret.
Qed.

(** From here on only through what the two byte operations keep. *)
Hypothesis K_read : keeps R hci_read_u8.
Hypothesis K_write : forall v, keeps R (hci_write_u8 v).

Lemma keeps_read_u16_le : keeps R hci_read_u16_le.
Proof.
  unfold hci_read_u16_le.
  repeat (apply keeps_bind; [apply K_read | intro]). apply keeps_ret.
Qed.

Lemma keeps_read_u32_le : keeps R hci_read_u32_le.
Proof.
  unfold hci_read_u32_le.
  repeat (apply keeps_bind; [apply K_read | intro]). apply keeps_ret.
Qed.

Lemma keeps_read_array : forall n, keeps R (hci_read_array n).
Proof.
  induction n as [| n IH]; cbn [hci_read_array]; [apply keeps_ret |].
  apply keeps_bind; [apply K_read | intro].
  apply keeps_bind; [apply IH | intro]. apply keeps_ret.
Qed.

Lemma keeps_recv_copy : forall n, keeps R (recv_copy n).
Proof.
  induction n as [| n IH]; cbn [recv_copy]; [apply keeps_ret |].
  apply keeps_bind; [apply K_read | intro].
  apply keeps_bind; [apply IH | intro]. apply keeps_ret.
Qed.

Lemma keeps_skip_args : forall n, keeps R (skip_args n).
Proof.
  induction n as [| n IH]; cbn [skip_args]; [apply keeps_ret |].
  apply keeps_bind; [apply K_read | intro]. apply IH.
Qed.

Lemma keeps_write_u32_le : forall v, keeps R (hci_write_u32_le v).
Proof.
  intro v. unfold hci_write_u32_le.
  repeat (apply keeps_bind; [apply K_write | intro]). apply K_write.
Qed.

Lemma keeps_write_array : forall n data, keeps R (hci_write_array data n).
Proof.
  induction n as [| n IH]; intro data; cbn [hci_write_array]; [apply keeps_ret |].
  apply keeps_bind; [apply K_write | intro]. apply IH.
Qed.

Lemma keeps_discard_unread : forall fuel, keeps R (discard_unread fuel).
Proof.
  induction fuel as [| f IH]; intros st a st' H; cbn [discard_unread] in H;
    destruct (hci_payload_size st =? 0).
  - revert H. apply keeps_ret.
  - discriminate.
  - revert H. apply keeps_ret.
  - revert H. apply keeps_bind; [apply K_read | intro]. apply IH.
Qed.

Lemma keeps_wait_irq_release :
  (forall ps st, R st (set_pins ps st)) ->
  forall fuel, keeps R (wait_irq_release fuel).
Proof.
  intros Hp. induction fuel as [| f IH]; cbn [wait_irq_release].
  - intros st a st' H. discriminate.
  - apply keeps_bind; [apply keeps_pin, Hp |].
    intros [|]; [apply IH | apply keeps_ret].
Qed.

Lemma keeps_end_receive :
  (forall ps st, R st (set_pins ps st)) ->
  (forall st, R st (set_trace (trace st ++ [(in_isr st, CsRelease)]) st)) ->
  keeps R hci_end_receive.
Proof.
  intros Hp Hl. unfold hci_end_receive.
  apply keeps_bind; [| intros _].
  { intros s a s' H. cbv beta in H. revert H. apply keeps_discard_unread. }
  apply keeps_bind; [apply keeps_log, Hl | intros _].
  intros s a s' H. cbv beta in H. revert H. apply keeps_wait_irq_release, Hp.
Qed.

(** The handlers of the interrupt. *)

Hypothesis R_avail : forall v st, R st (set_hci_available_buffer_count v st).
Hypothesis R_connected : forall v st, R st (set_wifi_connected v st).
Hypothesis R_dhcp : forall v st, R st (set_wifi_dhcp v st).
Hypothesis R_ip : forall v st, R st (set_ip_addr v st).

Lemma keeps_free_buff_entries : forall n, keeps R (free_buff_entries n).
Proof.
  induction n as [| n IH]; cbn [free_buff_entries]; [apply keeps_ret |].
  apply keeps_bind; [apply keeps_read_u16_le | intro].
  apply keeps_bind; [apply keeps_read_u16_le | intro].
  apply keeps_bind; [apply keeps_modify; intro; apply R_avail | intro]. apply IH.
Qed.

Lemma keeps_unsolicited_event : forall ev, keeps R (unsolicited_event ev).
Proof.
  intro ev. unfold unsolicited_event.
  repeat match goal with |- keeps R (if ?c then _ else _) => destruct c end;
    repeat first
      [ apply keeps_ret
      | apply keeps_bind; [| intro]
      | apply K_read | apply keeps_read_u16_le | apply keeps_read_u32_le
      | apply keeps_free_buff_entries
      | apply keeps_modify; intro;
        first [apply R_connected | apply R_dhcp | apply R_ip] ].
Qed.

Hypothesis R_pins : forall ps st, R st (set_pins ps st).
Hypothesis R_log : forall a st, R st (set_trace (trace st ++ [(in_isr st, a)]) st).
Hypothesis R_pending_available : forall v st, R st (set_hci_pending_event_available v st).
Hypothesis R_data_available : forall v st, R st (set_hci_data_available v st).
Hypothesis R_state : forall v st, R st (set_hci_state v st).

Lemma keeps_dispatch_event : keeps R hci_dispatch_event.
Proof.
  unfold hci_dispatch_event.
  apply keeps_bind; [apply keeps_read_u16_le | intro ev].
  apply keeps_bind; [apply K_read | intro sz].
  apply keeps_bind; [apply keeps_get | intro pending].
  destruct (ev =? pending).
  - apply keeps_modify. intro. apply R_pending_available.
  - apply keeps_bind; [apply keeps_unsolicited_event | intro arg].
    apply keeps_bind; [apply keeps_log; intro; apply R_log | intros _].
    apply keeps_end_receive; [apply R_pins | intro; apply R_log].
Qed.

Lemma keeps_dispatch_data : keeps R hci_dispatch_data.
Proof.
  unfold hci_dispatch_data.
  apply keeps_bind; [apply K_read | intro].
  apply keeps_bind; [apply K_read | intro].
  apply keeps_bind; [apply keeps_read_u16_le | intro].
  apply keeps_bind; [apply keeps_skip_args | intro].
  apply keeps_modify. intro. apply R_data_available.
Qed.

Lemma keeps_begin_receive : keeps R hci_begin_receive.
Proof.
  unfold hci_begin_receive.
  apply keeps_bind; [apply keeps_log; intro; apply R_log | intro].
  repeat (apply keeps_bind; [apply keeps_transfer, R_xfer | intro]).
  apply keeps_modify. intro. apply R_payload.
Qed.

Lemma keeps_irq : keeps R hci_irq.
Proof.
  unfold hci_irq. apply keeps_bind; [apply keeps_get | intro s].
  destruct (s =? HCI_STATE_WAIT_ASSERT).
  - apply keeps_modify. intro. apply R_state.
  - apply keeps_bind; [apply keeps_begin_receive | intro].
    unfold hci_dispatch. apply keeps_bind; [apply K_read | intro t].
    destruct (t =? HCI_TYPE_EVNT); [apply keeps_dispatch_event |].
    destruct (t =? HCI_TYPE_DATA); [apply keeps_dispatch_data | apply keeps_ret].
Qed.

(** The application thread's polls. *)

Hypothesis R_in_isr : forall v st, R st (set_in_isr v st).
Hypothesis R_irqs : forall v st, R st (set_irqs v st).

Lemma keeps_interrupt : keeps R interrupt.
Proof.
  unfold interrupt.
  apply keeps_bind; [apply keeps_modify; intro; apply R_in_isr | intro].
  apply keeps_bind; [apply keeps_irq | intro].
  apply keeps_modify; intro; apply R_in_isr.
Qed.

Lemma keeps_poll_irq : keeps R poll_irq.
Proof.
  intros st a st' H. unfold poll_irq in H.
  destruct (irqs st) as [| b bs]; [discriminate |].
  eapply R_trans; [apply (R_irqs bs) |].
  destruct b; [eapply keeps_interrupt | eapply keeps_ret]; eassumption.
Qed.

Lemma keeps_spin : forall ready fuel, keeps R (spin fuel ready).
Proof. intros. apply keeps_spin_of_poll, keeps_poll_irq. Qed.

Lemma keeps_busy_wait : forall ready, keeps R (busy_wait ready).
Proof. intro. apply keeps_busy_wait_of_poll, keeps_poll_irq. Qed.

End Keeping.

Set Default Proof Using "Type".


(** *** Instances *)

Lemma same_refl : forall (B : Type) (f : state -> B) st, same f st st.
Proof. reflexivity. Qed.

Lemma same_trans : forall (B : Type) (f : state -> B) a b c,
  same f a b -> same f b c -> same f a c.
Proof. unfold same. intros. congruence. Qed.

Ltac field_kept :=
  intros;
  match goal with
  | st : state |- _ => destruct st; reflexivity
  end.

Ltac same_goal :=
  first
    [ apply same_refl
    | apply same_trans
    | apply keeps_read_u8;
      [apply same_refl | apply same_trans | unfold same; field_kept ..]
    | intro; apply keeps_write_u8;
      [apply same_refl | apply same_trans | unfold same; field_kept ..]
    | unfold same; field_kept ].

Ltac by_same lem := apply lem; same_goal.

Lemma interrupt_same_clock : keeps (same clock) interrupt.
Proof. by_same keeps_interrupt. Qed.

Lemma interrupt_same_irqs : keeps (same irqs) interrupt.
Proof. by_same keeps_interrupt. Qed.

Lemma interrupt_same_buffer_count : keeps (same hci_buffer_count) interrupt.
Proof. by_same keeps_interrupt. Qed.

Lemma interrupt_same_pending_event : keeps (same hci_pending_event) interrupt.
Proof. by_same keeps_interrupt. Qed.

Lemma interrupt_same_pad : keeps (same hci_pad) interrupt.
Proof. by_same keeps_interrupt. Qed.

Lemma poll_same_clock : keeps (same clock) poll_irq.
Proof.
  intros st a st' H. unfold poll_irq in H.
  destruct (irqs st) as [| b bs]; [discriminate |].
  destruct b.
  - apply interrupt_same_clock in H. unfold same in *. rewrite H. destruct st; reflexivity.
  - inversion H; subst. destruct st; reflexivity.
Qed.

Lemma poll_same_buffer_count : keeps (same hci_buffer_count) poll_irq.
Proof.
  intros st a st' H. unfold poll_irq in H.
  destruct (irqs st) as [| b bs]; [discriminate |].
  destruct b.
  - apply interrupt_same_buffer_count in H. unfold same in *. rewrite H.
    destruct st; reflexivity.
  - inversion H; subst. destruct st; reflexivity.
Qed.

Lemma end_receive_same_available :
  keeps (same hci_available_buffer_count) hci_end_receive.
Proof. by_same keeps_end_receive. Qed.

Lemma end_receive_same_buffer_count : keeps (same hci_buffer_count) hci_end_receive.
Proof. by_same keeps_end_receive. Qed.

Lemma end_receive_same_in_isr : keeps (same in_isr) hci_end_receive.
Proof. by_same keeps_end_receive. Qed.

Lemma adds_refl : forall P st, adds P st st.
Proof.
  intros P st. split; [reflexivity |]. exists []. split; [| constructor].
  symmetry. apply app_nil_r.
Qed.

Lemma adds_trans : forall P a b c, adds P a b -> adds P b c -> adds P a c.
Proof.
  intros P a b c [Ha [l1 [Hl1 F1]]] [Hb [l2 [Hl2 F2]]].
  split; [congruence |]. exists (l1 ++ l2). split.
  - rewrite Hl2, Hl1, app_assoc. reflexivity.
  - apply Forall_app. split; [exact F1 |]. rewrite Ha in F2. exact F2.
Qed.

Lemma adds_weaken : forall (P Q : action -> Prop) st st',
  (forall a, P a -> Q a) -> adds P st st' -> adds Q st st'.
Proof.
  intros P Q st st' HPQ [Hi [l [Hl F]]]. split; [exact Hi |]. exists l. split; [exact Hl |].
  eapply Forall_impl; [| exact F]. intros e [He Hp]. split; [exact He | apply HPQ, Hp].
Qed.

(** A setter that touches neither the trace nor the context adds nothing. *)
Ltac adds_nothing :=
  intros;
  match goal with
  | st : state |- adds _ _ _ =>
      split; [destruct st; reflexivity |];
      exists []; split; [destruct st; fields; symmetry; apply app_nil_r | constructor]
  end.

Lemma adds_xfer : forall (P : action -> Prop) v st,
  (forall o i, P (Xfer o i)) -> adds P st (after_xfers [v] st).
Proof.
  intros P v st HP. split; [destruct st; reflexivity |].
  exists [(in_isr st, Xfer (u8 v) (u8 (hd 0 (miso st))))]. split.
  - destruct st; reflexivity.
  - constructor; [| constructor]. split; [reflexivity | apply HP].
Qed.

Lemma adds_log : forall (P : action -> Prop) a st,
  P a -> adds P st (set_trace (trace st ++ [(in_isr st, a)]) st).
Proof.
  intros P a st HP. split; [destruct st; reflexivity |].
  exists [(in_isr st, a)]. split; [destruct st; reflexivity |].
  constructor; [| constructor]. split; [reflexivity | exact HP].
Qed.

Lemma read_u8_adds : keeps (adds only_xfer) hci_read_u8.
Proof.
  apply keeps_read_u8;
    [apply adds_refl | apply adds_trans | adds_nothing
    | intros; apply adds_xfer; intros; exact I].
Qed.

Ltac adds_goal :=
  first
    [ apply adds_refl
    | apply adds_trans
    | apply read_u8_adds
    | eapply keeps_read_u8;
      [apply adds_refl | apply adds_trans | adds_nothing
      | intros; apply adds_xfer; intros; exact I]
    | intros; apply adds_xfer; intros; exact I
    | intros; apply adds_log; exact I
    | adds_nothing ].

Lemma unsolicited_event_adds : forall ev, keeps (adds only_xfer) (unsolicited_event ev).
Proof. intro ev. apply keeps_unsolicited_event; adds_goal. Qed.

Lemma discard_unread_adds : forall fuel, keeps (adds only_xfer) (discard_unread fuel).
Proof. intro fuel. apply keeps_discard_unread; adds_goal. Qed.

Lemma irq_adds : keeps (adds any_action) hci_irq.
Proof. apply keeps_irq; adds_goal. Qed.

Lemma only_isr_events_refl : forall st, only_isr_events st st.
Proof.
  intros st Hi. split; [exact Hi |]. exists []. split; [| constructor].
  symmetry. apply app_nil_r.
Qed.

Lemma only_isr_events_trans : forall a b c,
  only_isr_events a b -> only_isr_events b c -> only_isr_events a c.
Proof.
  intros a b c Hab Hbc Hi. destruct (Hab Hi) as [Hb [l1 [Hl1 F1]]].
  destruct (Hbc Hb) as [Hc [l2 [Hl2 F2]]]. split; [exact Hc |].
  exists (l1 ++ l2). split.
  - rewrite Hl2, Hl1, app_assoc. reflexivity.
  - apply Forall_app. split; assumption.
Qed.

Lemma interrupt_only_isr_events : keeps only_isr_events interrupt.
Proof.
  intros st a st' H Hi. unfold interrupt in H. run_in H.
  destruct (hci_irq (set_in_isr true st)) as [[u s1] |] eqn:E; [| discriminate].
  inversion H; subst. apply irq_adds in E. destruct E as [Hs [l [Hl F]]].
  split; [destruct s1; reflexivity |]. exists l. split.
  - destruct s1, st; fields. exact Hl.
  - eapply Forall_impl; [| exact F]. intros e [He _]. rewrite He. destruct st; reflexivity.
Qed.

Lemma poll_only_isr_events : keeps only_isr_events poll_irq.
Proof.
  intros st a st' H. unfold poll_irq in H.
  destruct (irqs st) as [| b bs]; [discriminate |].
  apply only_isr_events_trans with (set_irqs bs st).
  - intro Hi. split; [destruct st; exact Hi |]. exists []. split; [| constructor].
    destruct st; fields. symmetry. apply app_nil_r.
  - destruct b; [eapply interrupt_only_isr_events; eassumption |].
    inversion H; subst. apply only_isr_events_refl.
Qed.


Lemma millis_only_isr_events : keeps only_isr_events millis.
Proof.
  apply keeps_millis.
  intros ts st Hi. split; [destruct st; exact Hi |]. exists []. split; [| constructor].
  destruct st; fields. symmetry. apply app_nil_r.
Qed.

Lemma spin_until_only_isr_events : forall tmr fuel,
  keeps only_isr_events (spin_until fuel tmr).
Proof.
  apply keeps_spin_until_of_poll;
    [apply only_isr_events_refl | apply only_isr_events_trans
    | apply poll_only_isr_events | apply millis_only_isr_events].
Qed.

(** ** Operations that always return *)

Lemma total_ret : forall (A : Type) (a : A), total (ret a).
Proof. intros A a st. exists a, st. reflexivity. Qed.

Lemma total_bind : forall (A B : Type) (m : M A) (f : A -> M B),
  total m -> (forall a, total (f a)) -> total (bind m f).
Proof.
  intros A B m f Hm Hf st. destruct (Hm st) as [a [s1 E]].
  destruct (Hf a s1) as [b [s2 E2]]. exists b, s2. unfold bind. rewrite E. exact E2.
Qed.

Lemma total_modify : forall g, total (modify g).
Proof. intros g st. exists tt, (g st). reflexivity. Qed.

Lemma total_read_u8 : total hci_read_u8.
Proof.
  intro st. unfold hci_read_u8. destruct (0 <? hci_payload_size st); eexists; eexists; reflexivity.
Qed.

Lemma total_read_u16_le : total hci_read_u16_le.
Proof.
  unfold hci_read_u16_le.
  repeat (apply total_bind; [apply total_read_u8 | intro]). apply total_ret.
Qed.

Lemma total_read_u32_le : total hci_read_u32_le.
Proof.
  unfold hci_read_u32_le.
  repeat (apply total_bind; [apply total_read_u8 | intro]). apply total_ret.
Qed.

Lemma total_free_buff_entries : forall n, total (free_buff_entries n).
Proof.
  induction n as [| n IH]; cbn [free_buff_entries]; [apply total_ret |].
  apply total_bind; [apply total_read_u16_le | intro].
  apply total_bind; [apply total_read_u16_le | intro].
  apply total_bind; [apply total_modify | intro]. apply IH.
Qed.

Lemma total_unsolicited_event : forall ev, total (unsolicited_event ev).
Proof.
  intro ev. unfold unsolicited_event.
  repeat match goal with |- total (if ?c then _ else _) => destruct c end;
    repeat first
      [ apply total_ret | apply total_modify
      | apply total_read_u8 | apply total_read_u16_le | apply total_read_u32_le
      | apply total_free_buff_entries
      | apply total_bind; [| intro] ].
Qed.

Lemma returns_ret : forall (A : Type) (v : A), returns v (ret v).
Proof. intros A v st a st' H. inversion H. reflexivity. Qed.

Lemma returns_bind : forall (A B : Type) (v : B) (m : M A) (f : A -> M B),
  (forall a, returns v (f a)) -> returns v (bind m f).
Proof.
  intros A B v m f Hf st b st' H. unfold bind in H.
  destruct (m st) as [[a s1] |]; [| discriminate]. eapply Hf. eassumption.
Qed.

(** ** The payload counter stays a counter *)

Lemma read_u8_payload_nonneg : keeps payload_nonneg hci_read_u8.
Proof.
  intros st a st' H Hp. unfold hci_read_u8 in H.
  destruct (0 <? hci_payload_size st) eqn:E.
  - run_in H. inversion H; subst. run. apply Z.ltb_lt in E. lia.
  - inversion H; subst. exact Hp.
Qed.

Lemma payload_nonneg_refl : forall st, payload_nonneg st st.
Proof. intros st H. exact H. Qed.

Lemma payload_nonneg_trans : forall a b c,
  payload_nonneg a b -> payload_nonneg b c -> payload_nonneg a c.
Proof. unfold payload_nonneg. intros. auto. Qed.

Ltac nonneg_kept :=
  intros;
  match goal with
  | st : state |- payload_nonneg _ _ => intro; destruct st; assumption
  end.

Lemma unsolicited_event_payload_nonneg : forall ev,
  keeps payload_nonneg (unsolicited_event ev).
Proof.
  intro ev.
  apply keeps_unsolicited_event;
    first [apply payload_nonneg_refl | apply payload_nonneg_trans
          | apply read_u8_payload_nonneg | nonneg_kept].
Qed.

Lemma read_u16_le_payload_nonneg : keeps payload_nonneg hci_read_u16_le.
Proof.
  apply keeps_read_u16_le;
    first [apply payload_nonneg_refl | apply payload_nonneg_trans
          | apply read_u8_payload_nonneg].
Qed.

(** ** The end of a read transaction *)

Lemma set_payload_after_xfers : forall v q outs st,
  set_hci_payload_size v (after_xfers outs (set_hci_payload_size q st)) =
  after_xfers outs (set_hci_payload_size v st).
Proof. intros. destruct st; reflexivity. Qed.

Lemma discard_unread_some : forall fuel st,
  0 <= hci_payload_size st ->
  (Z.to_nat (hci_payload_size st) <= fuel)%nat ->
  discard_unread fuel st =
  Some (tt, after_xfers (repeat 0 (Z.to_nat (hci_payload_size st)))
              (set_hci_payload_size 0 st)).
Proof.
  induction fuel as [| f IH]; intros st Hp Hf; cbn [discard_unread];
    destruct (Z.eqb_spec (hci_payload_size st) 0) as [E | E].
  - rewrite E. change (Z.to_nat 0) with 0%nat. cbn [repeat]. rewrite after_xfers_nil.
    unfold ret. apply some_pair; [reflexivity |]. destruct st; fields. subst. reflexivity.
  - lia.
  - rewrite E. change (Z.to_nat 0) with 0%nat. cbn [repeat]. rewrite after_xfers_nil.
    unfold ret. apply some_pair; [reflexivity |]. destruct st; fields. subst. reflexivity.
  - unfold bind. rewrite hci_read_u8_some by lia.
    rewrite IH; [| destruct st; fields; lia | destruct st; fields; lia].
    apply some_pair; [reflexivity |].
    replace (Z.to_nat (hci_payload_size st)) with (S (Z.to_nat (hci_payload_size st - 1))) by lia.
    change (repeat 0 (S (Z.to_nat (hci_payload_size st - 1))))
      with ([0] ++ repeat 0 (Z.to_nat (hci_payload_size st - 1))).
    rewrite <- after_xfers_app, set_payload_after_xfers.
    apply f_equal2; [| reflexivity]. destruct st; reflexivity.
Qed.

Lemma wait_irq_release_some : forall j ps fuel st,
  pins st = repeat true j ++ false :: ps ->
  (j < fuel)%nat ->
  wait_irq_release fuel st = Some (tt, set_pins ps st).
Proof.
  induction j as [| j IH]; intros ps fuel st Hpins Hf;
    (destruct fuel as [| f]; [lia |]); cbn [wait_irq_release]; run;
    rewrite Hpins; cbn [repeat app].
  - reflexivity.
  - rewrite (IH ps); [| destruct st; reflexivity | lia].
    apply some_pair; [reflexivity |]. destruct st; reflexivity.
Qed.

Lemma hci_end_receive_some : forall j ps st,
  0 <= hci_payload_size st ->
  pins st = repeat true j ++ false :: ps ->
  hci_end_receive st = Some (tt, after_end_receive ps st).
Proof.
  intros j ps st Hp Hpins. unfold hci_end_receive. unfold bind at 1.
  rewrite discard_unread_some by (assumption || lia).
  run. rewrite (wait_irq_release_some j ps).
  - apply some_pair; [reflexivity |]. destruct st; reflexivity.
  - destruct st; fields. exact Hpins.
  - destruct st; fields. rewrite Hpins, length_app, repeat_length. cbn [length]. lia.
Qed.

(** ** Reading calls of the callback off the trace *)

Lemma calls_app : forall a b, calls (a ++ b) = calls a ++ calls b.
Proof. intros a b. unfold calls. apply flat_map_app. Qed.

Lemma calls_only_xfer : forall (l : list event),
  Forall (fun e : event => only_xfer (snd e)) l -> calls l = [].
Proof.
  induction 1 as [| [c a] l Ha _ IH]; [reflexivity |].
  cbn [calls flat_map snd] in *. destruct a; try contradiction. exact IH.
Qed.

Lemma adds_only_xfer_calls : forall st st',
  adds only_xfer st st' -> calls (trace st') = calls (trace st).
Proof.
  intros st st' [_ [l [Hl F]]]. rewrite Hl, calls_app, (calls_only_xfer l), app_nil_r.
  - reflexivity.
  - eapply Forall_impl; [| exact F]. intros e [_ He]. exact He.
Qed.

Lemma xfers_only_xfer : forall isr outs ms,
  Forall (fun e : event => fst e = isr /\ only_xfer (snd e)) (xfers isr outs ms).
Proof.
  intros isr outs. induction outs as [| o os IH]; intro ms; cbn [xfers]; constructor.
  - split; [reflexivity | exact I].
  - apply IH.
Qed.

(** The case labels are pairwise different. *)
Lemma labels_differ :
  HCI_EVNT_WLAN_UNSOL_TCP_CLOSE_WAIT h <> HCI_EVNT_WLAN_UNSOL_CONNECT h /\
  HCI_EVNT_WLAN_UNSOL_TCP_CLOSE_WAIT h <> HCI_EVNT_WLAN_UNSOL_DISCONNECT h /\
  HCI_EVNT_WLAN_UNSOL_TCP_CLOSE_WAIT h <> HCI_EVNT_WLAN_UNSOL_DHCP h /\
  HCI_EVNT_DATA_UNSOL_FREE_BUFF h <> HCI_EVNT_WLAN_UNSOL_CONNECT h /\
  HCI_EVNT_DATA_UNSOL_FREE_BUFF h <> HCI_EVNT_WLAN_UNSOL_DISCONNECT h /\
  HCI_EVNT_DATA_UNSOL_FREE_BUFF h <> HCI_EVNT_WLAN_UNSOL_DHCP h /\
  HCI_EVNT_DATA_UNSOL_FREE_BUFF h <> HCI_EVNT_WLAN_UNSOL_TCP_CLOSE_WAIT h.
Proof using labels_distinct.
  pose proof labels_distinct as D. unfold case_labels in D.
  inversion D as [| a1 l1 N1 D1]; subst. inversion D1 as [| a2 l2 N2 D2]; subst.
  inversion D2 as [| a3 l3 N3 D3]; subst. inversion D3 as [| a4 l4 N4 D4]; subst.
  cbn [In] in N1, N2, N3, N4.
  repeat split; intro E;
    first [apply N1; clear - E; tauto | apply N2; clear - E; tauto
          | apply N3; clear - E; tauto | apply N4; clear - E; tauto].
Qed.

(** C5.  An event whose code is the awaited one only sets the flag: the
    state is the one after the three header bytes with
    [hci_pending_event_available] set, so nothing more is read, the callback
    is not called and the transaction stays open.  For any other code the
    [switch] runs (it only reads), the callback is called once with the code
    and the argument the [switch] extracted (the socket number for
    TCP_CLOSE_WAIT, else 0), and [hci_end_receive] follows: the unread
    remainder is read off, chip select is released and the counter is 0. *)
Theorem hci_dispatch_event_routes : forall st ev sz st1 st2,
  0 <= hci_payload_size st ->
  hci_read_u16_le st = Some (ev, st1) ->
  hci_read_u8 st1 = Some (sz, st2) ->
  (ev = hci_pending_event st ->
   hci_dispatch_event st = Some (tt, set_hci_pending_event_available 1 st2))
  /\
  (ev <> hci_pending_event st ->
   forall j ps, pins st = repeat true j ++ false :: ps ->
   exists arg st3 st',
     unsolicited_event ev st2 = Some (arg, st3)
     /\ hci_dispatch_event st = Some (tt, st')
     /\ calls (trace st3) = calls (trace st)
     /\ trace st' =
        trace st3 ++ [(in_isr st, Callback ev arg)]
        ++ xfers (in_isr st) (repeat 0 (Z.to_nat (hci_payload_size st3))) (miso st3)
        ++ [(in_isr st, CsRelease)]
     /\ calls (trace st') = calls (trace st) ++ [(in_isr st, ev, arg)]
     /\ hci_payload_size st' = 0
     /\ (ev = HCI_EVNT_WLAN_UNSOL_TCP_CLOSE_WAIT h ->
         (hci_read_u8 ;; arg <- hci_read_u32_le ;; ret arg) st2 = Some (arg, st3))
     /\ (ev <> HCI_EVNT_WLAN_UNSOL_TCP_CLOSE_WAIT h -> arg = 0)).
Proof using labels_distinct.
  intros st ev sz st1 st2 Hp H1 H2.
  assert (Hpend : hci_pending_event st2 = hci_pending_event st).
  { assert (K1 : keeps (same hci_pending_event) hci_read_u16_le)
      by (by_same keeps_read_u16_le).
    assert (K2 : keeps (same hci_pending_event) hci_read_u8)
      by (by_same keeps_read_u8).
    apply K1 in H1. apply K2 in H2. unfold same in *. congruence. }
  split.
  - intro Heq. unfold hci_dispatch_event. unfold bind at 1. rewrite H1.
    unfold bind at 1. rewrite H2. run. rewrite Hpend, <- Heq, Z.eqb_refl. reflexivity.
  - intros Hne j ps Hpins.
    destruct (total_unsolicited_event ev st2) as [arg [st3 E3]].
    assert (A1 : adds only_xfer st st3).
    { apply adds_trans with st1.
      - revert H1. apply keeps_read_u16_le; adds_goal.
      - apply adds_trans with st2; [revert H2; apply read_u8_adds |].
        revert E3. apply unsolicited_event_adds. }
    assert (Hpins3 : pins st3 = pins st).
    { assert (K1 : keeps (same pins) hci_read_u16_le) by (by_same keeps_read_u16_le).
      assert (K2 : keeps (same pins) hci_read_u8) by (by_same keeps_read_u8).
      assert (K3 : keeps (same pins) (unsolicited_event ev))
        by (by_same keeps_unsolicited_event).
      apply K1 in H1. apply K2 in H2. apply K3 in E3. unfold same in *. congruence. }
    assert (Hp3 : 0 <= hci_payload_size st3).
    { apply (unsolicited_event_payload_nonneg ev _ _ _ E3).
      apply (read_u8_payload_nonneg _ _ _ H2).
      apply (read_u16_le_payload_nonneg _ _ _ H1). exact Hp. }
    assert (Hi3 : in_isr st3 = in_isr st) by (destruct A1 as [Hi _]; exact Hi).
    set (st4 := set_trace (trace st3 ++ [(in_isr st3, Callback ev arg)]) st3).
    assert (E5 : hci_dispatch_event st = Some (tt, after_end_receive ps st4)).
    { unfold hci_dispatch_event. unfold bind at 1. rewrite H1.
      unfold bind at 1. rewrite H2. unfold bind at 1, get at 1. rewrite Hpend.
      destruct (Z.eqb_spec ev (hci_pending_event st)) as [E | _]; [contradiction |].
      unfold bind at 1. rewrite E3. unfold bind at 1, wifi_callback, log.
      apply (hci_end_receive_some j ps).
      - destruct st3; exact Hp3.
      - rewrite <- Hpins3 in Hpins. destruct st3; exact Hpins. }
    assert (Htr : trace (after_end_receive ps st4) =
                  trace st3 ++ [(in_isr st, Callback ev arg)]
                  ++ xfers (in_isr st) (repeat 0 (Z.to_nat (hci_payload_size st3))) (miso st3)
                  ++ [(in_isr st, CsRelease)]).
    { rewrite <- Hi3. subst st4. unfold after_end_receive. destruct st3; gfields.
      rewrite <- !app_assoc. reflexivity. }
    exists arg, st3, (after_end_receive ps st4).
    split; [exact E3 |]. split; [exact E5 |].
    split; [apply adds_only_xfer_calls, A1 |].
    split; [exact Htr |].
    split; [| split; [| split]].
    + rewrite Htr, !calls_app, (adds_only_xfer_calls _ _ A1).
      rewrite (calls_only_xfer (xfers _ _ _)).
      * reflexivity.
      * eapply Forall_impl; [| apply xfers_only_xfer]. intros e [_ He]. exact He.
    + subst st4. unfold after_end_receive. destruct st3; reflexivity.
    + intro Hev. destruct labels_differ as [L1 [L2 [L3 _]]].
      unfold unsolicited_event in E3. rewrite Hev in E3.
      destruct (Z.eqb_spec (HCI_EVNT_WLAN_UNSOL_TCP_CLOSE_WAIT h)
                  (HCI_EVNT_WLAN_UNSOL_CONNECT h)); [contradiction |].
      destruct (Z.eqb_spec (HCI_EVNT_WLAN_UNSOL_TCP_CLOSE_WAIT h)
                  (HCI_EVNT_WLAN_UNSOL_DISCONNECT h)); [contradiction |].
      destruct (Z.eqb_spec (HCI_EVNT_WLAN_UNSOL_TCP_CLOSE_WAIT h)
                  (HCI_EVNT_WLAN_UNSOL_DHCP h)); [contradiction |].
      rewrite Z.eqb_refl in E3. exact E3.
    + intro Hev. unfold unsolicited_event in E3.
      destruct (ev =? HCI_EVNT_WLAN_UNSOL_CONNECT h);
        [revert E3; repeat (apply returns_bind; intro); apply returns_ret |].
      destruct (ev =? HCI_EVNT_WLAN_UNSOL_DISCONNECT h);
        [revert E3; repeat (apply returns_bind; intro); apply returns_ret |].
      destruct (ev =? HCI_EVNT_WLAN_UNSOL_DHCP h);
        [revert E3; repeat (apply returns_bind; intro); apply returns_ret |].
      destruct (Z.eqb_spec ev (HCI_EVNT_WLAN_UNSOL_TCP_CLOSE_WAIT h)); [contradiction |].
      destruct (ev =? HCI_EVNT_DATA_UNSOL_FREE_BUFF h);
        revert E3; repeat (apply returns_bind; intro); apply returns_ret.
Qed.

(** ** Exact runs of the readers *)

Ltac runl :=
  run;
  cbn [after_xfers after_end_receive hd tl skipn length app xfers
       set_wifi_connected set_wifi_dhcp set_ip_addr set_hci_data_available
       set_hci_pending_event_available set_hci_pending_event
       set_hci_available_buffer_count set_hci_payload_size set_hci_pad
       set_hci_state set_miso set_irqs set_pins set_clock set_in_isr set_trace
       wifi_connected wifi_dhcp ip_addr hci_data_available
       hci_pending_event_available hci_pending_event hci_buffer_size
       hci_buffer_count hci_available_buffer_count hci_payload_size hci_pad
       hci_state miso irqs pins clock in_isr trace].

(** Projections of states built with the setters. *)
Ltac proj :=
  cbn [after_xfers after_end_receive after_reply_irq after_data_irq
       after_begin_command after_begin_data take_buffer
       set_wifi_connected set_wifi_dhcp set_ip_addr set_hci_data_available
       set_hci_pending_event_available set_hci_pending_event
       set_hci_available_buffer_count set_hci_payload_size set_hci_pad
       set_hci_state set_miso set_irqs set_pins set_clock set_in_isr set_trace
       wifi_connected wifi_dhcp ip_addr hci_data_available
       hci_pending_event_available hci_pending_event hci_buffer_size
       hci_buffer_count hci_available_buffer_count hci_payload_size hci_pad
       hci_state miso irqs pins clock in_isr trace].

Lemma be16_decode : forall len,
  0 <= len < 65536 ->
  u16 (Z.lor (Z.shiftl (u8 (len / 256)) 8) (u8 (len mod 256))) = len.
Proof.
  intros len Hlen. rewrite Z.lor_comm.
  rewrite lor_shiftl_add; [| lia | apply u8_range].
  unfold u8, u16. change (2 ^ 8) with 256.
  rewrite Z.mod_mod by lia. Z.to_euclidean_division_equations. lia.
Qed.

Lemma hci_read_u16_le_some : forall st,
  2 <= hci_payload_size st ->
  hci_read_u16_le st =
  Some (Z.lor (u8 (hd 0 (miso st))) (Z.shiftl (u8 (hd 0 (tl (miso st)))) 8),
        after_xfers [0; 0] (set_hci_payload_size (hci_payload_size st - 2) st)).
Proof.
  intros st Hp. unfold hci_read_u16_le.
  unfold bind at 1. rewrite hci_read_u8_some by lia.
  unfold bind at 1. rewrite hci_read_u8_some by (runl; lia).
  unfold ret. apply some_pair.
  - destruct st as [? ? ? ? ? ? ? ? ? ? ? ? [| ? ?] ? ? ? ? ?]; reflexivity.
  - destruct st as [? ? ? ? ? ? ? ? ? ? ? ? m ? ? ? ? ?]. gfields.
    rewrite <- !app_assoc.
    f_equal; try lia; destruct m as [| ? [| ? ?]]; reflexivity.
Qed.

Lemma hci_read_u32_le_some : forall st,
  4 <= hci_payload_size st ->
  hci_read_u32_le st =
  Some (Z.lor (Z.lor (Z.lor (u8 (hd 0 (miso st)))
                            (Z.shiftl (u8 (hd 0 (skipn 1 (miso st)))) 8))
                     (Z.shiftl (u8 (hd 0 (skipn 2 (miso st)))) 16))
              (Z.shiftl (u8 (hd 0 (skipn 3 (miso st)))) 24),
        after_xfers [0; 0; 0; 0] (set_hci_payload_size (hci_payload_size st - 4) st)).
Proof.
  intros st Hp. unfold hci_read_u32_le.
  unfold bind at 1. rewrite hci_read_u8_some by lia.
  unfold bind at 1. rewrite hci_read_u8_some by (runl; lia).
  unfold bind at 1. rewrite hci_read_u8_some by (runl; lia).
  unfold bind at 1. rewrite hci_read_u8_some by (runl; lia).
  unfold ret. apply some_pair.
  - destruct st as [? ? ? ? ? ? ? ? ? ? ? ? m ? ? ? ? ?].
    destruct m as [| ? [| ? [| ? [| ? ?]]]]; reflexivity.
  - destruct st as [? ? ? ? ? ? ? ? ? ? ? ? m ? ? ? ? ?]. gfields.
    rewrite <- !app_assoc.
    f_equal; try lia; destruct m as [| ? [| ? [| ? [| ? ?]]]]; reflexivity.
Qed.

Lemma le16_bytes_decode : forall v,
  0 <= v < 65536 ->
  Z.lor (u8 (Z.land (Z.shiftr v 0) 255)) (Z.shiftl (u8 (Z.land (Z.shiftr v 8) 255)) 8) = v.
Proof. exact le16_decode. Qed.

(** ** The interrupt handler on a "buffers freed" event *)

Lemma u8_add_l : forall a b, u8 (u8 a + b) = u8 (a + b).
Proof. intros a b. unfold u8. apply Zplus_mod_idemp_l. Qed.

Lemma free_buff_entries_some : forall entries ms st,
  0 <= hci_available_buffer_count st < 256 ->
  4 * Z.of_nat (length entries) <= hci_payload_size st ->
  miso st = flat_map free_buff_entry entries ++ ms ->
  Forall (fun e => 0 <= snd e < 65536) entries ->
  exists st',
    free_buff_entries (length entries) st = Some (tt, st')
    /\ hci_available_buffer_count st' =
       u8 (hci_available_buffer_count st + freed_total entries)
    /\ hci_payload_size st' = hci_payload_size st - 4 * Z.of_nat (length entries)
    /\ miso st' = ms.
Proof.
  induction entries as [| [x c] es IH]; intros ms st Hav Hp Hm HF.
  - exists st. cbn [length free_buff_entries freed_total fold_right].
    split; [reflexivity |]. split; [| split].
    + rewrite Z.add_0_r, u8_small by exact Hav. reflexivity.
    + cbn. lia.
    + exact Hm.
  - inversion HF as [| e l Hc HF']; subst. cbn [snd] in Hc.
    cbn [length free_buff_entries]. cbn [length] in Hp.
    unfold bind at 1. rewrite hci_read_u16_le_some by lia.
    unfold bind at 1. rewrite hci_read_u16_le_some by (runl; lia).
    unfold bind at 1, modify at 1.
    match goal with
    | |- exists st', free_buff_entries _ ?s = _ /\ _ => destruct (IH ms s) as [st' [E [Ha [Hq Hms]]]]
    end.
    + runl. apply u8_range.
    + runl. lia.
    + runl. rewrite Hm. reflexivity.
    + exact HF'.
    + exists st'. split; [exact E |]. split; [| split].
      * rewrite Ha. runl. rewrite Hm. cbn [flat_map free_buff_entry le16 fst snd app hd tl].
        rewrite le16_bytes_decode by exact Hc.
        cbn [freed_total fold_right snd]. rewrite u8_add_l. f_equal.
        fold (freed_total es). lia.
      * rewrite Hq. runl. lia.
      * exact Hms.
Qed.

Lemma free_buff_entry_length : forall entries,
  length (flat_map free_buff_entry entries) = (4 * length entries)%nat.
Proof.
  induction entries as [| e es IH]; [reflexivity |].
  cbn [flat_map length]. rewrite length_app, IH. cbn. lia.
Qed.

Lemma free_buff_payload_length : forall args_size status entries,
  Z.of_nat (length (free_buff_payload args_size status entries)) =
  7 + 4 * Z.of_nat (length entries).
Proof.
  intros. unfold free_buff_payload. cbn [app le16 length].
  rewrite free_buff_entry_length. lia.
Qed.

Lemma hci_begin_receive_some : forall st b0 b1 b2 p0 p1 ms,
  miso st = b0 :: b1 :: b2 :: p0 :: p1 :: ms ->
  hci_begin_receive st =
  Some (tt, set_hci_payload_size (u16 (Z.lor (Z.shiftl (u8 p0) 8) (u8 p1)))
              (after_xfers [HCI_READ; 0; 0; 0; 0]
                 (set_trace (trace st ++ [(in_isr st, CsAssert)]) st))).
Proof.
  intros st b0 b1 b2 p0 p1 ms Hm. unfold hci_begin_receive. runl. rewrite Hm. runl.
  apply some_pair; [reflexivity |]. destruct st; gfields. cbn [miso] in Hm. subst.
  cbn [xfers hd tl length skipn]. rewrite <- !app_assoc. reflexivity.
Qed.

Lemma free_buff_entries_same_buffer_count : forall n,
  keeps (same hci_buffer_count) (free_buff_entries n).
Proof. intro n. by_same keeps_free_buff_entries. Qed.

Lemma free_buff_entries_same_pins : forall n, keeps (same pins) (free_buff_entries n).
Proof. intro n. by_same keeps_free_buff_entries. Qed.

Lemma interrupt_free_buff : forall st b0 b1 b2 args_size status entries ms,
  hci_state st = HCI_STATE_IDLE ->
  hci_pending_event st <> HCI_EVNT_DATA_UNSOL_FREE_BUFF h ->
  0 <= hci_available_buffer_count st < 256 ->
  Z.of_nat (length (free_buff_payload args_size status entries)) < 65536 ->
  Forall (fun e => 0 <= snd e < 65536) entries ->
  miso st = rx_frame b0 b1 b2 (free_buff_payload args_size status entries) ++ ms ->
  exists st4,
    interrupt st = (hci_end_receive ;; modify (set_in_isr false)) st4
    /\ hci_available_buffer_count st4 =
       u8 (hci_available_buffer_count st + freed_total entries)
    /\ hci_buffer_count st4 = hci_buffer_count st
    /\ hci_payload_size st4 = 0
    /\ pins st4 = pins st
    /\ miso st4 = ms.
Proof using labels_distinct free_buff_u16.
  intros st b0 b1 b2 args_size status entries ms Hst Hpend Hav Hlen HF Hm.
  destruct labels_differ as [_ [_ [_ [L1 [L2 [L3 L4]]]]]].
  unfold rx_frame in Hm. cbn [app] in Hm.
  rewrite free_buff_payload_length in *.
  destruct st as [wc wd ip da pa pe bs bc ab py pd hs mi ir pn ck ii tr].
  cbn [hci_state hci_pending_event hci_available_buffer_count miso] in Hst, Hpend, Hav, Hm.
  subst hs mi.
  unfold interrupt, hci_irq. runl.
  change (HCI_STATE_IDLE =? HCI_STATE_WAIT_ASSERT) with false. cbv beta iota.
  erewrite hci_begin_receive_some by (runl; reflexivity).
  rewrite be16_decode by lia.
  unfold hci_dispatch. runl.
  rewrite hci_read_u8_some by (runl; lia). runl.
  unfold free_buff_payload. cbn [app hd tl skipn length].
  change (u8 HCI_TYPE_EVNT =? HCI_TYPE_EVNT) with true. cbv beta iota.
  unfold hci_dispatch_event. runl.
  rewrite hci_read_u16_le_some by (runl; lia). runl.
  rewrite hci_read_u8_some by (runl; lia). runl.
  cbn [le16 app hd tl skipn length].
  rewrite le16_bytes_decode by exact free_buff_u16.
  destruct (Z.eqb_spec (HCI_EVNT_DATA_UNSOL_FREE_BUFF h) pe); [congruence |].
  unfold unsolicited_event.
  destruct (Z.eqb_spec (HCI_EVNT_DATA_UNSOL_FREE_BUFF h) (HCI_EVNT_WLAN_UNSOL_CONNECT h));
    [contradiction |].
  destruct (Z.eqb_spec (HCI_EVNT_DATA_UNSOL_FREE_BUFF h) (HCI_EVNT_WLAN_UNSOL_DISCONNECT h));
    [contradiction |].
  destruct (Z.eqb_spec (HCI_EVNT_DATA_UNSOL_FREE_BUFF h) (HCI_EVNT_WLAN_UNSOL_DHCP h));
    [contradiction |].
  destruct (Z.eqb_spec (HCI_EVNT_DATA_UNSOL_FREE_BUFF h)
              (HCI_EVNT_WLAN_UNSOL_TCP_CLOSE_WAIT h)); [contradiction |].
  rewrite Z.eqb_refl. runl.
  rewrite hci_read_u8_some by (runl; lia). runl.
  rewrite hci_read_u16_le_some by (runl; lia). runl.
  rewrite le16_bytes_decode by lia. rewrite Nat2Z.id.
  match goal with
  | |- context [free_buff_entries _ ?S] =>
      destruct (free_buff_entries_some entries ms S) as [st' [E [Ha [Hq Hms]]]];
        [runl; exact Hav | runl; lia | runl; reflexivity | exact HF |];
        pose proof (free_buff_entries_same_buffer_count _ _ _ _ E) as Hbc;
        pose proof (free_buff_entries_same_pins _ _ _ _ E) as Hpn;
        unfold same in Hbc, Hpn
  end.
  rewrite E.
  exists (set_trace (trace st' ++ [(in_isr st', Callback (HCI_EVNT_DATA_UNSOL_FREE_BUFF h) 0)]) st').
  split; [reflexivity |]. revert Ha Hq Hbc Hpn. runl. intros Ha Hq Hbc Hpn.
  repeat split; try assumption. lia.
Qed.

(** C8.  On an unsolicited "buffers freed" event the handler adds to
    [hci_available_buffer_count] the sum of the entries' counts (in the
    variable's 8-bit arithmetic), whatever the number of entries; when the
    sum fits the variable the count grows by exactly that sum. *)
Theorem free_buff_event_adds_the_sum :
  forall st b0 b1 b2 args_size status entries ms j ps,
  hci_state st = HCI_STATE_IDLE ->
  hci_pending_event st <> HCI_EVNT_DATA_UNSOL_FREE_BUFF h ->
  0 <= hci_available_buffer_count st < 256 ->
  Z.of_nat (length (free_buff_payload args_size status entries)) < 65536 ->
  Forall (fun e => 0 <= snd e < 65536) entries ->
  miso st = rx_frame b0 b1 b2 (free_buff_payload args_size status entries) ++ ms ->
  pins st = repeat true j ++ false :: ps ->
  exists st',
    interrupt st = Some (tt, st')
    /\ hci_available_buffer_count st' =
       u8 (hci_available_buffer_count st + freed_total entries)
    /\ (hci_available_buffer_count st + freed_total entries < 256 ->
        hci_available_buffer_count st' =
        hci_available_buffer_count st + freed_total entries).
Proof using labels_distinct free_buff_u16.
  intros st b0 b1 b2 args_size status entries ms j ps Hst Hpend Hav Hlen HF Hm Hpins.
  destruct (interrupt_free_buff st b0 b1 b2 args_size status entries ms
              Hst Hpend Hav Hlen HF Hm) as [st4 [E [Ha [Hbc [Hp [Hpn Hms]]]]]].
  rewrite E. unfold bind. rewrite (hci_end_receive_some j ps) by (lia || congruence).
  unfold modify. eexists. split; [reflexivity |].
  assert (Hfin : hci_available_buffer_count (set_in_isr false (after_end_receive ps st4)) =
                 u8 (hci_available_buffer_count st + freed_total entries)).
  { rewrite <- Ha. destruct st4; reflexivity. }
  split; [exact Hfin |].
  intro Hsmall. rewrite Hfin. apply u8_small.
  assert (0 <= freed_total entries).
  { clear -HF. induction HF as [| e l He _ IH]; cbn [freed_total fold_right]; [lia |].
    fold (freed_total l). lia. }
  lia.
Qed.

(** C1 (as amended).  From the full pool [wlan_init] leaves, every
    interleaving of sends and "buffers freed" events in which no event frees
    more than is in use keeps [hci_available_buffer_count] between 0 and
    [hci_buffer_count]. *)
Theorem pool_invariant_when_guarded : forall st0 st,
  0 <= hci_buffer_count st0 < 256 ->
  hci_available_buffer_count st0 = hci_buffer_count st0 ->
  pool_reach true st0 st ->
  0 <= hci_available_buffer_count st <= hci_buffer_count st
  /\ hci_buffer_count st = hci_buffer_count st0.
Proof using labels_distinct free_buff_u16.
  intros st0 st Hc Hfull Hreach.
  induction Hreach as [| st st' _ IH Hstep]; [lia |].
  destruct IH as [Hinv Hcount].
  destruct Hstep as [st Hne | st b0 b1 b2 args_size status entries ms ps st'
                                 Hi Hst Hpend Hlen HF Hguard Hrun].
  - unfold take_buffer. destruct st; fields. rewrite u8_small by lia. lia.
  - specialize (Hguard eq_refl).
    destruct (interrupt_free_buff
                (set_miso (rx_frame b0 b1 b2 (free_buff_payload args_size status entries) ++ ms)
                   (set_pins ps st))
                b0 b1 b2 args_size status entries ms) as [st4 [E [Ha [Hbc _]]]];
      try (destruct st; assumption); try (destruct st; fields; lia); [destruct st; reflexivity |].
    rewrite E in Hrun. unfold bind, modify in Hrun.
    destruct (hci_end_receive st4) as [[u s5] |] eqn:E5; [| discriminate].
    inversion Hrun; subst st'.
    pose proof (end_receive_same_available _ _ _ E5) as Ha5.
    pose proof (end_receive_same_buffer_count _ _ _ E5) as Hb5.
    unfold same in Ha5, Hb5.
    assert (Hav' : hci_available_buffer_count (set_in_isr false s5) =
                   u8 (hci_available_buffer_count st + freed_total entries)).
    { transitivity (hci_available_buffer_count s5); [destruct s5; reflexivity |].
      rewrite Ha5, Ha. destruct st; reflexivity. }
    assert (Hbc' : hci_buffer_count (set_in_isr false s5) = hci_buffer_count st).
    { transitivity (hci_buffer_count s5); [destruct s5; reflexivity |].
      rewrite Hb5, Hbc. destruct st; reflexivity. }
    assert (0 <= freed_total entries).
    { clear -HF. induction HF as [| e l He _ IH]; cbn [freed_total fold_right]; [lia |].
      fold (freed_total l). lia. }
    rewrite Hav', Hbc', u8_small by lia. lia.
Qed.

(** ** Exact runs of the writers *)

Lemma hci_write_u8_some : forall v st,
  0 < hci_payload_size st ->
  hci_write_u8 v st =
  Some (tt, after_xfers [v] (set_hci_payload_size (hci_payload_size st - 1) st)).
Proof.
  intros v st Hp. unfold hci_write_u8. apply Z.ltb_lt in Hp. rewrite Hp.
  destruct st; reflexivity.
Qed.

Lemma after_xfers_set_payload : forall outs v st,
  after_xfers outs (set_hci_payload_size v st) =
  set_hci_payload_size v (after_xfers outs st).
Proof. intros. destruct st; reflexivity. Qed.

(** Two writes in a row. *)
Lemma after_xfers_twice : forall a b p q st,
  after_xfers b (set_hci_payload_size q (after_xfers a (set_hci_payload_size p st))) =
  after_xfers (a ++ b) (set_hci_payload_size q st).
Proof.
  intros. rewrite <- after_xfers_app. rewrite (after_xfers_set_payload a p).
  destruct st; reflexivity.
Qed.

Lemma hci_write_u32_le_some : forall v st,
  4 <= hci_payload_size st ->
  hci_write_u32_le v st =
  Some (tt, after_xfers (le32 (u32 v)) (set_hci_payload_size (hci_payload_size st - 4) st)).
Proof.
  intros v st Hp. unfold hci_write_u32_le. cbv zeta.
  unfold bind at 1. rewrite hci_write_u8_some by lia.
  unfold bind at 1. rewrite hci_write_u8_some by (runl; lia).
  unfold bind at 1. rewrite hci_write_u8_some by (runl; lia).
  rewrite hci_write_u8_some by (runl; lia).
  apply some_pair; [reflexivity |]. runl.
  rewrite !after_xfers_twice. unfold le32. cbn [app].
  f_equal. f_equal. lia.
Qed.

Lemma hci_write_array_some : forall n data st,
  Z.of_nat n <= hci_payload_size st ->
  hci_write_array data n st =
  Some (tt, after_xfers (mem_bytes n data)
              (set_hci_payload_size (hci_payload_size st - Z.of_nat n) st)).
Proof.
  induction n as [| n IH]; intros data st Hn.
  - cbn [hci_write_array mem_bytes]. unfold ret. rewrite after_xfers_nil.
    apply some_pair; [reflexivity |]. destruct st; gfields. f_equal. cbn. lia.
  - cbn [hci_write_array mem_bytes]. unfold bind. rewrite hci_write_u8_some by lia.
    rewrite IH by (runl; lia). apply some_pair; [reflexivity |]. runl.
    rewrite after_xfers_twice. cbn [app]. f_equal. f_equal. lia.
Qed.

Lemma mem_bytes_firstn : forall n data,
  (n <= length data)%nat -> mem_bytes n data = firstn n data.
Proof.
  induction n as [| n IH]; intros data Hn; [reflexivity |].
  destruct data as [| d ds]; cbn [length] in Hn; [lia |].
  cbn [mem_bytes hd tl firstn]. rewrite IH by lia. reflexivity.
Qed.

Lemma mem_bytes_length : forall n data, length (mem_bytes n data) = n.
Proof. induction n as [| n IH]; intro data; cbn; [| rewrite IH]; reflexivity. Qed.

(** ** Waiting for the interrupt that answers chip select *)

Lemma interrupt_wait_assert : forall st,
  in_isr st = false ->
  hci_state st = HCI_STATE_WAIT_ASSERT ->
  interrupt st = Some (tt, set_hci_state HCI_STATE_IDLE st).
Proof.
  intros st Hi Hs. unfold interrupt, hci_irq. run. rewrite Hs.
  change (HCI_STATE_WAIT_ASSERT =? HCI_STATE_WAIT_ASSERT) with true. cbv beta iota.
  apply some_pair; [reflexivity |]. destruct st; gfields. cbn [in_isr] in Hi. subst.
  reflexivity.
Qed.


Lemma spin_wait_assert_some : forall k irs fuel st,
  in_isr st = false ->
  hci_state st = HCI_STATE_WAIT_ASSERT ->
  irqs st = repeat false k ++ true :: irs ->
  (k < fuel)%nat ->
  spin fuel (fun s => hci_state s =? HCI_STATE_IDLE) st =
  Some (tt, set_hci_state HCI_STATE_IDLE (set_irqs irs st)).
Proof.
  induction k as [| k IH]; intros irs fuel st Hi Hs Hirq Hf;
    (destruct fuel as [| f]; [lia |]); cbn [spin]; rewrite Hs;
    change (HCI_STATE_WAIT_ASSERT =? HCI_STATE_IDLE) with false; cbv iota;
    unfold bind, poll_irq; rewrite Hirq; cbn [repeat app].
  - rewrite interrupt_wait_assert by (destruct st; assumption).
    destruct f; cbn [spin]; run;
      change (HCI_STATE_IDLE =? HCI_STATE_IDLE) with true; cbv iota; reflexivity.
  - unfold ret. rewrite (IH irs); [| destruct st; assumption .. | destruct st; reflexivity | lia].
    apply some_pair; [reflexivity |]. destruct st; reflexivity.
Qed.

(** ** The frame headers *)

Lemma hci_transfer_some : forall o st,
  hci_transfer o st = Some (u8 (hd 0 (miso st)), after_xfers [o] st).
Proof. intros. destruct st; reflexivity. Qed.


Lemma hci_begin_command_tail : forall opcode argsSize irs st,
  (let opcode := u16 opcode in
   let argsSize := u16 argsSize in
   let pad := if Z.land argsSize 1 =? 0 then 1 else 0 in
   modify (set_hci_pad pad) ;;
   modify (set_hci_payload_size (u16 (4 + argsSize + pad))) ;;
   size <- get hci_payload_size ;;
   hci_transfer HCI_WRITE ;;
   hci_transfer (Z.shiftr size 8) ;;
   hci_transfer (Z.land size 0xff) ;;
   hci_transfer 0 ;;
   hci_transfer 0 ;;
   hci_transfer HCI_TYPE_CMND ;;
   hci_transfer (Z.land opcode 0xff) ;;
   hci_transfer (Z.shiftr opcode 8) ;;
   hci_transfer argsSize ;;
   ret tt)
    (set_hci_state HCI_STATE_IDLE
       (set_irqs irs
          (set_trace (trace st ++ [(in_isr st, CsAssert)])
             (set_hci_state HCI_STATE_WAIT_ASSERT st)))) =
  Some (tt, after_begin_command opcode argsSize irs st).
Proof.
  intros. cbv zeta.
  unfold bind at 1, modify at 1. unfold bind at 1, modify at 1.
  unfold bind at 1, get at 1. cbn [hci_payload_size set_hci_payload_size].
  repeat (unfold bind at 1; rewrite hci_transfer_some; rewrite ?after_xfers_app).
  unfold ret. apply some_pair; [reflexivity |].
  unfold after_begin_command, command_header, command_size, command_pad_flag.
  cbn [app]. destruct st; reflexivity.
Qed.

Lemma hci_begin_command_some : forall opcode argsSize k irs st,
  in_isr st = false ->
  irqs st = repeat false k ++ true :: irs ->
  hci_begin_command opcode argsSize st =
  Some (tt, after_begin_command opcode argsSize irs st).
Proof.
  intros opcode argsSize k irs st Hi Hirq.
  rewrite <- hci_begin_command_tail.
  unfold hci_begin_command. cbv zeta.
  unfold bind at 1, modify at 1. unfold bind at 1, log at 1. unfold bind at 1.
  unfold busy_wait.
  rewrite (spin_wait_assert_some k irs).
  - apply f_equal. destruct st; reflexivity.
  - destruct st; assumption.
  - destruct st; reflexivity.
  - destruct st; exact Hirq.
  - destruct st; gfields. cbn [irqs] in Hirq. subst.
    rewrite length_app, repeat_length. cbn [length]. lia.
Qed.


Lemma hci_end_command_begin_receive_prefix : forall event timeout c0 cl st,
  clock st = c0 :: cl ->
  hci_end_command_begin_receive event timeout st =
  await_reply (u32 (u32 c0 + u32 timeout)) (after_end_command event cl st).
Proof.
  intros event timeout c0 cl st Hc. unfold hci_end_command_begin_receive.
  unfold bind at 1, modify at 1. unfold bind at 1, modify at 1.
  unfold bind at 1, modify at 1. unfold bind at 1, millis at 1.
  cbn [clock set_hci_data_available set_hci_pending_event_available set_hci_pending_event].
  rewrite Hc. unfold bind at 1, get at 1. unfold after_end_command.
  cbn [hci_pad set_clock set_hci_data_available set_hci_pending_event_available
       set_hci_pending_event].
  destruct (negb (hci_pad st =? 0)).
  - unfold bind at 1. unfold bind at 1. rewrite hci_transfer_some. unfold ret at 1.
    unfold bind at 1, log at 1. destruct st; reflexivity.
  - unfold bind at 1, ret at 1. unfold bind at 1, log at 1. destruct st; reflexivity.
Qed.

(** Projections of the states the headers leave. *)

Lemma trace_after_xfers : forall outs st,
  trace (after_xfers outs st) = trace st ++ xfers (in_isr st) outs (miso st).
Proof. intros. destruct st; reflexivity. Qed.

Lemma miso_after_xfers : forall outs st,
  miso (after_xfers outs st) = skipn (length outs) (miso st).
Proof. intros. destruct st; reflexivity. Qed.

Lemma land_1 : forall x, Z.land x 1 = x mod 2.
Proof. intro x. change 1 with (Z.ones 1). rewrite Z.land_ones by lia. reflexivity. Qed.

Lemma command_pad_flag_parity : forall n,
  0 <= n < 65536 -> command_pad_flag n = Z.of_nat (command_pad n).
Proof.
  intros n Hn. unfold command_pad_flag, command_pad, u16.
  rewrite Z.mod_small by lia. rewrite land_1.
  assert (H2 : 0 <= n mod 2 < 2) by (apply Z.mod_pos_bound; lia).
  assert (H9 : (5 + 4 + n) mod 2 = 1 - n mod 2)
    by (Z.to_euclidean_division_equations; lia).
  rewrite H9. destruct (Z.eqb_spec (n mod 2) 0) as [E | E].
  - rewrite E. reflexivity.
  - replace (n mod 2) with 1 by lia. reflexivity.
Qed.

Lemma command_size_sum : forall n,
  0 <= n <= 65530 -> command_size n = 4 + n + Z.of_nat (command_pad n).
Proof.
  intros n Hn. unfold command_size. rewrite command_pad_flag_parity by lia.
  unfold u16. rewrite (Z.mod_small n) by lia.
  assert (Z.of_nat (command_pad n) <= 1).
  { unfold command_pad. pose proof (Z.mod_pos_bound (5 + 4 + n) 2). lia. }
  apply Z.mod_small. lia.
Qed.

Lemma command_pad_values : forall n,
  (command_pad n = 0 \/ command_pad n = 1)%nat.
Proof.
  intro n. unfold command_pad. pose proof (Z.mod_pos_bound (5 + 4 + n) 2). lia.
Qed.

Lemma u16_small : forall x, 0 <= x < 65536 -> u16 x = x.
Proof. intros x Hx. unfold u16. apply Z.mod_small. exact Hx. Qed.

Lemma to_signed_congruent : forall bits x,
  0 <= bits -> exists c, to_signed bits x = x + c * 2 ^ bits.
Proof.
  intros bits x Hb. unfold to_signed.
  assert (Hpos : 0 < 2 ^ bits) by (apply Z.pow_pos_nonneg; lia).
  rewrite (Z.mod_eq x (2 ^ bits)) by lia.
  destruct (x - 2 ^ bits * (x / 2 ^ bits) <? 2 ^ (bits - 1)).
  - exists (- (x / 2 ^ bits)). lia.
  - exists (- (x / 2 ^ bits) - 1). lia.
Qed.

Lemma to_signed_mod : forall bits x d,
  0 <= d <= bits -> to_signed bits x mod 2 ^ d = x mod 2 ^ d.
Proof.
  intros bits x d Hd. destruct (to_signed_congruent bits x) as [c Hc]; [lia |].
  rewrite Hc. replace (2 ^ bits) with (2 ^ (bits - d) * 2 ^ d)
    by (rewrite <- Z.pow_add_r by lia; f_equal; lia).
  rewrite Z.mul_assoc. apply Z_mod_plus_full.
Qed.

Lemma data_pad_flag_parity : forall a b,
  0 <= a < 256 -> 0 <= b < 65536 ->
  data_pad_flag a b = Z.of_nat (data_pad (a + b)).
Proof using int_bits.
  intros a b Ha Hb. unfold data_pad_flag, data_pad, data_total.
  rewrite (u8_small a), (u16_small b) by lia.
  rewrite land_1. pose proof int_bits as Hw. unfold int_width in Hw.
  pose proof (to_signed_mod INT_BITS (a + b) 1) as Hm. change (2 ^ 1) with 2 in Hm.
  rewrite Hm by lia.
  assert (H2 : 0 <= (a + b) mod 2 < 2) by (apply Z.mod_pos_bound; lia).
  assert (H9 : (5 + 5 + (a + b)) mod 2 = (a + b) mod 2)
    by (Z.to_euclidean_division_equations; lia).
  rewrite H9. destruct (Z.eqb_spec ((a + b) mod 2) 0) as [E | E]; cbn [negb].
  - rewrite E. reflexivity.
  - replace ((a + b) mod 2) with 1 by lia. reflexivity.
Qed.

Lemma data_size_sum : forall a b,
  0 <= a < 256 -> 0 <= b < 65536 -> a + b <= 65530 ->
  data_size a b = 4 + (a + b) + Z.of_nat (data_pad (a + b)).
Proof using int_bits.
  intros a b Ha Hb Hab. unfold data_size.
  rewrite data_pad_flag_parity by lia. unfold data_total.
  rewrite (u8_small a), (u16_small b) by lia.
  pose proof int_bits as Hw. unfold int_width in Hw.
  assert (Hp : Z.of_nat (data_pad (a + b)) <= 1).
  { unfold data_pad. pose proof (Z.mod_pos_bound (5 + 5 + (a + b)) 2). lia. }
  unfold u16. change 65536 with (2 ^ 16).
  rewrite <- Zplus_mod_idemp_l, <- (Zplus_mod_idemp_r (to_signed _ _)).
  rewrite to_signed_mod by lia.
  rewrite Zplus_mod_idemp_r, Zplus_mod_idemp_l.
  apply Z.mod_small. change (2 ^ 16) with 65536. lia.
Qed.

Lemma hci_begin_data_tail : forall opcode argsSize bufferSize irs st,
  (let opcode := u16 opcode in
   let argsSize := u8 argsSize in
   let bufferSize := u16 bufferSize in
   let totalSize := to_signed INT_BITS (argsSize + bufferSize) in
   let pad := if negb (Z.land totalSize 1 =? 0) then 1 else 0 in
   modify (set_hci_pad pad) ;;
   modify (set_hci_payload_size (u16 (4 + totalSize + pad))) ;;
   size <- get hci_payload_size ;;
   hci_transfer HCI_WRITE ;;
   hci_transfer (Z.shiftr size 8) ;;
   hci_transfer size ;;
   hci_transfer 0 ;;
   hci_transfer 0 ;;
   hci_transfer HCI_TYPE_DATA ;;
   hci_transfer opcode ;;
   hci_transfer argsSize ;;
   hci_transfer totalSize ;;
   hci_transfer (Z.shiftr totalSize 8) ;;
   ret tt)
    (set_hci_state HCI_STATE_IDLE
       (set_irqs irs
          (set_trace (trace st ++ [(in_isr st, CsAssert)])
             (set_hci_state HCI_STATE_WAIT_ASSERT st)))) =
  Some (tt, after_begin_data opcode argsSize bufferSize irs st).
Proof.
  intros. cbv zeta.
  unfold bind at 1, modify at 1. unfold bind at 1, modify at 1.
  unfold bind at 1, get at 1. cbn [hci_payload_size set_hci_payload_size].
  repeat (unfold bind at 1; rewrite hci_transfer_some; rewrite ?after_xfers_app).
  unfold ret. apply some_pair; [reflexivity |].
  unfold after_begin_data, data_header, data_size, data_pad_flag, data_total.
  cbn [app]. destruct st; reflexivity.
Qed.

Lemma hci_begin_data_some : forall opcode argsSize bufferSize k irs st,
  in_isr st = false ->
  irqs st = repeat false k ++ true :: irs ->
  hci_begin_data opcode argsSize bufferSize st =
  Some (tt, after_begin_data opcode argsSize bufferSize irs st).
Proof.
  intros opcode argsSize bufferSize k irs st Hi Hirq.
  rewrite <- hci_begin_data_tail.
  unfold hci_begin_data. cbv zeta.
  unfold bind at 1, modify at 1. unfold bind at 1, log at 1. unfold bind at 1.
  unfold busy_wait.
  rewrite (spin_wait_assert_some k irs).
  - apply f_equal. destruct st; reflexivity.
  - destruct st; assumption.
  - destruct st; reflexivity.
  - destruct st; exact Hirq.
  - destruct st; gfields. cbn [irqs] in Hirq. subst.
    rewrite length_app, repeat_length. cbn [length]. lia.
Qed.

(** C4 (as amended).  A command frame with [n] argument bytes and a data
    frame with [m] argument and buffer bytes go out between chip select
    asserted and released as header, arguments and pad, with one pad byte
    exactly when the whole frame on the wire (5 bytes of SPI header, the 4 or
    5 bytes of HCI header, the arguments) has odd length, and none
    otherwise.  In terms of the payload length the code computes, [4 + n] or
    [4 + m]: a command is padded when it is even, a data frame when it is
    odd. *)
Theorem pad_byte_rule :
  (forall st opcode n args event timeout k irs c0 cl,
     in_isr st = false ->
     0 <= n <= 65530 ->
     irqs st = repeat false k ++ true :: irs ->
     clock st = c0 :: cl ->
     exists st_r,
       (hci_begin_command opcode n ;;
        hci_write_array args (Z.to_nat n) ;;
        hci_end_command_begin_receive event timeout) st =
       await_reply (u32 (u32 c0 + u32 timeout)) st_r
       /\ trace st_r =
          trace st ++ (false, CsAssert)
          :: xfers false (command_header opcode n ++ mem_bytes (Z.to_nat n) args
                          ++ repeat 0 (command_pad n)) (miso st)
          ++ [(false, CsRelease)]
       /\ (command_pad n = 1%nat <-> (4 + n) mod 2 = 0)
       /\ (command_pad n = 0%nat <-> (4 + n) mod 2 = 1))
  /\
  (forall st opcode a b bytes event timeout k irs c0 cl,
     in_isr st = false ->
     0 <= a < 256 -> 0 <= b < 65536 -> a + b <= 65530 ->
     irqs st = repeat false k ++ true :: irs ->
     clock st = c0 :: cl ->
     exists st_r,
       (hci_begin_data opcode a b ;;
        hci_write_array bytes (Z.to_nat (a + b)) ;;
        hci_end_data_begin_receive event timeout) st =
       await_reply (u32 (u32 c0 + u32 timeout)) st_r
       /\ trace st_r =
          trace st ++ (false, CsAssert)
          :: xfers false (data_header opcode a b ++ mem_bytes (Z.to_nat (a + b)) bytes
                          ++ repeat 0 (data_pad (a + b))) (miso st)
          ++ [(false, CsRelease)]
       /\ length (data_header opcode a b) = 10%nat
       /\ (data_pad (a + b) = 1%nat <-> (4 + (a + b)) mod 2 = 1)
       /\ (data_pad (a + b) = 0%nat <-> (4 + (a + b)) mod 2 = 0)).
Proof using int_bits.
  split.
  - intros st opcode n args event timeout k irs c0 cl Hi Hn Hirq Hc.
    unfold bind at 1. rewrite (hci_begin_command_some opcode n k irs) by assumption.
    unfold bind at 1. unfold after_begin_command.
    rewrite hci_write_array_some
      by (cbn [hci_payload_size after_xfers set_trace set_miso set_hci_payload_size];
          rewrite command_size_sum by lia; lia).
    rewrite after_xfers_twice.
    rewrite (hci_end_command_begin_receive_prefix event timeout c0 cl)
      by (destruct st; exact Hc).
    eexists. split; [reflexivity |]. split; [| split].
    + unfold after_end_command.
      cbn [hci_pad after_xfers set_trace set_miso set_hci_payload_size set_hci_pad].
      rewrite command_pad_flag_parity by lia.
      destruct st as [? ? ? ? ? ? ? ? ? ? ? ? m ? ? ? ? tr]. cbn [in_isr] in Hi. subst.
      destruct (command_pad_values n) as [E | E]; rewrite E; cbn [Z.of_nat Z.eqb negb repeat].
      * gfields. rewrite app_nil_r, <- !app_assoc. reflexivity.
      * gfields. rewrite (app_assoc (command_header opcode n)).
        rewrite (xfers_app false (command_header opcode n ++ mem_bytes (Z.to_nat n) args) [0]).
        rewrite <- !app_assoc. reflexivity.
    + unfold command_pad. Z.to_euclidean_division_equations. lia.
    + unfold command_pad. Z.to_euclidean_division_equations. lia.
  - intros st opcode a b bytes event timeout k irs c0 cl Hi Ha Hb Hab Hirq Hc.
    unfold bind at 1. rewrite (hci_begin_data_some opcode a b k irs) by assumption.
    unfold bind at 1. unfold after_begin_data.
    rewrite hci_write_array_some
      by (cbn [hci_payload_size after_xfers set_trace set_miso set_hci_payload_size];
          rewrite data_size_sum by lia; lia).
    rewrite after_xfers_twice. unfold hci_end_data_begin_receive.
    rewrite (hci_end_command_begin_receive_prefix event timeout c0 cl)
      by (destruct st; exact Hc).
    eexists. split; [reflexivity |]. split; [| split; [reflexivity | split]].
    + unfold after_end_command.
      cbn [hci_pad after_xfers set_trace set_miso set_hci_payload_size set_hci_pad].
      rewrite data_pad_flag_parity by lia.
      destruct st as [? ? ? ? ? ? ? ? ? ? ? ? m ? ? ? ? tr]. cbn [in_isr] in Hi. subst.
      assert (Hv : (data_pad (a + b) = 0 \/ data_pad (a + b) = 1)%nat).
      { unfold data_pad. pose proof (Z.mod_pos_bound (5 + 5 + (a + b)) 2). lia. }
      destruct Hv as [E | E]; rewrite E; cbn [Z.of_nat Z.eqb negb repeat].
      * gfields. rewrite app_nil_r, <- !app_assoc. reflexivity.
      * gfields. rewrite (app_assoc (data_header opcode a b)).
        rewrite (xfers_app false
                   (data_header opcode a b ++ mem_bytes (Z.to_nat (a + b)) bytes) [0]).
        rewrite <- !app_assoc. reflexivity.
    + unfold data_pad. Z.to_euclidean_division_equations. lia.
    + unfold data_pad. Z.to_euclidean_division_equations. lia.
Qed.

(** ** Waiting for the reply *)

Lemma spin_until_done : forall fuel tmr st,
  hci_pending_event_available st <> 0 ->
  spin_until fuel tmr st = Some (tt, st).
Proof.
  intros fuel tmr st Ha. apply Z.eqb_neq in Ha.
  destruct fuel; cbn [spin_until]; rewrite Ha; reflexivity.
Qed.

(** [k] polls during which nothing happens and the deadline is not reached. *)
Lemma spin_until_quiet : forall k fuel tmr st irs cs cl,
  hci_pending_event_available st = 0 ->
  irqs st = repeat false k ++ irs ->
  clock st = cs ++ cl ->
  length cs = k ->
  Forall (fun c => u32 c <= tmr) cs ->
  (k <= fuel)%nat ->
  spin_until fuel tmr st = spin_until (fuel - k) tmr (set_irqs irs (set_clock cl st)).
Proof.
  induction k as [| k IH]; intros fuel tmr st irs cs cl Ha Hirq Hc Hlen HF Hf.
  - destruct cs; [| discriminate]. cbn [repeat app] in *. rewrite Nat.sub_0_r.
    f_equal. destruct st; cbn [irqs clock] in *; subst; reflexivity.
  - destruct cs as [| c cs]; [discriminate |]. destruct fuel as [| f]; [lia |].
    inversion HF as [| c' l Hle HF']; subst.
    cbn [spin_until]. rewrite Ha. cbn [Z.eqb negb].
    unfold bind at 1, millis at 1. rewrite Hc. cbn [app].
    apply Z.leb_le in Hle. rewrite Hle.
    unfold bind at 1, poll_irq at 1.
    cbn [irqs set_clock]. rewrite Hirq. cbn [repeat app]. unfold ret at 1.
    rewrite (IH f tmr _ irs cs cl);
      [ cbn [Nat.sub]; f_equal; destruct st; reflexivity
      | destruct st; exact Ha
      | destruct st; reflexivity
      | destruct st; reflexivity
      | cbn [length] in Hlen; lia
      | exact HF'
      | lia ].
Qed.

(** The reply comes with the [k+1]-th poll, before the deadline. *)
Lemma spin_until_answered : forall k fuel tmr st irs cs c cl st',
  hci_pending_event_available st = 0 ->
  irqs st = repeat false k ++ true :: irs ->
  clock st = cs ++ c :: cl ->
  length cs = k ->
  Forall (fun c => u32 c <= tmr) (cs ++ [c]) ->
  interrupt (set_irqs irs (set_clock cl st)) = Some (tt, st') ->
  hci_pending_event_available st' <> 0 ->
  (k < fuel)%nat ->
  spin_until fuel tmr st = Some (tt, st').
Proof.
  intros k fuel tmr st irs cs c cl st' Ha Hirq Hc Hlen HF Hint Ha' Hf.
  apply Forall_app in HF. destruct HF as [HF Hlast].
  inversion Hlast as [| c' l Hle _]; subst.
  rewrite (spin_until_quiet (length cs) fuel tmr st (true :: irs) cs (c :: cl));
    try assumption; try reflexivity; [| lia].
  destruct (fuel - length cs)%nat as [| f] eqn:Ef; [lia |].
  cbn [spin_until]. cbn [hci_pending_event_available set_irqs set_clock].
  rewrite Ha. cbn [Z.eqb negb].
  unfold bind at 1, millis at 1. cbn [clock set_irqs set_clock].
  apply Z.leb_le in Hle. rewrite Hle.
  unfold bind at 1, poll_irq at 1. cbn [irqs set_irqs set_clock].
  replace (set_irqs irs (set_clock cl (set_irqs (true :: irs) (set_clock (c :: cl) st))))
    with (set_irqs irs (set_clock cl st)) by (destruct st; reflexivity).
  rewrite Hint. apply spin_until_done. exact Ha'.
Qed.

(** No reply: the deadline passes at the [k+1]-th reading of the clock. *)
Lemma spin_until_timeout : forall k fuel tmr st irs cs c cl,
  hci_pending_event_available st = 0 ->
  irqs st = repeat false k ++ irs ->
  clock st = cs ++ c :: cl ->
  length cs = k ->
  Forall (fun c => u32 c <= tmr) cs ->
  tmr < u32 c ->
  (k <= fuel)%nat ->
  spin_until fuel tmr st = Some (tt, set_irqs irs (set_clock cl st)).
Proof.
  intros k fuel tmr st irs cs c cl Ha Hirq Hc Hlen HF Hlate Hf.
  rewrite (spin_until_quiet k fuel tmr st irs cs (c :: cl)); try assumption.
  assert (Hgt : (u32 c <=? tmr) = false) by (apply Z.leb_gt; exact Hlate).
  destruct (fuel - k)%nat; cbn [spin_until];
    cbn [hci_pending_event_available set_irqs set_clock]; rewrite Ha; cbn [Z.eqb negb];
    unfold bind at 1, millis at 1; cbn [clock set_irqs set_clock]; rewrite Hgt;
    unfold ret; apply some_pair; try reflexivity; destruct st; reflexivity.
Qed.

(** ** The interrupt handler on the awaited event and on a data frame *)

Lemma interrupt_reply : forall st b0 b1 b2 P e0 e1 sz rest,
  in_isr st = false ->
  hci_state st = HCI_STATE_IDLE ->
  4 <= P < 65536 ->
  Z.lor (u8 e0) (Z.shiftl (u8 e1) 8) = hci_pending_event st ->
  miso st = b0 :: b1 :: b2 :: P / 256 :: P mod 256 :: HCI_TYPE_EVNT :: e0 :: e1 :: sz :: rest ->
  interrupt st = Some (tt, after_reply_irq P st).
Proof.
  intros st b0 b1 b2 P e0 e1 sz rest Hi Hst HP Hev Hm.
  destruct st as [wc wd ip da pa pe bs bc ab py pd hs mi ir pn ck ii tr].
  cbn [in_isr hci_state hci_pending_event miso] in Hi, Hst, Hev, Hm. subst ii hs mi.
  unfold interrupt, hci_irq.
  unfold bind at 1, modify at 1. unfold bind at 1. unfold bind at 1, get at 1.
  cbn [hci_state set_in_isr].
  change (HCI_STATE_IDLE =? HCI_STATE_WAIT_ASSERT) with false. cbv beta iota.
  unfold bind at 1. erewrite hci_begin_receive_some by reflexivity.
  rewrite be16_decode by lia.
  unfold hci_dispatch. unfold bind at 1. rewrite hci_read_u8_some by (runl; lia).
  runl. change (u8 HCI_TYPE_EVNT =? HCI_TYPE_EVNT) with true. cbv beta iota.
  unfold hci_dispatch_event.
  unfold bind at 1. rewrite hci_read_u16_le_some by (runl; lia).
  unfold bind at 1. rewrite hci_read_u8_some by (runl; lia).
  unfold bind at 1, get at 1. runl.
  rewrite Hev, Z.eqb_refl.
  apply some_pair; [reflexivity |].
  unfold after_reply_irq. gfields. cbn [xfers hd tl skipn length app].
  rewrite <- !app_assoc. cbn [app]. f_equal. lia.
Qed.

Lemma await_reply_answered : forall st tmr k irs cs c late cl b0 b1 b2 P e0 e1 sz rest,
  in_isr st = false ->
  hci_state st = HCI_STATE_IDLE ->
  hci_pending_event_available st = 0 ->
  4 <= P < 65536 ->
  Z.lor (u8 e0) (Z.shiftl (u8 e1) 8) = hci_pending_event st ->
  irqs st = repeat false k ++ true :: irs ->
  clock st = cs ++ c :: late :: cl ->
  length cs = k ->
  Forall (fun t => u32 t <= tmr) (cs ++ [c; late]) ->
  miso st = b0 :: b1 :: b2 :: P / 256 :: P mod 256 :: HCI_TYPE_EVNT :: e0 :: e1 :: sz :: rest ->
  await_reply tmr st = Some (tt, set_clock cl (after_reply_irq P (set_irqs irs st))).
Proof.
  intros st tmr k irs cs c late cl b0 b1 b2 P e0 e1 sz rest
         Hi Hst Ha HP Hev Hirq Hc Hlen HF Hm.
  assert (HF1 : Forall (fun t => u32 t <= tmr) (cs ++ [c]) /\ u32 late <= tmr).
  { change [c; late] with ([c] ++ [late]) in HF. rewrite app_assoc in HF.
    apply Forall_app in HF. destruct HF as [H1 H2]. split; [exact H1 |].
    inversion H2; assumption. }
  destruct HF1 as [HF1 Hlate].
  unfold await_reply. unfold bind at 1.
  rewrite (spin_until_answered k (length (irqs st)) tmr st irs cs c (late :: cl)
             (after_reply_irq P (set_irqs irs (set_clock (late :: cl) st))));
    try assumption.
  - unfold bind at 1, millis at 1. unfold after_reply_irq at 1.
    cbn [clock set_in_isr set_hci_pending_event_available after_xfers set_trace set_miso
         set_hci_payload_size set_irqs set_clock].
    assert (Hnl : (tmr <? u32 late) = false) by (apply Z.ltb_ge; exact Hlate).
    rewrite Hnl. unfold ret. apply some_pair; [reflexivity |]. destruct st; reflexivity.
  - apply (interrupt_reply _ b0 b1 b2 P e0 e1 sz rest); try assumption;
      destruct st; assumption.
  - unfold after_reply_irq. destruct st; cbn. discriminate.
  - rewrite Hirq, length_app, repeat_length. cbn [length]. lia.
Qed.

(** The reply to a command with a 32-bit result, read by
    [hci_end_command_receive_u32_result] from a frame with one pad byte
    still to go out. *)
Lemma end_command_receive_u32_answered :
  forall st event timeout k irs c0 cs c late cl j ps x b0 b1 b2 sz status v more ms,
  in_isr st = false ->
  hci_state st = HCI_STATE_IDLE ->
  hci_pad st = 1 ->
  irqs st = repeat false k ++ true :: irs ->
  clock st = c0 :: cs ++ c :: late :: cl ->
  length cs = k ->
  Forall (fun t => u32 t <= u32 (u32 c0 + u32 timeout)) (cs ++ [c; late]) ->
  pins st = repeat true j ++ false :: ps ->
  0 <= v < 4294967296 ->
  Z.of_nat (length (reply_payload (u16 event) sz status v more)) < 65536 ->
  miso st = x :: rx_frame b0 b1 b2 (reply_payload (u16 event) sz status v more) ++ ms ->
  exists st',
    hci_end_command_receive_u32_result event timeout st = Some (v, st')
    /\ (exists rest, trace st' =
                     trace st ++ xfers false [0] (miso st) ++ (false, CsRelease) :: rest)
    /\ miso st' = ms
    /\ hci_payload_size st' = 0
    /\ in_isr st' = false
    /\ hci_available_buffer_count st' = hci_available_buffer_count st
    /\ hci_buffer_count st' = hci_buffer_count st.
Proof.
  intros st event timeout k irs c0 cs c late cl j ps x b0 b1 b2 sz status v more ms
         Hi Hst Hpad Hirq Hc Hlen HF Hpins Hv HP Hm.
  assert (Hl : Z.of_nat (length (reply_payload (u16 event) sz status v more)) =
               9 + Z.of_nat (length more)).
  { unfold reply_payload. cbn [app le16 le32 length]. lia. }
  rewrite Hl in HP.
  destruct st as [wc wd ip da pa pe bs bc ab py pd hs mi ir pn ck ii tr].
  cbn [in_isr hci_state hci_pad irqs clock pins miso] in Hi, Hst, Hpad, Hirq, Hc, Hpins, Hm.
  subst ii hs pd ir ck pn mi k.
  unfold hci_end_command_receive_u32_result. unfold bind at 1.
  rewrite (hci_end_command_begin_receive_prefix event timeout c0
             (cs ++ c :: late :: cl)) by reflexivity.
  unfold after_end_command. cbn [hci_pad Z.eqb negb].
  unfold rx_frame. rewrite Hl. unfold reply_payload. cbn [app le16].
  erewrite (await_reply_answered _ _ (length cs) irs cs c late cl b0 b1 b2
              (9 + Z.of_nat (length more)));
    [ | reflexivity | reflexivity | reflexivity | lia | | reflexivity | reflexivity
      | reflexivity | exact HF | reflexivity ].
  2: { cbn [hci_pending_event set_trace after_xfers set_miso set_clock
            set_hci_data_available set_hci_pending_event_available set_hci_pending_event].
       apply le16_bytes_decode. apply Z.mod_pos_bound. lia. }
  unfold hci_read_status. unfold bind at 1. unfold bind at 1.
  rewrite hci_read_u8_some by (proj; lia). proj.
  unfold ret at 1. unfold bind at 1.
  rewrite hci_read_u32_le_some by (proj; lia). proj.
  unfold bind at 1.
  rewrite (hci_end_receive_some j ps) by (proj; (lia || reflexivity)).
  unfold ret.
  eexists. split; [apply some_pair; [| reflexivity] |].
  - cbn [length skipn hd le32 app]. apply le32_decode. exact Hv.
  - split; [| split; [| split; [| split; [| split]]]].
    + eexists. proj. cbn [xfers hd tl length skipn repeat].
      rewrite <- !app_assoc. cbn [app]. reflexivity.
    + proj. cbn [le32 app skipn length].
      replace (9 + Z.of_nat (length more) - 4 - 1 - 4) with (Z.of_nat (length more)) by lia.
      rewrite Nat2Z.id, repeat_length.
      rewrite skipn_app, skipn_all, Nat.sub_diag. reflexivity.
    + reflexivity.
    + reflexivity.
    + reflexivity.
    + reflexivity.
Qed.

(** C9.  [socket(domain, type, protocol)], so also
    [socket(AF_INET, SOCK_STREAM, 0)]: once the CC3000 has answered chip
    select, the frame on the link is the 9 header bytes of command 0x1001
    with 12 argument bytes, the three arguments as 32-bit little-endian
    values, and the pad byte; when the reply event for 0x1001 arrives before
    the deadline, the function returns the 32-bit value that follows the
    status byte (through its [int]) and the transaction is read to its end. *)
Theorem socket_frame_and_result :
  forall st domain type protocol k1 k2 irs c0 cs c late cl j ps
         junk b0 b1 b2 sz status v more ms,
  in_isr st = false ->
  irqs st = repeat false k1 ++ true :: repeat false k2 ++ true :: irs ->
  clock st = c0 :: cs ++ c :: late :: cl ->
  length cs = k2 ->
  Forall (fun t => u32 t <= u32 (u32 c0 + 1000)) (cs ++ [c; late]) ->
  pins st = repeat true j ++ false :: ps ->
  0 <= v < 4294967296 ->
  length junk = 22%nat ->
  Z.of_nat (length (reply_payload HCI_CMND_SOCKET sz status v more)) < 65536 ->
  miso st = junk ++ rx_frame b0 b1 b2 (reply_payload HCI_CMND_SOCKET sz status v more) ++ ms ->
  exists st' rest,
    socket domain type protocol st = Some (to_signed INT_BITS v, st')
    /\ trace st' =
       trace st ++ (false, CsAssert)
       :: xfers false ([1; 0; 17; 0; 0; 1; 0x01; 0x10; 12]
                       ++ le32 (u32 domain) ++ le32 (u32 type) ++ le32 (u32 protocol)
                       ++ [0]) junk
       ++ (false, CsRelease) :: rest
    /\ miso st' = ms
    /\ hci_payload_size st' = 0.
Proof.
  intros st domain type protocol k1 k2 irs c0 cs c late cl j ps
         junk b0 b1 b2 sz status v more ms Hi Hirq Hc Hlen HF Hpins Hv Hj HP Hm.
  do 22 (destruct junk as [| ? junk]; [discriminate |]).
  destruct junk; [| discriminate]. clear Hj.
  destruct st as [wc wd ip da pa pe bs bc ab py pd hs mi ir pn ck ii tr].
  cbn [in_isr irqs clock pins miso] in Hi, Hirq, Hc, Hpins, Hm. subst ii ir ck pn mi.
  unfold socket. unfold bind at 1.
  rewrite (hci_begin_command_some _ _ k1 (repeat false k2 ++ true :: irs)) by reflexivity.
  change (command_size 12) with 17 in *.
  unfold bind at 1.
  rewrite hci_write_u32_le_some by (proj; change (command_size 12) with 17; lia).
  proj. change (command_size 12) with 17.
  unfold bind at 1. rewrite hci_write_u32_le_some by (proj; lia). proj.
  unfold bind at 1. rewrite hci_write_u32_le_some by (proj; lia). proj.
  unfold bind at 1.
  match goal with
  | |- context [hci_end_command_receive_u32_result _ _ ?S] =>
      destruct (end_command_receive_u32_answered S HCI_CMND_SOCKET 1000 k2 irs c0 cs c late cl
                  j ps z20 b0 b1 b2 sz status v more ms)
        as [st' [E [[rest Htr] [Hms [Hp _]]]]]
  end; try reflexivity; try assumption.
  - rewrite E. unfold ret. exists st', rest. split; [reflexivity |].
    split; [| split; assumption].
    rewrite Htr. proj. cbn [xfers hd tl skipn length app le32].
    rewrite <- !app_assoc. reflexivity.
Qed.

(** C10.  With a null [addr] or a zero [addrlen], [connect] returns [EFAIL]
    and leaves the state, trace included, as it was.  Otherwise the value of
    [addrlen] plays no part; once the CC3000 has answered chip select the
    frame is the header of command 0x1007 with 20 argument bytes, the socket,
    the constant 8, the address length 8 and 8 bytes from [addr]; the pad
    byte and the wait for the reply follow. *)
Theorem connect_guard_and_marshalling :
  (forall sd addrlen st, connect sd None addrlen st = Some (EFAIL h, st))
  /\ (forall sd a st, connect sd (Some a) 0 st = Some (EFAIL h, st))
  /\ (forall sd a addrlen addrlen',
        addrlen <> 0 -> addrlen' <> 0 ->
        connect sd (Some a) addrlen = connect sd (Some a) addrlen')
  /\ (forall st sd a addrlen k irs,
        addrlen <> 0 ->
        in_isr st = false ->
        irqs st = repeat false k ++ true :: irs ->
        exists st_m,
          (hci_begin_command HCI_CMND_CONNECT 20 ;;
           hci_write_u32_le sd ;;
           hci_write_u32_le 8 ;;
           hci_write_u32_le 8 ;;
           hci_write_array a 8) st = Some (tt, st_m)
          /\ connect sd (Some a) addrlen st =
             (r <- hci_end_command_receive_u32_result HCI_CMND_CONNECT 10000 ;;
              ret (to_signed INT_BITS r)) st_m
          /\ trace st_m =
             trace st ++ (false, CsAssert)
             :: xfers false ([1; 0; 25; 0; 0; 1; 0x07; 0x10; 20]
                             ++ le32 (u32 sd) ++ [8; 0; 0; 0] ++ [8; 0; 0; 0]
                             ++ mem_bytes 8 a) (miso st)
          /\ hci_pad st_m = 1
          /\ hci_payload_size st_m = 5).
Proof.
  split; [reflexivity |]. split; [reflexivity |]. split.
  - intros sd a addrlen addrlen' H1 H2. unfold connect.
    apply Z.eqb_neq in H1, H2. rewrite H1, H2. reflexivity.
  - intros st sd a addrlen k irs Hne Hi Hirq.
    assert (E : (hci_begin_command HCI_CMND_CONNECT 20 ;;
                 hci_write_u32_le sd ;;
                 hci_write_u32_le 8 ;;
                 hci_write_u32_le 8 ;;
                 hci_write_array a 8) st =
                Some (tt,
                      after_xfers (le32 (u32 sd) ++ le32 (u32 8) ++ le32 (u32 8) ++ mem_bytes 8 a)
                        (set_hci_payload_size 5
                           (after_begin_command HCI_CMND_CONNECT 20 irs st)))).
    { unfold bind at 1. rewrite (hci_begin_command_some _ _ k irs) by assumption.
      unfold bind at 1.
      rewrite hci_write_u32_le_some by (proj; change (command_size 20) with 25; lia).
      proj. change (command_size 20) with 25.
      unfold bind at 1. rewrite hci_write_u32_le_some by (proj; lia). proj.
      unfold bind at 1. rewrite hci_write_u32_le_some by (proj; lia). proj.
      rewrite hci_write_array_some by (proj; cbn; lia). proj.
      apply some_pair; [reflexivity |].
      unfold after_begin_command. rewrite !after_xfers_set_payload.
      rewrite !after_xfers_app.
      change (command_size 20) with 25. change (Z.of_nat 8) with 8.
      destruct st; gfields. rewrite <- !app_assoc. reflexivity. }
    eexists. split; [exact E |]. split; [| split; [| split]].
    + unfold connect. apply Z.eqb_neq in Hne. rewrite Hne. cbv zeta.
      change (12 + 8) with 20. change (Z.to_nat (u16 8)) with 8%nat.
      revert E. generalize (hci_end_command_receive_u32_result HCI_CMND_CONNECT 10000).
      intros m E. unfold bind in *.
      destruct (hci_begin_command HCI_CMND_CONNECT 20 st) as [[u1 s1] |]; [| discriminate].
      destruct (hci_write_u32_le sd s1) as [[u2 s2] |]; [| discriminate].
      destruct (hci_write_u32_le 8 s2) as [[u3 s3] |]; [| discriminate].
      destruct (hci_write_u32_le 8 s3) as [[u4 s4] |]; [| discriminate].
      rewrite E. reflexivity.
    + rewrite trace_after_xfers. unfold after_begin_command.
      destruct st as [? ? ? ? ? ? ? ? ? ? ? ? m ? ? ? ? tr].
      cbn [in_isr] in Hi. subst. gfields.
      rewrite (xfers_app false (command_header HCI_CMND_CONNECT 20)).
      rewrite <- !app_assoc. reflexivity.
    + reflexivity.
    + reflexivity.
Qed.

Lemma bind_some : forall (A B : Type) (m : M A) (f : A -> M B) st b st',
  bind m f st = Some (b, st') ->
  exists a s1, m st = Some (a, s1) /\ f a s1 = Some (b, st').
Proof.
  intros A B m f st b st' H. unfold bind in H.
  destruct (m st) as [[a s1] |]; [| discriminate]. exists a, s1. split; [reflexivity | exact H].
Qed.

(** ** What the thread did, read off the trace *)

Lemma by_thread_app : forall a b, by_thread (a ++ b) = by_thread a ++ by_thread b.
Proof. intros a b. unfold by_thread. rewrite filter_app, map_app. reflexivity. Qed.

Lemma by_thread_isr : forall l,
  Forall (fun e : event => fst e = true) l -> by_thread l = [].
Proof.
  induction 1 as [| [c a] l Hc _ IH]; [reflexivity |].
  cbn [fst] in Hc. subst c. exact IH.
Qed.



Lemma end_command_needs_clock : forall event timeout st,
  clock st = [] -> hci_end_command_begin_receive event timeout st = None.
Proof.
  intros event timeout st Hc. unfold hci_end_command_begin_receive.
  unfold bind at 1, modify at 1. unfold bind at 1, modify at 1.
  unfold bind at 1, modify at 1. unfold bind at 1, millis at 1.
  cbn [clock set_hci_data_available set_hci_pending_event_available set_hci_pending_event].
  rewrite Hc. reflexivity.
Qed.





(** ** The calls the thread made *)

Lemma thread_calls_app : forall a b,
  thread_calls (a ++ b) = thread_calls a ++ thread_calls b.
Proof. intros a b. unfold thread_calls. rewrite by_thread_app, flat_map_app. reflexivity. Qed.

Lemma thread_calls_isr : forall l,
  Forall (fun e : event => fst e = true) l -> thread_calls l = [].
Proof. intros l F. unfold thread_calls. rewrite (by_thread_isr l F). reflexivity. Qed.

Lemma thread_calls_xfers : forall isr outs ms, thread_calls (xfers isr outs ms) = [].
Proof.
  intros isr outs. induction outs as [| o os IH]; intro ms; [reflexivity |].
  cbn [xfers]. change (?e :: ?l) with ([e] ++ l). rewrite thread_calls_app, IH.
  destruct isr; reflexivity.
Qed.

Lemma calls_xfers : forall isr outs ms, calls (xfers isr outs ms) = [].
Proof.
  intros. apply calls_only_xfer. eapply Forall_impl; [| apply xfers_only_xfer].
  intros e [_ He]. exact He.
Qed.

Lemma trace_after_end_command : forall event cl st,
  trace (after_end_command event cl st) =
  trace st
  ++ (if negb (hci_pad st =? 0) then xfers (in_isr st) [0] (miso st) else [])
  ++ [(in_isr st, CsRelease)].
Proof.
  intros. unfold after_end_command. destruct st. cbn [hci_pad].
  destruct (negb (_ =? 0)); gfields; rewrite <- ?app_assoc; reflexivity.
Qed.

Lemma in_isr_after_end_command : forall event cl st,
  in_isr (after_end_command event cl st) = in_isr st.
Proof.
  intros. unfold after_end_command. destruct st. cbn [hci_pad].
  destruct (negb (_ =? 0)); reflexivity.
Qed.

Lemma clock_after_end_command : forall event cl st,
  clock (after_end_command event cl st) = cl.
Proof.
  intros. unfold after_end_command. destruct st. cbn [hci_pad].
  destruct (negb (_ =? 0)); reflexivity.
Qed.

Lemma irqs_after_end_command : forall event cl st,
  irqs (after_end_command event cl st) = irqs st.
Proof.
  intros. unfold after_end_command. destruct st. cbn [hci_pad].
  destruct (negb (_ =? 0)); reflexivity.
Qed.

Lemma pending_available_after_end_command : forall event cl st,
  hci_pending_event_available (after_end_command event cl st) = 0.
Proof.
  intros. unfold after_end_command. destruct st. cbn [hci_pad].
  destruct (negb (_ =? 0)); reflexivity.
Qed.

(** ** The reply wait, whatever the interrupts do *)

Lemma spin_until_inv : forall tmr fuel st st',
  in_isr st = false ->
  spin_until fuel tmr st = Some (tt, st') ->
  in_isr st' = false
  /\ thread_calls (trace st') = thread_calls (trace st)
  /\ exists used,
       clock st = used ++ clock st'
       /\ (hci_pending_event_available st' = 0 ->
           exists pre x, used = pre ++ [x] /\ tmr < u32 x).
Proof.
  intros tmr fuel st st' Hi H.
  pose proof (spin_until_only_isr_events tmr fuel _ _ _ H Hi) as [Hi' [l [Hl F]]].
  split; [exact Hi' |]. split.
  { rewrite Hl, thread_calls_app, (thread_calls_isr l F), app_nil_r. reflexivity. }
  clear Hi Hi' l Hl F. revert st st' H.
  induction fuel as [| f IH]; intros st st' H; cbn [spin_until] in H.
  - destruct (Z.eqb_spec (hci_pending_event_available st) 0) as [E | E]; cbn [negb] in H.
    + apply bind_some in H. destruct H as [now [s1 [Em H]]].
      unfold millis in Em. destruct (clock st) as [| t ts] eqn:Ec; [discriminate |].
      inversion Em; subst now s1. clear Em.
      destruct (Z.leb_spec (u32 t) tmr) as [Hle | Hgt]; [discriminate |].
      inversion H; subst st'. exists [t]. split; [destruct st; reflexivity |].
      intros _. exists [], t. split; [reflexivity | exact Hgt].
    + inversion H; subst st'. exists []. split; [reflexivity |]. intro E0. contradiction.
  - destruct (Z.eqb_spec (hci_pending_event_available st) 0) as [E | E]; cbn [negb] in H.
    + apply bind_some in H. destruct H as [now [s1 [Em H]]].
      unfold millis in Em. destruct (clock st) as [| t ts] eqn:Ec; [discriminate |].
      inversion Em; subst now s1. clear Em.
      destruct (Z.leb_spec (u32 t) tmr) as [Hle | Hgt].
      * apply bind_some in H. destruct H as [u [s2 [Ep H]]].
        pose proof (poll_same_clock _ _ _ Ep) as Hck. unfold same in Hck.
        destruct (IH _ _ H) as [used [Hu Hx]].
        exists (t :: used). split.
        { cbn [app]. rewrite <- Hu, Hck. destruct st; reflexivity. }
        intro E0. destruct (Hx E0) as [pre [x [Hpre Hlt]]].
        exists (t :: pre), x. split; [rewrite Hpre; reflexivity | exact Hlt].
      * inversion H; subst st'. exists [t]. split; [destruct st; reflexivity |].
        intros _. exists [], t. split; [reflexivity | exact Hgt].
    + inversion H; subst st'. exists []. split; [reflexivity |]. intro E0. contradiction.
Qed.

(** C3 (as amended).  [hci_end_command_begin_receive] has no error to
    return.  The test after its wait looks only at the clock: the thread
    calls the callback with the "locked" event, once, exactly when the
    reading taken after the wait is past the deadline.  So when the wait
    ended on the deadline (the slot still not available) and the clock does
    not run backwards, the callback is called exactly once, however many
    polls the wait took; when the slot became available and that reading is
    still within the deadline, it is not called. *)
Theorem locked_callback_follows_the_clock :
  (* whatever the interrupts do *)
  (forall st event timeout st',
     in_isr st = false ->
     hci_end_command_begin_receive event timeout st = Some (tt, st') ->
     exists c0 used late,
       clock st = c0 :: used ++ late :: clock st'
       /\ thread_calls (trace st') =
          thread_calls (trace st)
          ++ (if u32 (u32 c0 + u32 timeout) <? u32 late
              then [(HCI_EVNT_CC3000_LOCKED h, 0)] else [])
       /\ (hci_pending_event_available st' = 0 ->
           exists pre x, used = pre ++ [x] /\ u32 (u32 c0 + u32 timeout) < u32 x)
       /\ (hci_pending_event_available st' = 0 ->
           (forall pre x, used = pre ++ [x] -> u32 x <= u32 late) ->
           thread_calls (trace st') =
           thread_calls (trace st) ++ [(HCI_EVNT_CC3000_LOCKED h, 0)]))
  /\
  (* no reply: [k] polls within the deadline, then the deadline passes *)
  (forall st event timeout k irs c0 cs c late cl,
     in_isr st = false ->
     irqs st = repeat false k ++ irs ->
     clock st = c0 :: cs ++ c :: late :: cl ->
     length cs = k ->
     Forall (fun t => u32 t <= u32 (u32 c0 + u32 timeout)) cs ->
     u32 (u32 c0 + u32 timeout) < u32 c ->
     u32 c <= u32 late ->
     exists st',
       hci_end_command_begin_receive event timeout st = Some (tt, st')
       /\ hci_pending_event_available st' = 0
       /\ calls (trace st') = calls (trace st) ++ [(false, HCI_EVNT_CC3000_LOCKED h, 0)])
  /\
  (* the reply comes with the [k+1]-th poll and the clock is still within
     the deadline after the wait *)
  (forall st event timeout k irs c0 cs c late cl b0 b1 b2 P sz rest,
     in_isr st = false ->
     hci_state st = HCI_STATE_IDLE ->
     irqs st = repeat false k ++ true :: irs ->
     clock st = c0 :: cs ++ c :: late :: cl ->
     length cs = k ->
     Forall (fun t => u32 t <= u32 (u32 c0 + u32 timeout)) (cs ++ [c; late]) ->
     4 <= P < 65536 ->
     miso (after_end_command event (cs ++ c :: late :: cl) st) =
     b0 :: b1 :: b2 :: P / 256 :: P mod 256 :: HCI_TYPE_EVNT :: le16 (u16 event) ++ sz :: rest ->
     exists st',
       hci_end_command_begin_receive event timeout st = Some (tt, st')
       /\ hci_pending_event_available st' = 1
       /\ calls (trace st') = calls (trace st)).
Proof.
  split; [| split].
  - intros st event timeout st' Hi H.
    destruct (clock st) as [| c0 cl0] eqn:Ec;
      [rewrite end_command_needs_clock in H by exact Ec; discriminate |].
    rewrite (hci_end_command_begin_receive_prefix event timeout c0 cl0) in H by exact Ec.
    unfold await_reply in H.
    apply bind_some in H. destruct H as [u [st_w [Ew H]]]. destruct u.
    apply bind_some in H. destruct H as [late [s1 [Em H]]].
    destruct (spin_until_inv _ _ _ _ (eq_trans (in_isr_after_end_command _ _ _) Hi) Ew)
      as [Hiw [Hcalls [used [Hused Hx]]]].
    rewrite clock_after_end_command in Hused.
    rewrite trace_after_end_command in Hcalls.
    assert (Hcalls' : thread_calls (trace st_w) = thread_calls (trace st)).
    { rewrite Hcalls, !thread_calls_app. rewrite Hi.
      destruct (negb (hci_pad st =? 0)); [rewrite thread_calls_xfers |];
        cbn [app]; rewrite app_nil_r; reflexivity. }
    unfold millis in Em. destruct (clock st_w) as [| t ts] eqn:Ecw; [discriminate |].
    inversion Em; subst late s1. clear Em.
    assert (Hfin : clock st' = ts /\ hci_pending_event_available st' =
                                     hci_pending_event_available st_w
                   /\ thread_calls (trace st') =
                      thread_calls (trace st)
                      ++ (if u32 (u32 c0 + u32 timeout) <? u32 t
                          then [(HCI_EVNT_CC3000_LOCKED h, 0)] else [])).
    { destruct (u32 (u32 c0 + u32 timeout) <? u32 t) eqn:El.
      - unfold wifi_callback, log in H. inversion H; subst st'.
        split; [destruct st_w; reflexivity |]. split; [destruct st_w; reflexivity |].
        rewrite <- Hcalls'. destruct st_w as [? ? ? ? ? ? ? ? ? ? ? ? ? ? ? ? ii tr].
        cbn [in_isr] in Hiw. subst ii. cbn [trace set_trace set_clock in_isr].
        rewrite thread_calls_app. reflexivity.
      - unfold ret in H. inversion H; subst st'.
        split; [destruct st_w; reflexivity |]. split; [destruct st_w; reflexivity |].
        rewrite app_nil_r, <- Hcalls'. destruct st_w; reflexivity. }
    destruct Hfin as [Hck [Hpa Hcl]].
    exists c0, used, t. split; [| split; [| split]].
    + rewrite Hck. rewrite Hused. reflexivity.
    + exact Hcl.
    + intro E0. apply Hx. rewrite <- Hpa. exact E0.
    + intros E0 Hmono. rewrite Hcl.
      destruct (Hx (eq_trans (eq_sym Hpa) E0)) as [pre [x [Hpre Hlt]]].
      specialize (Hmono pre x Hpre).
      assert (Hlt' : (u32 (u32 c0 + u32 timeout) <? u32 t) = true)
        by (apply Z.ltb_lt; lia).
      rewrite Hlt'. reflexivity.
  - intros st event timeout k irs c0 cs c late cl Hi Hirq Hc Hlen HF Hlt Hmono.
    rewrite (hci_end_command_begin_receive_prefix event timeout c0 (cs ++ c :: late :: cl))
      by exact Hc.
    unfold await_reply. unfold bind at 1.
    rewrite (spin_until_timeout k _ _ _ irs cs c (late :: cl));
      [ | apply pending_available_after_end_command
        | rewrite irqs_after_end_command; exact Hirq
        | apply clock_after_end_command
        | exact Hlen | exact HF | exact Hlt
        | rewrite irqs_after_end_command, Hirq, length_app, repeat_length; lia ].
    unfold bind at 1, millis at 1. cbn [clock set_irqs set_clock].
    assert (Hlt' : (u32 (u32 c0 + u32 timeout) <? u32 late) = true)
      by (apply Z.ltb_lt; lia).
    rewrite Hlt'. unfold wifi_callback, log. eexists. split; [reflexivity |].
    split.
    + cbn [hci_pending_event_available set_trace set_clock set_irqs].
      apply pending_available_after_end_command.
    + cbn [trace set_trace set_clock set_irqs in_isr].
      rewrite in_isr_after_end_command, trace_after_end_command, Hi.
      rewrite !calls_app.
      destruct (negb (hci_pad st =? 0)); [rewrite calls_xfers |];
        cbn [calls flat_map snd fst app]; rewrite ?app_nil_r; reflexivity.
  - intros st event timeout k irs c0 cs c late cl b0 b1 b2 P sz rest
           Hi Hst Hirq Hc Hlen HF HP Hm.
    rewrite (hci_end_command_begin_receive_prefix event timeout c0 (cs ++ c :: late :: cl))
      by exact Hc.
    cbn [le16 app] in Hm.
    rewrite (await_reply_answered _ _ k irs cs c late cl b0 b1 b2 P
               (Z.land (Z.shiftr (u16 event) 0) 255)
               (Z.land (Z.shiftr (u16 event) 8) 255) sz rest);
      [ | rewrite in_isr_after_end_command; exact Hi
        | unfold after_end_command; destruct st; cbn [hci_pad];
          destruct (negb (_ =? 0)); exact Hst
        | apply pending_available_after_end_command
        | exact HP
        | rewrite le16_bytes_decode by (apply Z.mod_pos_bound; lia);
          unfold after_end_command; destruct st; cbn [hci_pad];
          destruct (negb (_ =? 0)); reflexivity
        | rewrite irqs_after_end_command; exact Hirq
        | apply clock_after_end_command
        | exact Hlen | exact HF | exact Hm ].
    eexists. split; [reflexivity |]. split; [reflexivity |].
    unfold after_reply_irq.
    cbn [trace set_clock set_in_isr set_hci_pending_event_available].
    rewrite trace_after_xfers.
    cbn [trace in_isr miso set_hci_payload_size set_trace set_in_isr set_irqs].
    rewrite !calls_app, calls_xfers, trace_after_end_command, !calls_app, Hi.
    destruct (negb (hci_pad st =? 0)); [rewrite calls_xfers |];
      cbn [calls flat_map snd fst app]; rewrite ?app_nil_r; reflexivity.
Qed.

(** ** Receiving data *)

Lemma skip_args_some : forall n st,
  Z.of_nat n <= hci_payload_size st ->
  skip_args n st =
  Some (tt, after_xfers (repeat 0 n)
              (set_hci_payload_size (hci_payload_size st - Z.of_nat n) st)).
Proof.
  induction n as [| n IH]; intros st Hn.
  - cbn [skip_args repeat]. unfold ret. rewrite after_xfers_nil.
    apply some_pair; [reflexivity |]. destruct st; gfields. f_equal. cbn. lia.
  - cbn [skip_args repeat]. unfold bind. rewrite hci_read_u8_some by lia.
    rewrite IH by (proj; lia). apply some_pair; [reflexivity |]. proj.
    rewrite after_xfers_twice. cbn [app]. f_equal. f_equal. lia.
Qed.

Lemma recv_copy_some : forall n st,
  Z.of_nat n <= hci_payload_size st ->
  recv_copy n st =
  Some (shifted_in n (miso st),
        after_xfers (repeat 0 n) (set_hci_payload_size (hci_payload_size st - Z.of_nat n) st)).
Proof.
  induction n as [| n IH]; intros st Hn.
  - cbn [recv_copy shifted_in repeat]. unfold ret. rewrite after_xfers_nil.
    apply some_pair; [reflexivity |]. destruct st; gfields. f_equal. cbn. lia.
  - cbn [recv_copy]. unfold bind at 1. rewrite hci_read_u8_some by lia.
    unfold bind at 1. rewrite IH by (proj; lia).
    unfold ret. cbn [shifted_in repeat]. apply some_pair.
    + destruct st; reflexivity.
    + proj. rewrite after_xfers_twice. cbn [app]. f_equal. f_equal. lia.
Qed.

Lemma shifted_in_app : forall n data rest,
  (n <= length data)%nat -> shifted_in n (data ++ rest) = map u8 (firstn n data).
Proof.
  induction n as [| n IH]; intros data rest Hn; [reflexivity |].
  destruct data as [| d ds]; cbn [length] in Hn; [lia |].
  cbn [shifted_in app hd tl firstn map]. rewrite IH by lia. reflexivity.
Qed.

Lemma to_signed_small : forall bits x,
  1 <= bits -> 0 <= x < 2 ^ (bits - 1) -> to_signed bits x = x.
Proof.
  intros bits x Hb Hx. unfold to_signed.
  assert (Hpow : 2 ^ bits = 2 * 2 ^ (bits - 1)).
  { replace bits with (1 + (bits - 1)) at 1 by lia. rewrite Z.pow_add_r by lia. reflexivity. }
  rewrite Z.mod_small by lia.
  destruct (Z.ltb_spec x (2 ^ (bits - 1))); [reflexivity | lia].
Qed.

(** The [k+1]-th poll of a busy-wait brings the interrupt that ends it. *)
Lemma spin_answered : forall (ready : state -> bool) k irs fuel st st',
  (forall l s, ready (set_irqs l s) = ready s) ->
  ready st = false ->
  irqs st = repeat false k ++ true :: irs ->
  interrupt (set_irqs irs st) = Some (tt, st') ->
  ready st' = true ->
  (k < fuel)%nat ->
  spin fuel ready st = Some (tt, st').
Proof.
  intros ready. induction k as [| k IH]; intros irs fuel st st' Hr Hn Hirq Hint Hy Hf;
    (destruct fuel as [| f]; [lia |]); cbn [spin]; rewrite Hn;
    unfold bind, poll_irq; rewrite Hirq; cbn [repeat app].
  - rewrite Hint. destruct f; cbn [spin]; rewrite Hy; reflexivity.
  - unfold ret. apply (IH irs);
      [ exact Hr
      | rewrite Hr; exact Hn
      | destruct st; reflexivity
      | replace (set_irqs irs (set_irqs (repeat false k ++ true :: irs) st))
          with (set_irqs irs st) by (destruct st; reflexivity);
        exact Hint
      | exact Hy
      | lia ].
Qed.

Lemma interrupt_data : forall st b0 b1 b2 P dtype plen args rest,
  in_isr st = false ->
  hci_state st = HCI_STATE_IDLE ->
  (length args < 256)%nat ->
  5 + Z.of_nat (length args) <= P < 65536 ->
  miso st = b0 :: b1 :: b2 :: P / 256 :: P mod 256 :: data_payload dtype plen args rest [] ->
  interrupt st = Some (tt, after_data_irq P (length args) st).
Proof.
  intros st b0 b1 b2 P dtype plen args rest Hi Hst Hargs HP Hm.
  destruct st as [wc wd ip da pa pe bs bc ab py pd hs mi ir pn ck ii tr].
  cbn [in_isr hci_state miso] in Hi, Hst, Hm. subst ii hs mi.
  unfold data_payload. cbn [app le16].
  unfold interrupt, hci_irq.
  unfold bind at 1, modify at 1. unfold bind at 1. unfold bind at 1, get at 1.
  cbn [hci_state set_in_isr].
  change (HCI_STATE_IDLE =? HCI_STATE_WAIT_ASSERT) with false. cbv beta iota.
  unfold bind at 1. erewrite hci_begin_receive_some by reflexivity.
  rewrite be16_decode by lia.
  unfold hci_dispatch. unfold bind at 1. rewrite hci_read_u8_some by (proj; lia).
  proj. cbn [hd skipn length].
  change (u8 HCI_TYPE_DATA =? HCI_TYPE_EVNT) with false.
  change (u8 HCI_TYPE_DATA =? HCI_TYPE_DATA) with true. cbv beta iota.
  unfold hci_dispatch_data.
  unfold bind at 1. rewrite hci_read_u8_some by (proj; lia).
  unfold bind at 1. rewrite hci_read_u8_some by (proj; lia).
  unfold bind at 1. rewrite hci_read_u16_le_some by (proj; lia).
  proj. cbn [hd tl skipn length].
  rewrite (u8_small (Z.of_nat (length args))) by lia. rewrite Nat2Z.id.
  unfold bind at 1. rewrite skip_args_some by (proj; lia).
  unfold modify. apply some_pair; [reflexivity |].
  unfold after_data_irq. proj.
  rewrite !after_xfers_set_payload. rewrite !after_xfers_app.
  gfields. cbn [app]. f_equal. lia.
Qed.

(** The reply to a command, up to the moment
    [hci_end_command_begin_receive] returns: the handler has read the
    header of the awaited event, the rest of the frame is for the thread. *)
Lemma end_command_answered :
  forall st event timeout k irs c0 cs c late cl x b0 b1 b2 P sz rest,
  in_isr st = false ->
  hci_state st = HCI_STATE_IDLE ->
  hci_pad st = 1 ->
  irqs st = repeat false k ++ true :: irs ->
  clock st = c0 :: cs ++ c :: late :: cl ->
  length cs = k ->
  Forall (fun t => u32 t <= u32 (u32 c0 + u32 timeout)) (cs ++ [c; late]) ->
  4 <= P < 65536 ->
  miso st = x :: b0 :: b1 :: b2 :: P / 256 :: P mod 256
            :: HCI_TYPE_EVNT :: le16 (u16 event) ++ sz :: rest ->
  exists st',
    hci_end_command_begin_receive event timeout st = Some (tt, st')
    /\ in_isr st' = false
    /\ hci_state st' = HCI_STATE_IDLE
    /\ hci_payload_size st' = P - 4
    /\ miso st' = rest
    /\ irqs st' = irs
    /\ clock st' = cl
    /\ pins st' = pins st
    /\ hci_data_available st' = 0.
Proof.
  intros st event timeout k irs c0 cs c late cl x b0 b1 b2 P sz rest
         Hi Hst Hpad Hirq Hc Hlen HF HP Hm.
  destruct st as [wc wd ip da pa pe bs bc ab py pd hs mi ir pn ck ii tr].
  cbn [in_isr hci_state hci_pad irqs clock miso] in Hi, Hst, Hpad, Hirq, Hc, Hm.
  subst ii hs pd ir ck mi k. cbn [le16 app].
  rewrite (hci_end_command_begin_receive_prefix event timeout c0
             (cs ++ c :: late :: cl)) by reflexivity.
  unfold after_end_command. cbn [hci_pad Z.eqb negb].
  erewrite (await_reply_answered _ _ (length cs) irs cs c late cl b0 b1 b2 P);
    [ | reflexivity | reflexivity | reflexivity | exact HP | | reflexivity | reflexivity
      | reflexivity | exact HF | reflexivity ].
  2: { cbn [hci_pending_event set_trace after_xfers set_miso set_clock
            set_hci_data_available set_hci_pending_event_available set_hci_pending_event].
       apply le16_bytes_decode. apply Z.mod_pos_bound. lia. }
  eexists. split; [reflexivity |]. repeat split.
Qed.

(** ** [recv] *)

Lemma skipn_rest : forall (a b : nat) (l rest : list Z),
  (a + b)%nat = length l -> skipn b (skipn a (l ++ rest)) = rest.
Proof.
  intros a b l rest H.
  rewrite skipn_app.
  assert (Ha : (a - length l = 0)%nat) by lia. rewrite Ha. cbn [skipn].
  rewrite skipn_app.
  rewrite skipn_all2 by (rewrite length_skipn; lia).
  rewrite length_skipn.
  assert (Hb : (b - (length l - a) = 0)%nat) by lia. rewrite Hb. reflexivity.
Qed.

Lemma ready_data_irqs : forall (l : list bool) (s : state),
  negb (hci_data_available (set_irqs l s) =? 0) = negb (hci_data_available s =? 0).
Proof. intros l s. destruct s; reflexivity. Qed.

(** The second half of [recv]: the wait for the data frame, the copy of
    [n] bytes and the end of the transaction. *)
Lemma recv_data_phase :
  forall st (n : nat) (v : Z) k3 irs j2 ps d0 d1 d2 dtype plen args data extra ms,
  in_isr st = false ->
  hci_state st = HCI_STATE_IDLE ->
  hci_data_available st = 0 ->
  irqs st = repeat false k3 ++ true :: irs ->
  pins st = repeat true j2 ++ false :: ps ->
  (length args < 256)%nat ->
  Z.of_nat (length (data_payload dtype plen args data extra)) < 65536 ->
  (n <= length data)%nat ->
  miso st = rx_frame d0 d1 d2 (data_payload dtype plen args data extra) ++ ms ->
  exists st',
    (hci_wait_data ;;
     stored <- recv_copy n ;;
     hci_end_receive ;;
     ret (v, stored)) st = Some ((v, map u8 (firstn n data)), st')
    /\ miso st' = ms
    /\ hci_payload_size st' = 0.
Proof.
  intros st n v k3 irs j2 ps d0 d1 d2 dtype plen args data extra ms
         Hi Hs Hd Hq Hn Hargs HP Hle Hm.
  assert (Hl2 : Z.of_nat (length (data_payload dtype plen args data extra)) =
                5 + Z.of_nat (length args) + Z.of_nat (length data)
                + Z.of_nat (length extra)).
  { unfold data_payload. cbn [app le16 length].
    rewrite ?length_app; cbn [length]; lia. }
  rewrite Hl2 in HP.
  destruct st as [wc wd ip da pa pe bs bc ab py pd hs mi ir pn ck ii tr].
  cbn [in_isr hci_state hci_data_available irqs pins miso] in Hi, Hs, Hd, Hq, Hn, Hm.
  subst ii hs da ir pn mi.
  unfold bind at 1.
  match goal with
  | |- context [hci_wait_data ?S] =>
      assert (Ew : hci_wait_data S =
                   Some (tt, after_data_irq (5 + Z.of_nat (length args)
                                             + Z.of_nat (length data)
                                             + Z.of_nat (length extra))
                               (length args) (set_irqs irs S)))
  end.
  { unfold hci_wait_data, busy_wait.
    apply (spin_answered _ k3 irs).
    - apply ready_data_irqs.
    - reflexivity.
    - reflexivity.
    - apply (interrupt_data _ d0 d1 d2 _ dtype plen args (data ++ extra ++ ms)).
      + reflexivity.
      + reflexivity.
      + exact Hargs.
      + lia.
      + proj. unfold rx_frame. rewrite Hl2. unfold data_payload.
        cbn [app le16]. rewrite <- !app_assoc, app_nil_r. reflexivity.
    - reflexivity.
    - cbn [irqs]. rewrite length_app, repeat_length. cbn [length]. lia. }
  rewrite Ew. clear Ew.
  unfold bind at 1. rewrite recv_copy_some by (proj; lia).
  unfold bind at 1.
  rewrite (hci_end_receive_some j2 ps) by (proj; (lia || reflexivity)).
  unfold ret. eexists. split; [| split].
  - apply some_pair; [| reflexivity]. f_equal. proj.
    unfold rx_frame, data_payload. cbn [app le16 length skipn].
    rewrite repeat_length, <- !app_assoc.
    rewrite skipn_app, skipn_all, Nat.sub_diag. cbn [app skipn].
    apply shifted_in_app. exact Hle.
  - proj. unfold rx_frame, data_payload. cbn [app le16 length skipn].
    rewrite !repeat_length, <- !app_assoc.
    rewrite skipn_app, skipn_all, Nat.sub_diag. cbn [app skipn].
    rewrite app_assoc. apply skipn_rest. rewrite length_app. lia.
  - reflexivity.
Qed.

(** [recv] when the CC3000 reports [L > 0] bytes and the data frame
    follows: the function waits for the frame, stores the first
    [min L size] bytes of the data in the buffer, reads the rest of the
    frame off and returns that number. *)
Theorem recv_copies_up_to_size :
  forall st sd size flags k1 k2 k3 irs c0 cs c late cl j1 j2 ps junk
         b0 b1 b2 sz status rsd L rflags more d0 d1 d2 dtype plen args data extra ms,
  in_isr st = false ->
  irqs st = repeat false k1 ++ true :: repeat false k2 ++ true
            :: repeat false k3 ++ true :: irs ->
  clock st = c0 :: cs ++ c :: late :: cl ->
  length cs = k2 ->
  Forall (fun t => u32 t <= u32 (u32 c0 + 5000)) (cs ++ [c; late]) ->
  pins st = repeat true j1 ++ false :: repeat true j2 ++ false :: ps ->
  length junk = 22%nat ->
  0 < L < 2147483648 ->
  Z.of_nat (length data) = L ->
  0 <= size < 2 ^ (INT_BITS - 1) ->
  (length args < 256)%nat ->
  Z.of_nat (length (recv_reply_payload sz status rsd L rflags more)) < 65536 ->
  Z.of_nat (length (data_payload dtype plen args data extra)) < 65536 ->
  miso st = junk
            ++ rx_frame b0 b1 b2 (recv_reply_payload sz status rsd L rflags more)
            ++ rx_frame d0 d1 d2 (data_payload dtype plen args data extra) ++ ms ->
  exists st',
    recv sd size flags st =
    Some ((Z.min L size, map u8 (firstn (Z.to_nat (Z.min L size)) data)), st')
    /\ miso st' = ms
    /\ hci_payload_size st' = 0.
Proof using int_bits.
  intros st sd size flags k1 k2 k3 irs c0 cs c late cl j1 j2 ps junk
         b0 b1 b2 sz status rsd L rflags more d0 d1 d2 dtype plen args data extra ms
         Hi Hirq Hc Hlen HF Hpins Hj HL Hdata Hsize Hargs HP1 HP2 Hm.
  assert (Hl1 : Z.of_nat (length (recv_reply_payload sz status rsd L rflags more)) =
                17 + Z.of_nat (length more)).
  { unfold recv_reply_payload. cbn [app le16 le32 length].
    rewrite ?length_app; cbn [length]; lia. }
  assert (Hl2 : Z.of_nat (length (data_payload dtype plen args data extra)) =
                5 + Z.of_nat (length args) + L + Z.of_nat (length extra)).
  { unfold data_payload. cbn [app le16 length].
    rewrite ?length_app; cbn [length]; lia. }
  rewrite Hl1 in HP1. rewrite Hl2 in HP2.
  do 22 (destruct junk as [| ? junk]; [discriminate |]).
  destruct junk; [| discriminate]. clear Hj.
  destruct st as [wc wd ip da pa pe bs bc ab py pd hs mi ir pn ck ii tr].
  cbn [in_isr irqs clock pins miso] in Hi, Hirq, Hc, Hpins, Hm. subst ii ir ck pn mi.
  unfold recv. unfold bind at 1.
  rewrite (hci_begin_command_some _ _ k1
             (repeat false k2 ++ true :: repeat false k3 ++ true :: irs)) by reflexivity.
  change (command_size 12) with 17 in *.
  unfold bind at 1.
  rewrite hci_write_u32_le_some by (proj; change (command_size 12) with 17; lia).
  proj. change (command_size 12) with 17.
  unfold bind at 1. rewrite hci_write_u32_le_some by (proj; lia). proj.
  unfold bind at 1. rewrite hci_write_u32_le_some by (proj; lia). proj.
  unfold bind at 1.
  match goal with
  | |- context [hci_end_command_begin_receive _ _ ?S] =>
      destruct (end_command_answered S HCI_CMND_RECV 5000 k2
                  (repeat false k3 ++ true :: irs) c0 cs c late cl
                  z20 b0 b1 b2 (17 + Z.of_nat (length more)) sz
                  (status :: le32 rsd ++ le32 L ++ le32 rflags ++ more
                   ++ rx_frame d0 d1 d2 (data_payload dtype plen args data extra) ++ ms))
        as [st4 [E4 [Hi4 [Hs4 [Hp4 [Hm4 [Hq4 [Hc4 [Hn4 Hd4]]]]]]]]]
  end; [reflexivity | reflexivity | reflexivity | reflexivity | reflexivity
        | exact Hlen | exact HF | lia | |].
  { proj. cbn [skipn length app]. unfold rx_frame at 1. rewrite Hl1.
    unfold recv_reply_payload. cbn [app le16 le32]. reflexivity. }
  rewrite E4. clear E4.
  cbn [pins after_xfers after_begin_command set_hci_payload_size set_hci_pad
       set_hci_state set_irqs set_trace set_miso] in Hn4.
  unfold hci_read_status. unfold bind at 1. unfold bind at 1.
  rewrite hci_read_u8_some by (rewrite Hp4; lia).
  unfold ret at 1. unfold bind at 1.
  rewrite hci_read_u32_le_some by (proj; rewrite Hp4; lia).
  unfold bind at 1.
  rewrite hci_read_u32_le_some by (proj; rewrite Hp4; lia).
  proj. rewrite Hm4. cbn [length skipn hd app le32].
  rewrite (le32_decode L) by lia.
  rewrite (to_signed_small 32 L) by (change (2 ^ (32 - 1)) with 2147483648; lia).
  assert (Hpos : (0 <? L) = true) by (apply Z.ltb_lt; lia).
  assert (Hn : (if size <? L then size else L) = Z.min L size)
    by (destruct (Z.ltb_spec size L); lia).
  rewrite Hn.
  rewrite (to_signed_small INT_BITS (Z.min L size)) by (unfold int_width in int_bits; lia).
  unfold bind at 1.
  rewrite hci_read_u32_le_some by (proj; rewrite Hp4; lia).
  unfold bind at 1.
  rewrite (hci_end_receive_some j1 (repeat true j2 ++ false :: ps))
    by (proj; rewrite ?Hp4, ?Hn4; (lia || reflexivity)).
  rewrite Hpos.
  apply (recv_data_phase _ _ _ k3 irs j2 ps d0 d1 d2 dtype plen args data extra ms).
  - proj. exact Hi4.
  - proj. exact Hs4.
  - proj. exact Hd4.
  - proj. exact Hq4.
  - reflexivity.
  - exact Hargs.
  - lia.
  - lia.
  - proj. rewrite Hm4, Hp4. cbn [length skipn app le32].
    replace (17 + Z.of_nat (length more) - 4 - 1 - 4 - 4 - 4) with (Z.of_nat (length more))
      by lia.
    rewrite Nat2Z.id, repeat_length.
    rewrite skipn_app, skipn_all, Nat.sub_diag. reflexivity.
Qed.

(** ** Frames and the interrupt handler *)

Lemma stays_in_frame_refl : forall st, stays_in_frame st st.
Proof. intros st rest H. exact H. Qed.

Lemma stays_in_frame_trans : forall a b c,
  stays_in_frame a b -> stays_in_frame b c -> stays_in_frame a c.
Proof. intros a b c Hab Hbc rest H. apply Hbc, Hab, H. Qed.

Lemma read_u8_stays_in_frame : keeps stays_in_frame hci_read_u8.
Proof.
  intros st a st' H rest [pre [Hm Hl]].
  destruct (Z.ltb_spec 0 (hci_payload_size st)) as [Hpos | Hz].
  - rewrite hci_read_u8_some in H by exact Hpos. injection H as _ <-.
    destruct pre as [| x pre]; [cbn [length] in Hl; lia |].
    exists pre. split.
    + proj. rewrite Hm. reflexivity.
    + proj. cbn [length] in Hl. lia.
  - unfold hci_read_u8 in H.
    destruct (Z.ltb_spec 0 (hci_payload_size st)); [lia |].
    injection H as _ <-. exists pre. split; assumption.
Qed.

Ltac frame_kept :=
  intros;
  match goal with
  | st : state |- stays_in_frame _ _ =>
      let rest := fresh "rest" in
      let H := fresh "H" in
      intros rest H; destruct st; exact H
  end.

Lemma unsolicited_event_stays_in_frame : forall ev,
  keeps stays_in_frame (unsolicited_event ev).
Proof.
  intro ev.
  apply keeps_unsolicited_event;
    first [apply stays_in_frame_refl | apply stays_in_frame_trans
          | apply read_u8_stays_in_frame | frame_kept].
Qed.

Lemma unsolicited_event_same_pins : forall ev, keeps (same pins) (unsolicited_event ev).
Proof. intro ev. by_same keeps_unsolicited_event. Qed.

Lemma ends_one : forall (A : Type) (e : A), exists l, [e] = l ++ [e].
Proof. intros A e. exists []. reflexivity. Qed.

Lemma ends_app : forall (A : Type) (x r : list A) (e : A),
  (exists l, r = l ++ [e]) -> exists l, x ++ r = l ++ [e].
Proof. intros A x r e [l H]. exists (x ++ l). rewrite H. apply app_assoc. Qed.

Lemma ends_cons : forall (A : Type) (y : A) (r : list A) (e : A),
  (exists l, r = l ++ [e]) -> exists l, y :: r = l ++ [e].
Proof. intros A y r e [l H]. exists (y :: l). rewrite H. reflexivity. Qed.

Lemma between : forall (A : Type) (pre r : list A) (a e : A),
  (exists l, r = l ++ [e]) -> exists l, pre ++ a :: r = pre ++ a :: l ++ [e].
Proof. intros A pre r a e [l H]. exists l. rewrite H. reflexivity. Qed.

(** Whatever unsolicited event arrives (a code the [switch] knows or not,
    with a payload longer or shorter than the handler expects), the
    interrupt handler calls the callback once, reads the frame to its end
    and releases chip select: the link is left at the first byte after the
    frame. *)
Theorem unsolicited_event_consumes_its_frame :
  forall st b0 b1 b2 e0 e1 sz body ms j ps,
  hci_state st <> HCI_STATE_WAIT_ASSERT ->
  Z.lor (u8 e0) (Z.shiftl (u8 e1) 8) <> hci_pending_event st ->
  Z.of_nat (length body) < 65532 ->
  miso st = rx_frame b0 b1 b2 ([HCI_TYPE_EVNT; e0; e1; sz] ++ body) ++ ms ->
  pins st = repeat true j ++ false :: ps ->
  exists arg st',
    interrupt st = Some (tt, st')
    /\ miso st' = ms
    /\ hci_payload_size st' = 0
    /\ pins st' = ps
    /\ in_isr st' = false
    /\ calls (trace st') =
       calls (trace st) ++ [(true, Z.lor (u8 e0) (Z.shiftl (u8 e1) 8), arg)]
    /\ exists l, trace st' = trace st ++ (true, CsAssert) :: l ++ [(true, CsRelease)].
Proof.
  intros st b0 b1 b2 e0 e1 sz body ms j ps Hst Hpend Hlen Hm Hpins.
  unfold rx_frame in Hm. cbn [app length] in Hm.
  destruct st as [wc wd ip da pa pe bs bc ab py pd hs mi ir pn ck ii tr].
  cbn [hci_state hci_pending_event miso pins] in Hst, Hpend, Hm, Hpins.
  subst mi pn.
  unfold interrupt, hci_irq. runl.
  destruct (Z.eqb_spec hs HCI_STATE_WAIT_ASSERT); [contradiction |].
  erewrite hci_begin_receive_some by (runl; reflexivity).
  rewrite be16_decode by lia.
  unfold hci_dispatch. runl.
  rewrite hci_read_u8_some by (runl; lia). runl.
  cbn [app hd tl skipn length].
  change (u8 HCI_TYPE_EVNT =? HCI_TYPE_EVNT) with true. cbv beta iota.
  unfold hci_dispatch_event. runl.
  rewrite hci_read_u16_le_some by (runl; lia). runl.
  rewrite hci_read_u8_some by (runl; lia). runl.
  cbn [app hd tl skipn length].
  destruct (Z.eqb_spec (Z.lor (u8 e0) (Z.shiftl (u8 e1) 8)) pe); [contradiction |].
  match goal with
  | |- context [unsolicited_event ?ev ?S] =>
      destruct (total_unsolicited_event ev S) as [arg [st3 E]];
      pose proof (unsolicited_event_stays_in_frame ev S arg st3 E ms) as Hf;
      pose proof (unsolicited_event_same_pins ev S arg st3 E) as Hpn;
      pose proof (unsolicited_event_adds ev S arg st3 E) as [Hii [l [Htr Hl]]]
  end.
  rewrite E. clear E.
  destruct Hf as [pre [Hm3 Hp3]].
  { exists body. split.
    - proj. cbn [length skipn]. reflexivity.
    - proj. lia. }
  unfold same in Hpn.
  revert Hpn Hii Htr. proj. intros Hpn Hii Htr.
  rewrite (hci_end_receive_some j ps) by (proj; (lia || exact Hpn)).
  exists arg. eexists. split; [reflexivity |].
  proj. rewrite Hm3, <- Hp3, Nat2Z.id, repeat_length.
  rewrite skipn_app, skipn_all, Nat.sub_diag. cbn [app skipn].
  split; [reflexivity |]. split; [reflexivity |]. split; [reflexivity |].
  split; [reflexivity |].
  rewrite Htr, Hii.
  split.
  - rewrite !calls_app, !calls_xfers.
    rewrite (calls_only_xfer l)
      by (eapply Forall_impl; [| exact Hl]; intros e [_ He]; exact He).
    cbn [calls flat_map snd fst app]. rewrite !app_nil_r. reflexivity.
  - rewrite <- !app_assoc. cbn [app]. apply between.
    repeat first [apply ends_one | apply ends_app | apply ends_cons].
Qed.

Lemma labels_differ_wlan :
  HCI_EVNT_WLAN_UNSOL_DISCONNECT h <> HCI_EVNT_WLAN_UNSOL_CONNECT h /\
  HCI_EVNT_WLAN_UNSOL_DHCP h <> HCI_EVNT_WLAN_UNSOL_CONNECT h /\
  HCI_EVNT_WLAN_UNSOL_DHCP h <> HCI_EVNT_WLAN_UNSOL_DISCONNECT h.
Proof using labels_distinct.
  pose proof labels_distinct as D. unfold case_labels in D.
  inversion D as [| a1 l1 N1 D1]; subst. inversion D1 as [| a2 l2 N2 D2]; subst.
  cbn [In] in N1, N2.
  repeat split; intro E;
    first [apply N1; clear - E; tauto | apply N2; clear - E; tauto].
Qed.

Lemma unsolicited_event_in_isr : forall ev st arg st3,
  unsolicited_event ev st = Some (arg, st3) -> in_isr st3 = in_isr st.
Proof.
  intros ev st arg st3 E. apply unsolicited_event_adds in E. destruct E as [H _]. exact H.
Qed.

(** The handler's way from the interrupt to the [switch] and from the
    [switch] to its return, for an event that is not the awaited one. *)
Lemma interrupt_unsolicited : forall st b0 b1 b2 ev sz body ms j ps arg st3,
  hci_state st <> HCI_STATE_WAIT_ASSERT ->
  is_u16 ev ->
  ev <> hci_pending_event st ->
  Z.of_nat (length body) < 65532 ->
  miso st = rx_frame b0 b1 b2 ([HCI_TYPE_EVNT] ++ le16 ev ++ [sz] ++ body) ++ ms ->
  pins st = repeat true j ++ false :: ps ->
  unsolicited_event ev (event_header_read (Z.of_nat (length body)) st) = Some (arg, st3) ->
  interrupt st = Some (tt, after_event_irq ev arg ps st3).
Proof.
  intros st b0 b1 b2 ev sz body ms j ps arg st3 Hst Hev Hpend Hlen Hm Hpins E.
  pose proof (unsolicited_event_same_pins _ _ _ _ E) as Hpn.
  pose proof (unsolicited_event_in_isr _ _ _ _ E) as Hii.
  pose proof (unsolicited_event_payload_nonneg _ _ _ _ E) as Hnn.
  unfold same in Hpn. unfold payload_nonneg in Hnn.
  revert E Hpn Hii Hnn. unfold event_header_read.
  unfold rx_frame in Hm. cbn [app length le16] in Hm.
  destruct st as [wc wd ip da pa pe bs bc ab py pd hs mi ir pn ck ii tr].
  cbn [hci_state hci_pending_event miso pins] in Hst, Hpend, Hm, Hpins.
  subst mi pn. proj. intros E Hpn Hii Hnn.
  unfold interrupt, hci_irq. runl.
  destruct (Z.eqb_spec hs HCI_STATE_WAIT_ASSERT); [contradiction |].
  erewrite hci_begin_receive_some by (runl; reflexivity).
  rewrite be16_decode by lia.
  unfold hci_dispatch. runl.
  rewrite hci_read_u8_some by (runl; lia). runl.
  cbn [app hd tl skipn length].
  change (u8 HCI_TYPE_EVNT =? HCI_TYPE_EVNT) with true. cbv beta iota.
  unfold hci_dispatch_event. runl.
  rewrite hci_read_u16_le_some by (runl; lia). runl.
  rewrite hci_read_u8_some by (runl; lia). runl.
  cbn [app hd tl skipn length].
  rewrite le16_bytes_decode by exact Hev.
  destruct (Z.eqb_spec ev pe); [contradiction |].
  match type of E with
  | unsolicited_event _ ?S0 = _ =>
      match goal with
      | |- context [unsolicited_event ev ?S] => replace S with S0
      end
  end.
  2: { gfields. cbn [xfers hd tl length skipn app]. f_equal; [lia |].
       rewrite <- !app_assoc. reflexivity. }
  rewrite E, Hii.
  rewrite (hci_end_receive_some j ps) by (proj; first [apply Hnn; lia | exact Hpn]).
  reflexivity.
Qed.

(** The DHCP event: the handler sets [wifi_dhcp], skips the status byte
    and stores the four address bytes that follow in [ip_addr] in reverse
    order (the first byte on the link goes to [ip_addr[3]]); the callback
    gets the event with the argument 0. *)
Theorem dhcp_event_stores_the_address :
  forall st b0 b1 b2 sz status a3 a2 a1 a0 more ms j ps,
  hci_state st <> HCI_STATE_WAIT_ASSERT ->
  is_u16 (HCI_EVNT_WLAN_UNSOL_DHCP h) ->
  hci_pending_event st <> HCI_EVNT_WLAN_UNSOL_DHCP h ->
  length (ip_addr st) = 4%nat ->
  Z.of_nat (length more) < 65000 ->
  miso st = rx_frame b0 b1 b2 ([HCI_TYPE_EVNT] ++ le16 (HCI_EVNT_WLAN_UNSOL_DHCP h)
                               ++ [sz] ++ [status; a3; a2; a1; a0] ++ more) ++ ms ->
  pins st = repeat true j ++ false :: ps ->
  exists st',
    interrupt st = Some (tt, st')
    /\ wifi_dhcp st' = 1
    /\ ip_addr st' = [u8 a0; u8 a1; u8 a2; u8 a3]
    /\ wifi_connected st' = wifi_connected st
    /\ calls (trace st') = calls (trace st) ++ [(true, HCI_EVNT_WLAN_UNSOL_DHCP h, 0)]
    /\ miso st' = ms
    /\ hci_payload_size st' = 0.
Proof using labels_distinct.
  intros st b0 b1 b2 sz status a3 a2 a1 a0 more ms j ps Hst Hev Hpend Hip Hlen Hm Hpins.
  destruct labels_differ_wlan as [_ [L1 L2]].
  assert (E : exists st3,
             unsolicited_event (HCI_EVNT_WLAN_UNSOL_DHCP h)
               (event_header_read
                  (Z.of_nat (length ([status; a3; a2; a1; a0] ++ more))) st) = Some (0, st3)
             /\ wifi_dhcp st3 = 1
             /\ ip_addr st3 = [u8 a0; u8 a1; u8 a2; u8 a3]
             /\ wifi_connected st3 = wifi_connected st
             /\ calls (trace st3) = calls (trace st)
             /\ miso st3 = more ++ ms
             /\ hci_payload_size st3 = Z.of_nat (length more)).
  { unfold rx_frame in Hm. cbn [app length le16] in Hm.
    destruct st as [wc wd ip da pa pe bs bc ab py pd hs mi ir pn ck ii tr].
    cbn [hci_state hci_pending_event miso pins ip_addr] in Hst, Hpend, Hm, Hpins, Hip.
    subst mi pn.
    destruct ip as [| i0 [| i1 [| i2 [| i3 [| ? ?]]]]]; try discriminate. clear Hip.
    unfold unsolicited_event, event_header_read.
    destruct (Z.eqb_spec (HCI_EVNT_WLAN_UNSOL_DHCP h) (HCI_EVNT_WLAN_UNSOL_CONNECT h));
      [contradiction |].
    destruct (Z.eqb_spec (HCI_EVNT_WLAN_UNSOL_DHCP h) (HCI_EVNT_WLAN_UNSOL_DISCONNECT h));
      [contradiction |].
    rewrite Z.eqb_refl. cbn [app length]. runl. gfields. cbn [length skipn hd tl].
    rewrite hci_read_u8_some by (runl; lia). runl. gfields. cbn [length skipn hd tl].
    rewrite hci_read_u8_some by (runl; lia). runl. gfields. cbn [length skipn hd tl].
    rewrite hci_read_u8_some by (runl; lia). runl. gfields. cbn [length skipn hd tl].
    rewrite hci_read_u8_some by (runl; lia). runl. gfields. cbn [length skipn hd tl].
    rewrite hci_read_u8_some by (runl; lia). runl. gfields. cbn [length skipn hd tl].
    cbn [store_at].
    eexists. split; [reflexivity |]. proj.
    split; [reflexivity |]. split; [reflexivity |]. split; [reflexivity |].
    split; [| split; [reflexivity | lia]].
    rewrite !calls_app. cbn [calls flat_map snd fst app].
    rewrite ?app_nil_r. reflexivity. }
  destruct E as [st3 [E [Hd [Hi [Hc [Hcl [Hm3 Hp3]]]]]]].
  exists (after_event_irq (HCI_EVNT_WLAN_UNSOL_DHCP h) 0 ps st3).
  split.
  - apply (interrupt_unsolicited st b0 b1 b2 _ sz ([status; a3; a2; a1; a0] ++ more) ms j);
      try assumption.
    + intro Heq. apply Hpend. symmetry. exact Heq.
    + cbn [app length]. lia.
  - unfold after_event_irq. proj.
    split; [exact Hd |]. split; [exact Hi |]. split; [exact Hc |].
    split; [| split; [| reflexivity]].
    + rewrite !calls_app, calls_xfers, Hcl. cbn [calls flat_map snd fst app].
      rewrite ?app_nil_r. reflexivity.
    + rewrite Hm3, Hp3, Nat2Z.id, repeat_length.
      rewrite skipn_app, skipn_all, Nat.sub_diag. reflexivity.
Qed.

Lemma after_event_irq_flags : forall ev arg ps body ms st3,
  miso st3 = body ++ ms ->
  hci_payload_size st3 = Z.of_nat (length body) ->
  wifi_connected (after_event_irq ev arg ps st3) = wifi_connected st3
  /\ wifi_dhcp (after_event_irq ev arg ps st3) = wifi_dhcp st3
  /\ ip_addr (after_event_irq ev arg ps st3) = ip_addr st3
  /\ calls (trace (after_event_irq ev arg ps st3)) = calls (trace st3) ++ [(true, ev, arg)]
  /\ miso (after_event_irq ev arg ps st3) = ms
  /\ hci_payload_size (after_event_irq ev arg ps st3) = 0.
Proof.
  intros ev arg ps body ms st3 Hm Hp. unfold after_event_irq. proj.
  split; [reflexivity |]. split; [reflexivity |]. split; [reflexivity |].
  split; [| split; [| reflexivity]].
  - rewrite !calls_app, calls_xfers. cbn [calls flat_map snd fst app].
    rewrite ?app_nil_r. reflexivity.
  - rewrite Hm, Hp, Nat2Z.id, repeat_length.
    rewrite skipn_app, skipn_all, Nat.sub_diag. reflexivity.
Qed.

Lemma event_header_read_fields : forall n st b0 b1 b2 p0 p1 t e0 e1 sz rest,
  miso st = b0 :: b1 :: b2 :: p0 :: p1 :: t :: e0 :: e1 :: sz :: rest ->
  miso (event_header_read n st) = rest
  /\ hci_payload_size (event_header_read n st) = n
  /\ wifi_connected (event_header_read n st) = wifi_connected st
  /\ wifi_dhcp (event_header_read n st) = wifi_dhcp st
  /\ calls (trace (event_header_read n st)) = calls (trace st).
Proof.
  intros n st b0 b1 b2 p0 p1 t e0 e1 sz rest Hm. unfold event_header_read. proj.
  rewrite Hm. cbn [length skipn].
  repeat split.
  rewrite !calls_app, calls_xfers. cbn [calls flat_map snd fst app].
  rewrite ?app_nil_r. reflexivity.
Qed.

(** The events that report the link: on "connected" the handler sets
    [wifi_connected] and leaves [wifi_dhcp] alone; on "disconnected" it
    clears both.  Either way the callback gets the event with argument 0
    and the frame is read to its end. *)
Theorem wlan_events_set_the_flags :
  forall st b0 b1 b2 sz body ms j ps,
  hci_state st <> HCI_STATE_WAIT_ASSERT ->
  Z.of_nat (length body) < 65532 ->
  pins st = repeat true j ++ false :: ps ->
  (is_u16 (HCI_EVNT_WLAN_UNSOL_CONNECT h) ->
   hci_pending_event st <> HCI_EVNT_WLAN_UNSOL_CONNECT h ->
   miso st = rx_frame b0 b1 b2 ([HCI_TYPE_EVNT] ++ le16 (HCI_EVNT_WLAN_UNSOL_CONNECT h)
                                ++ [sz] ++ body) ++ ms ->
   exists st',
     interrupt st = Some (tt, st')
     /\ wifi_connected st' = 1
     /\ wifi_dhcp st' = wifi_dhcp st
     /\ calls (trace st') = calls (trace st) ++ [(true, HCI_EVNT_WLAN_UNSOL_CONNECT h, 0)]
     /\ miso st' = ms
     /\ hci_payload_size st' = 0)
  /\
  (is_u16 (HCI_EVNT_WLAN_UNSOL_DISCONNECT h) ->
   hci_pending_event st <> HCI_EVNT_WLAN_UNSOL_DISCONNECT h ->
   miso st = rx_frame b0 b1 b2 ([HCI_TYPE_EVNT] ++ le16 (HCI_EVNT_WLAN_UNSOL_DISCONNECT h)
                                ++ [sz] ++ body) ++ ms ->
   exists st',
     interrupt st = Some (tt, st')
     /\ wifi_connected st' = 0
     /\ wifi_dhcp st' = 0
     /\ calls (trace st') = calls (trace st) ++ [(true, HCI_EVNT_WLAN_UNSOL_DISCONNECT h, 0)]
     /\ miso st' = ms
     /\ hci_payload_size st' = 0).
Proof using labels_distinct.
  intros st b0 b1 b2 sz body ms j ps Hst Hlen Hpins.
  destruct labels_differ_wlan as [L0 _].
  split.
  - intros Hev Hpend Hm.
    pose proof Hm as Hm'. unfold rx_frame in Hm'. cbn [app le16] in Hm'.
    destruct (event_header_read_fields (Z.of_nat (length body)) st _ _ _ _ _ _ _ _ _ _ Hm')
      as [F1 [F2 [F3 [F4 F5]]]].
    assert (E : unsolicited_event (HCI_EVNT_WLAN_UNSOL_CONNECT h)
                  (event_header_read (Z.of_nat (length body)) st) =
                Some (0, set_wifi_connected 1
                           (event_header_read (Z.of_nat (length body)) st))).
    { unfold unsolicited_event. rewrite Z.eqb_refl. reflexivity. }
    eexists. split.
    + eapply interrupt_unsolicited;
        [exact Hst | exact Hev | | exact Hlen | exact Hm | exact Hpins | exact E].
      intro Heq. apply Hpend. symmetry. exact Heq.
    + destruct (after_event_irq_flags (HCI_EVNT_WLAN_UNSOL_CONNECT h) 0 ps body ms
                  (set_wifi_connected 1 (event_header_read (Z.of_nat (length body)) st)))
        as [G1 [G2 [_ [G4 [G5 G6]]]]]; [proj; exact F1 | proj; exact F2 |].
      rewrite G1, G2, G4, G5, G6. proj. rewrite F4, F5. repeat split.
  - intros Hev Hpend Hm.
    pose proof Hm as Hm'. unfold rx_frame in Hm'. cbn [app le16] in Hm'.
    destruct (event_header_read_fields (Z.of_nat (length body)) st _ _ _ _ _ _ _ _ _ _ Hm')
      as [F1 [F2 [F3 [F4 F5]]]].
    assert (E : unsolicited_event (HCI_EVNT_WLAN_UNSOL_DISCONNECT h)
                  (event_header_read (Z.of_nat (length body)) st) =
                Some (0, set_wifi_dhcp 0
                           (set_wifi_connected 0
                              (event_header_read (Z.of_nat (length body)) st)))).
    { unfold unsolicited_event.
      destruct (Z.eqb_spec (HCI_EVNT_WLAN_UNSOL_DISCONNECT h)
                  (HCI_EVNT_WLAN_UNSOL_CONNECT h)); [contradiction |].
      rewrite Z.eqb_refl. reflexivity. }
    eexists. split.
    + eapply interrupt_unsolicited;
        [exact Hst | exact Hev | | exact Hlen | exact Hm | exact Hpins | exact E].
      intro Heq. apply Hpend. symmetry. exact Heq.
    + destruct (after_event_irq_flags (HCI_EVNT_WLAN_UNSOL_DISCONNECT h) 0 ps body ms
                  (set_wifi_dhcp 0
                     (set_wifi_connected 0
                        (event_header_read (Z.of_nat (length body)) st))))
        as [G1 [G2 [_ [G4 [G5 G6]]]]]; [proj; exact F1 | proj; exact F2 |].
      rewrite G1, G2, G4, G5, G6. proj. rewrite F5. repeat split.
Qed.

(** A frame whose type byte is neither "event" nor "data": the handler
    reads the frame header and the type byte and returns.  Chip select
    stays asserted, the rest of the frame stays on the link with the
    payload counter at its length, the IRQ pin is not waited for, and no
    flag of the driver changes. *)
Theorem unknown_frame_type_is_left_open :
  forall st b0 b1 b2 P t ms,
  hci_state st <> HCI_STATE_WAIT_ASSERT ->
  1 <= P < 65536 ->
  u8 t <> HCI_TYPE_EVNT ->
  u8 t <> HCI_TYPE_DATA ->
  miso st = b0 :: b1 :: b2 :: P / 256 :: P mod 256 :: t :: ms ->
  exists st',
    interrupt st = Some (tt, st')
    /\ trace st' =
       trace st ++ (true, CsAssert) :: xfers true [HCI_READ; 0; 0; 0; 0; 0] (miso st)
    /\ hci_payload_size st' = P - 1
    /\ miso st' = ms
    /\ pins st' = pins st
    /\ hci_data_available st' = hci_data_available st
    /\ hci_pending_event_available st' = hci_pending_event_available st
    /\ in_isr st' = false.
Proof.
  intros st b0 b1 b2 P t ms Hst HP Ht1 Ht2 Hm.
  destruct st as [wc wd ip da pa pe bs bc ab py pd hs mi ir pn ck ii tr].
  cbn [hci_state miso] in Hst, Hm. subst mi.
  unfold interrupt, hci_irq. runl.
  destruct (Z.eqb_spec hs HCI_STATE_WAIT_ASSERT); [contradiction |].
  erewrite hci_begin_receive_some by (runl; reflexivity).
  rewrite be16_decode by lia.
  unfold hci_dispatch. runl.
  rewrite hci_read_u8_some by (runl; lia). runl.
  cbn [app hd tl skipn length].
  destruct (Z.eqb_spec (u8 t) HCI_TYPE_EVNT); [contradiction |].
  destruct (Z.eqb_spec (u8 t) HCI_TYPE_DATA); [contradiction |].
  unfold ret. eexists. split; [reflexivity |].
  proj. cbn [xfers hd tl skipn length].
  rewrite <- !app_assoc. cbn [app]. repeat split.
Qed.

(** ** The byte codec *)

Lemma sent_app : forall a b, sent (a ++ b) = sent a ++ sent b.
Proof. intros a b. unfold sent. apply flat_map_app. Qed.

Lemma sent_xfers : forall isr outs ms, sent (xfers isr outs ms) = map u8 outs.
Proof.
  intros isr outs. induction outs as [| o os IH]; intro ms; [reflexivity |].
  cbn [xfers map]. unfold sent in *. cbn [flat_map snd app]. rewrite IH. reflexivity.
Qed.

Lemma land_byte_u8 : forall v k, 0 <= k -> u8 (Z.land (Z.shiftr v k) 0xff) = Z.land (Z.shiftr v k) 0xff.
Proof.
  intros v k Hk. apply u8_small. rewrite byte_of by exact Hk.
  apply Z.mod_pos_bound. lia.
Qed.

Lemma hci_write_u16_le_some : forall v st,
  2 <= hci_payload_size st ->
  hci_write_u16_le v st =
  Some (tt, after_xfers (le16 v) (set_hci_payload_size (hci_payload_size st - 2) st)).
Proof.
  intros v st Hp. unfold hci_write_u16_le.
  unfold bind at 1. rewrite hci_write_u8_some by lia.
  rewrite hci_write_u8_some by (runl; lia).
  apply some_pair; [reflexivity |]. runl.
  rewrite !after_xfers_twice. unfold le16. cbn [app].
  f_equal. f_equal. lia.
Qed.

(** What [hci_write_u32_le] and [hci_write_u16_le] put on the link,
    [hci_read_u32_le] and [hci_read_u16_le] read back as the same value:
    four (two) bytes, least significant first. *)
Theorem little_endian_round_trip :
  (forall v st_w st_r rest,
     4 <= hci_payload_size st_w ->
     4 <= hci_payload_size st_r ->
     exists st_w' bytes,
       hci_write_u32_le v st_w = Some (tt, st_w')
       /\ sent (trace st_w') = sent (trace st_w) ++ bytes
       /\ hci_payload_size st_w' = hci_payload_size st_w - 4
       /\ (miso st_r = bytes ++ rest ->
           exists st_r',
             hci_read_u32_le st_r = Some (u32 v, st_r')
             /\ miso st_r' = rest
             /\ hci_payload_size st_r' = hci_payload_size st_r - 4))
  /\
  (forall v st_w st_r rest,
     is_u16 v ->
     2 <= hci_payload_size st_w ->
     2 <= hci_payload_size st_r ->
     exists st_w' bytes,
       hci_write_u16_le v st_w = Some (tt, st_w')
       /\ sent (trace st_w') = sent (trace st_w) ++ bytes
       /\ hci_payload_size st_w' = hci_payload_size st_w - 2
       /\ (miso st_r = bytes ++ rest ->
           exists st_r',
             hci_read_u16_le st_r = Some (v, st_r')
             /\ miso st_r' = rest
             /\ hci_payload_size st_r' = hci_payload_size st_r - 2)).
Proof.
  split.
  - intros v st_w st_r rest Hw Hr.
    exists (after_xfers (le32 (u32 v)) (set_hci_payload_size (hci_payload_size st_w - 4) st_w)).
    exists (le32 (u32 v)).
    split; [apply hci_write_u32_le_some; exact Hw |].
    split; [| split].
    + rewrite trace_after_xfers, sent_app, sent_xfers. proj.
      unfold le32. cbn [map]. rewrite !land_byte_u8 by lia. reflexivity.
    + proj. reflexivity.
    + intro Hm. eexists. split; [| split].
      * rewrite hci_read_u32_le_some by exact Hr. apply some_pair; [| reflexivity].
        rewrite Hm. unfold le32. cbn [app skipn hd].
        apply le32_decode. apply Z.mod_pos_bound. lia.
      * proj. rewrite Hm. reflexivity.
      * proj. reflexivity.
  - intros v st_w st_r rest Hv Hw Hr.
    exists (after_xfers (le16 v) (set_hci_payload_size (hci_payload_size st_w - 2) st_w)).
    exists (le16 v).
    split; [apply hci_write_u16_le_some; exact Hw |].
    split; [| split].
    + rewrite trace_after_xfers, sent_app, sent_xfers. proj.
      unfold le16. cbn [map]. rewrite !land_byte_u8 by lia. reflexivity.
    + proj. reflexivity.
    + intro Hm. eexists. split; [| split].
      * rewrite hci_read_u16_le_some by exact Hr. apply some_pair; [| reflexivity].
        rewrite Hm. unfold le16. cbn [app tl hd].
        apply le16_decode. exact Hv.
      * proj. rewrite Hm. reflexivity.
      * proj. reflexivity.
Qed.




(** ** [send] *)


Lemma by_thread_xfers : forall outs ms,
  by_thread (xfers false outs ms) = map snd (xfers false outs ms).
Proof.
  induction outs as [| o os IH]; intro ms; [reflexivity |].
  cbn [xfers]. unfold by_thread in *. cbn [filter fst negb map snd]. rewrite IH. reflexivity.
Qed.


(** ** [recv] when the CC3000 reports no data *)

(** [recv]'s command, its reply and the end of the reply's transaction,
    for whatever follows ([K], given the length field of the reply). *)
Lemma recv_reply_phase :
  forall (A : Type) (K : Z -> M A) st sd size flags k1 k2 irs c0 cs c late cl j1 ps junk
         b0 b1 b2 sz status rsd L rflags more rest,
  in_isr st = false ->
  irqs st = repeat false k1 ++ true :: repeat false k2 ++ true :: irs ->
  clock st = c0 :: cs ++ c :: late :: cl ->
  length cs = k2 ->
  Forall (fun t => u32 t <= u32 (u32 c0 + 5000)) (cs ++ [c; late]) ->
  pins st = repeat true j1 ++ false :: ps ->
  length junk = 22%nat ->
  0 <= L < 4294967296 ->
  Z.of_nat (length (recv_reply_payload sz status rsd L rflags more)) < 65536 ->
  miso st = junk ++ rx_frame b0 b1 b2 (recv_reply_payload sz status rsd L rflags more)
            ++ rest ->
  exists st5,
    (hci_begin_command HCI_CMND_RECV 12 ;;
     hci_write_u32_le sd ;;
     hci_write_u32_le size ;;
     hci_write_u32_le flags ;;
     hci_end_command_begin_receive HCI_CMND_RECV 5000 ;;
     hci_read_status ;;
     return_sd <- hci_read_u32_le ;;
     len <- hci_read_u32_le ;;
     return_flags <- hci_read_u32_le ;;
     hci_end_receive ;;
     K len) st = K L st5
    /\ in_isr st5 = false
    /\ hci_state st5 = HCI_STATE_IDLE
    /\ hci_data_available st5 = 0
    /\ irqs st5 = irs
    /\ pins st5 = ps
    /\ miso st5 = rest
    /\ hci_payload_size st5 = 0.
Proof.
  intros A K st sd size flags k1 k2 irs c0 cs c late cl j1 ps junk
         b0 b1 b2 sz status rsd L rflags more rest
         Hi Hirq Hc Hlen HF Hpins Hj HL HP1 Hm.
  assert (Hl1 : Z.of_nat (length (recv_reply_payload sz status rsd L rflags more)) =
                17 + Z.of_nat (length more)).
  { unfold recv_reply_payload. cbn [app le16 le32 length].
    rewrite ?length_app; cbn [length]; lia. }
  rewrite Hl1 in HP1.
  do 22 (destruct junk as [| ? junk]; [discriminate |]).
  destruct junk; [| discriminate]. clear Hj.
  destruct st as [wc wd ip da pa pe bs bc ab py pd hs mi ir pn ck ii tr].
  cbn [in_isr irqs clock pins miso] in Hi, Hirq, Hc, Hpins, Hm. subst ii ir ck pn mi.
  unfold bind at 1.
  rewrite (hci_begin_command_some _ _ k1 (repeat false k2 ++ true :: irs)) by reflexivity.
  change (command_size 12) with 17 in *.
  unfold bind at 1.
  rewrite hci_write_u32_le_some by (proj; change (command_size 12) with 17; lia).
  proj. change (command_size 12) with 17.
  unfold bind at 1. rewrite hci_write_u32_le_some by (proj; lia). proj.
  unfold bind at 1. rewrite hci_write_u32_le_some by (proj; lia). proj.
  unfold bind at 1.
  match goal with
  | |- context [hci_end_command_begin_receive _ _ ?S] =>
      destruct (end_command_answered S HCI_CMND_RECV 5000 k2 irs c0 cs c late cl
                  z20 b0 b1 b2 (17 + Z.of_nat (length more)) sz
                  (status :: le32 rsd ++ le32 L ++ le32 rflags ++ more ++ rest))
        as [st4 [E4 [Hi4 [Hs4 [Hp4 [Hm4 [Hq4 [Hc4 [Hn4 Hd4]]]]]]]]]
  end; [reflexivity | reflexivity | reflexivity | reflexivity | reflexivity
        | exact Hlen | exact HF | lia | |].
  { proj. cbn [skipn length app]. unfold rx_frame at 1. rewrite Hl1.
    unfold recv_reply_payload. cbn [app le16 le32]. reflexivity. }
  rewrite E4. clear E4.
  cbn [pins after_xfers after_begin_command set_hci_payload_size set_hci_pad
       set_hci_state set_irqs set_trace set_miso] in Hn4.
  unfold hci_read_status. unfold bind at 1. unfold bind at 1.
  rewrite hci_read_u8_some by (rewrite Hp4; lia).
  unfold ret at 1. unfold bind at 1.
  rewrite hci_read_u32_le_some by (proj; rewrite Hp4; lia).
  unfold bind at 1.
  rewrite hci_read_u32_le_some by (proj; rewrite Hp4; lia).
  proj. rewrite Hm4. cbn [length skipn hd app le32].
  rewrite (le32_decode L) by lia.
  unfold bind at 1.
  rewrite hci_read_u32_le_some by (proj; rewrite Hp4; lia).
  unfold bind at 1.
  rewrite (hci_end_receive_some j1 ps) by (proj; rewrite ?Hp4, ?Hn4; (lia || reflexivity)).
  eexists. split; [reflexivity |]. proj.
  split; [exact Hi4 |]. split; [exact Hs4 |]. split; [exact Hd4 |]. split; [exact Hq4 |].
  split; [reflexivity |]. split; [| reflexivity].
  rewrite Hm4, Hp4. cbn [length skipn app le32].
  replace (17 + Z.of_nat (length more) - 4 - 1 - 4 - 4 - 4) with (Z.of_nat (length more))
    by lia.
  rewrite Nat2Z.id, repeat_length.
  rewrite skipn_app, skipn_all, Nat.sub_diag. reflexivity.
Qed.

(** [recv] when the CC3000 reports a length that is zero or, read as a
    signed 32-bit value, negative (an error code): the function returns
    that value through its [int] once the reply is read; it stores nothing
    in the buffer, does not wait for a data frame and takes no further
    interrupt. *)
Theorem recv_without_data :
  forall st sd size flags k1 k2 irs c0 cs c late cl j1 ps junk
         b0 b1 b2 sz status rsd L rflags more rest,
  in_isr st = false ->
  irqs st = repeat false k1 ++ true :: repeat false k2 ++ true :: irs ->
  clock st = c0 :: cs ++ c :: late :: cl ->
  length cs = k2 ->
  Forall (fun t => u32 t <= u32 (u32 c0 + 5000)) (cs ++ [c; late]) ->
  pins st = repeat true j1 ++ false :: ps ->
  length junk = 22%nat ->
  0 <= L < 4294967296 ->
  to_signed 32 L <= 0 ->
  Z.of_nat (length (recv_reply_payload sz status rsd L rflags more)) < 65536 ->
  miso st = junk ++ rx_frame b0 b1 b2 (recv_reply_payload sz status rsd L rflags more)
            ++ rest ->
  exists st',
    recv sd size flags st = Some ((to_signed INT_BITS (to_signed 32 L), []), st')
    /\ irqs st' = irs
    /\ pins st' = ps
    /\ miso st' = rest
    /\ hci_payload_size st' = 0
    /\ (L = 0 -> to_signed INT_BITS (to_signed 32 L) = 0).
Proof using int_bits.
  intros st sd size flags k1 k2 irs c0 cs c late cl j1 ps junk
         b0 b1 b2 sz status rsd L rflags more rest
         Hi Hirq Hc Hlen HF Hpins Hj HL Hneg HP1 Hm.
  destruct (recv_reply_phase _
              (fun len =>
                 if 0 <? to_signed 32 len then
                   hci_wait_data ;;
                   stored <- recv_copy
                               (Z.to_nat (if size <? to_signed 32 len then size
                                          else to_signed 32 len)) ;;
                   hci_end_receive ;;
                   ret (to_signed INT_BITS (if size <? to_signed 32 len then size
                                            else to_signed 32 len), stored)
                 else ret (to_signed INT_BITS (to_signed 32 len), []))
              st sd size flags k1 k2 irs c0 cs c late cl j1 ps junk
              b0 b1 b2 sz status rsd L rflags more rest
              Hi Hirq Hc Hlen HF Hpins Hj HL HP1 Hm)
    as [st5 [E [_ [_ [_ [Hq [Hn [Hm5 Hp5]]]]]]]].
  exists st5.
  split.
  - unfold recv. cbv zeta. rewrite E.
    destruct (Z.ltb_spec 0 (to_signed 32 L)); [lia | reflexivity].
  - split; [exact Hq |]. split; [exact Hn |]. split; [exact Hm5 |]. split; [exact Hp5 |].
    intros ->. change (to_signed 32 0) with 0.
    unfold int_width in int_bits.
    apply to_signed_small; [lia | split; [lia | apply Z.pow_pos_nonneg; lia]].
Qed.

(** ** A command and its reply, in general *)

(** [hci_end_command_begin_receive] when the awaited event comes with the
    [k+1]-th poll and the clock stays within the deadline: [padb] is what
    the CC3000 shifts out while the pad byte (if there is one) goes out.
    The handler has read the frame header and the event header; [P - 4]
    bytes of the frame are still to come. *)
Lemma end_command_exchange :
  forall st event timeout k irs c0 cs c late cl padb b0 b1 b2 P sz rest,
  in_isr st = false -> hci_state st = HCI_STATE_IDLE ->
  (hci_pad st = 0 /\ padb = [] \/ hci_pad st = 1 /\ length padb = 1%nat) ->
  irqs st = repeat false k ++ true :: irs ->
  clock st = c0 :: cs ++ c :: late :: cl -> length cs = k ->
  Forall (fun t => u32 t <= u32 (u32 c0 + u32 timeout)) (cs ++ [c; late]) ->
  4 <= P < 65536 ->
  miso st = padb ++ b0 :: b1 :: b2 :: P / 256 :: P mod 256
            :: HCI_TYPE_EVNT :: le16 (u16 event) ++ sz :: rest ->
  exists st',
    hci_end_command_begin_receive event timeout st = Some (tt, st')
    /\ in_isr st' = false /\ hci_state st' = HCI_STATE_IDLE
    /\ hci_payload_size st' = P - 4 /\ miso st' = rest /\ irqs st' = irs
    /\ clock st' = cl /\ pins st' = pins st /\ hci_data_available st' = 0
    /\ hci_buffer_count st' = hci_buffer_count st
    /\ hci_available_buffer_count st' = hci_available_buffer_count st
    /\ hci_buffer_size st' = hci_buffer_size st
    /\ by_thread (trace st') =
       by_thread (trace st) ++ map snd (xfers false (repeat 0 (length padb)) (miso st))
       ++ [CsRelease].
Proof.
  intros st event timeout k irs c0 cs c late cl padb b0 b1 b2 P sz rest
         Hi Hst Hpad Hirq Hc Hlen HF HP Hm.
  destruct st as [wc wd ip da pa pe bs bc ab py pd hs mi ir pn ck ii tr].
  cbn [in_isr hci_state hci_pad irqs clock miso] in Hi, Hst, Hpad, Hirq, Hc, Hm.
  subst ii hs ir ck mi k. cbn [le16 app].
  rewrite (hci_end_command_begin_receive_prefix event timeout c0
             (cs ++ c :: late :: cl)) by reflexivity.
  unfold after_end_command.
  destruct Hpad as [[Hp0 Hb] | [Hp1 Hb]].
  - subst pd padb. cbn [hci_pad Z.eqb negb app].
    erewrite (await_reply_answered _ _ (length cs) irs cs c late cl b0 b1 b2 P);
      [ | reflexivity | reflexivity | reflexivity | exact HP | | reflexivity | reflexivity
        | reflexivity | exact HF | reflexivity ].
    2: { cbn [hci_pending_event set_trace after_xfers set_miso set_clock
              set_hci_data_available set_hci_pending_event_available
              set_hci_pending_event].
         apply le16_bytes_decode. apply Z.mod_pos_bound. lia. }
    eexists. split; [reflexivity |]. proj. cbn [length repeat xfers map app].
    repeat split.
    rewrite !by_thread_app. cbn [xfers hd tl length skipn].
    unfold by_thread at 2 3 4. cbn [filter fst negb map snd app].
    rewrite ?app_nil_r. reflexivity.
  - subst pd. destruct padb as [| x [| ? ?]]; try discriminate. cbn [hci_pad Z.eqb negb app].
    erewrite (await_reply_answered _ _ (length cs) irs cs c late cl b0 b1 b2 P);
      [ | reflexivity | reflexivity | reflexivity | exact HP | | reflexivity | reflexivity
        | reflexivity | exact HF | reflexivity ].
    2: { cbn [hci_pending_event set_trace after_xfers set_miso set_clock
              set_hci_data_available set_hci_pending_event_available
              set_hci_pending_event].
         apply le16_bytes_decode. apply Z.mod_pos_bound. lia. }
    eexists. split; [reflexivity |]. proj. cbn [length repeat xfers map app hd tl snd].
    repeat split.
    rewrite !by_thread_app. cbn [xfers hd tl length skipn].
    unfold by_thread at 2 3 4 5. cbn [filter fst negb map snd app].
    rewrite ?app_nil_r, <- ?app_assoc. reflexivity.
Qed.

(** ** [accept] *)

Lemma skipn_exact : forall (l rest : list Z) (n : nat),
  n = length l -> skipn n (l ++ rest) = rest.
Proof.
  intros l rest n ->. rewrite skipn_app, skipn_all, Nat.sub_diag. reflexivity.
Qed.


(** ** [gethostbyname] *)

Lemma command_pad_flag_cases : forall n,
  0 <= n < 65536 ->
  (command_pad_flag n = 0 /\ command_pad n = 0%nat)
  \/ (command_pad_flag n = 1 /\ command_pad n = 1%nat).
Proof.
  intros n Hn. rewrite command_pad_flag_parity by exact Hn.
  destruct (command_pad_values n) as [E | E]; rewrite E; [left | right]; split; reflexivity.
Qed.

(** [gethostbyname] refuses a null name, a length of 0 and a length above
    [HOSTNAME_MAX_LENGTH] with [EFAIL], without touching the link or
    [*ip].  Otherwise the command carries the constant 8, the length and
    the name, and the call returns the first 32-bit field of the reply
    and stores the second at [ip]. *)
Theorem gethostbyname_guard_and_result :
  (forall hn st, gethostbyname None hn st = Some ((EFAIL h, None), st))
  /\ (forall name hn st,
        u16 hn = 0 \/ HOSTNAME_MAX_LENGTH < u16 hn ->
        gethostbyname (Some name) hn st = Some ((EFAIL h, None), st))
  /\ (forall st name hn k1 k2 irs c0 cs c late cl j ps junk padb
             b0 b1 b2 sz status rstatus rip more ms,
        0 < hn <= HOSTNAME_MAX_LENGTH ->
        hn <= 65000 ->
        in_isr st = false ->
        irqs st = repeat false k1 ++ true :: repeat false k2 ++ true :: irs ->
        clock st = c0 :: cs ++ c :: late :: cl ->
        length cs = k2 ->
        Forall (fun t => u32 t <= u32 (u32 c0 + 10000)) (cs ++ [c; late]) ->
        pins st = repeat true j ++ false :: ps ->
        Z.of_nat (length junk) = 17 + hn ->
        length padb = command_pad (8 + hn) ->
        0 <= rstatus < 4294967296 ->
        0 <= rip < 4294967296 ->
        Z.of_nat (length (gethostbyname_reply_payload sz status rstatus rip more)) < 65536 ->
        miso st = junk ++ padb
                  ++ rx_frame b0 b1 b2 (gethostbyname_reply_payload sz status rstatus rip more)
                  ++ ms ->
        exists st' rest,
          gethostbyname (Some name) hn st =
          Some ((to_signed INT_BITS rstatus, Some rip), st')
          /\ by_thread (trace st') =
             by_thread (trace st) ++ CsAssert
             :: map snd (xfers false (command_header HCI_CMND_GETHOSTNAME (8 + hn)
                                      ++ le32 8 ++ le32 hn ++ mem_bytes (Z.to_nat hn) name
                                      ++ repeat 0 (command_pad (8 + hn))) (miso st))
             ++ CsRelease :: rest
          /\ miso st' = ms
          /\ hci_payload_size st' = 0).
Proof.
  split; [| split].
  - intros hn st. reflexivity.
  - intros name hn st Hbad. unfold gethostbyname. cbv zeta.
    destruct Hbad as [Hz | Hbig].
    + rewrite Hz. reflexivity.
    + apply Z.ltb_lt in Hbig. rewrite Hbig, orb_true_r. reflexivity.
  - intros st name hn k1 k2 irs c0 cs c late cl j ps junk padb
           b0 b1 b2 sz status rstatus rip more ms
           Hhn Hmax Hi Hirq Hc Hlen HF Hpins Hj Hpadb Hrs Hrip HP Hm.
    assert (Hl : Z.of_nat (length (gethostbyname_reply_payload sz status rstatus rip more)) =
                 13 + Z.of_nat (length more)).
    { unfold gethostbyname_reply_payload. cbn [app le16 le32 length].
      rewrite ?length_app; cbn [length]; lia. }
    rewrite Hl in HP.
    unfold gethostbyname. cbv zeta.
    assert (Hu : u16 hn = hn) by (unfold u16; apply Z.mod_small; lia).
    rewrite Hu.
    destruct (Z.eqb_spec hn 0); [lia |].
    destruct (Z.ltb_spec HOSTNAME_MAX_LENGTH hn); [lia |]. cbn [orb].
    pose proof (command_size_sum (8 + hn) ltac:(lia)) as Hsz.
    unfold bind at 1.
    rewrite (hci_begin_command_some _ _ k1 (repeat false k2 ++ true :: irs))
      by assumption.
    unfold after_begin_command.
    unfold bind at 1.
    rewrite hci_write_u32_le_some by (proj; lia).
    rewrite after_xfers_twice. proj.
    unfold bind at 1.
    rewrite hci_write_u32_le_some by (proj; lia).
    rewrite after_xfers_twice. proj.
    unfold bind at 1.
    rewrite hci_write_array_some by (proj; lia).
    rewrite after_xfers_twice. proj.
    unfold bind at 1.
    match goal with
    | |- context [hci_end_command_begin_receive _ _ ?S] =>
        edestruct (end_command_exchange S HCI_CMND_GETHOSTNAME 10000 k2 irs c0 cs c late cl
                     padb b0 b1 b2 (13 + Z.of_nat (length more)) sz)
          as [st4 [E4 [Hi4 [Hs4 [Hp4 [Hm4 [Hq4 [Hc4 [Hn4 [_ [_ [_ [_ Hbt]]]]]]]]]]]]]
    end.
    { proj. exact Hi. }
    { reflexivity. }
    { proj. destruct (command_pad_flag_cases (8 + hn) ltac:(lia)) as [[F C] | [F C]].
      + left. split; [exact F |]. rewrite C in Hpadb. destruct padb; [reflexivity | discriminate].
      + right. split; [exact F |]. rewrite Hpadb, C. reflexivity. }
    { reflexivity. }
    { proj. exact Hc. }
    { exact Hlen. }
    { exact HF. }
    { lia. }
    { proj. rewrite Hm. rewrite skipn_exact.
      + unfold rx_frame. rewrite Hl. unfold gethostbyname_reply_payload.
        cbn [app le16 le32]. reflexivity.
      + rewrite !length_app, mem_bytes_length. unfold command_header, le32.
        cbn [length]. lia. }
    rewrite E4. clear E4.
    revert Hn4 Hbt. proj. rewrite Hi, Hpins. intros Hn4 Hbt.
    assert (Hframe :
              by_thread (trace st4) =
              by_thread (trace st) ++ CsAssert
              :: map snd (xfers false (command_header HCI_CMND_GETHOSTNAME (8 + hn)
                                       ++ le32 8 ++ le32 hn ++ mem_bytes (Z.to_nat hn) name
                                       ++ repeat 0 (command_pad (8 + hn))) (miso st))
              ++ [CsRelease]).
    { rewrite Hbt, Hpadb. change (u32 8) with 8. unfold u32. rewrite (Z.mod_small hn) by lia.
      rewrite !by_thread_app, by_thread_xfers.
      change (by_thread [(false, CsAssert)]) with [CsAssert].
      replace (command_header HCI_CMND_GETHOSTNAME (8 + hn)
               ++ le32 8 ++ le32 hn ++ mem_bytes (Z.to_nat hn) name
               ++ repeat 0 (command_pad (8 + hn)))
        with ((((command_header HCI_CMND_GETHOSTNAME (8 + hn) ++ le32 8) ++ le32 hn)
               ++ mem_bytes (Z.to_nat hn) name) ++ repeat 0 (command_pad (8 + hn)))
        by (rewrite <- !app_assoc; reflexivity).
      rewrite (xfers_app false _ (repeat 0 (command_pad (8 + hn)))), map_app.
      rewrite <- !app_assoc. reflexivity. }
    clear Hbt.
    unfold hci_read_status. unfold bind at 1. unfold bind at 1.
    rewrite hci_read_u8_some by (rewrite Hp4; lia).
    unfold ret at 1. unfold bind at 1.
    rewrite hci_read_u32_le_some by (proj; rewrite Hp4; lia).
    unfold bind at 1.
    rewrite hci_read_u32_le_some by (proj; rewrite Hp4; lia).
    unfold bind at 1.
    rewrite (hci_end_receive_some j ps) by (proj; rewrite ?Hp4, ?Hn4; (lia || reflexivity)).
    unfold ret. eexists. eexists. split.
    { apply some_pair; [| reflexivity].
      proj. rewrite Hm4. cbn [length skipn hd app le32].
      rewrite (le32_decode rstatus) by lia. rewrite (le32_decode rip) by lia. reflexivity. }
    split; [| split; [| reflexivity]].
    + proj. rewrite Hi4, !by_thread_app, Hframe, <- !app_assoc. cbn [app].
      rewrite <- !app_assoc. cbn [app]. reflexivity.
    + proj. rewrite Hm4, Hp4. cbn [length skipn app le32].
      rewrite repeat_length. apply skipn_exact. lia.
Qed.

(** ** [netapp_timeout_values] *)

Lemma MIN_TIMER_SET_cases : forall t,
  0 <= t ->
  (t = 0 /\ MIN_TIMER_SET t = 0)
  \/ (0 < t < 20 /\ MIN_TIMER_SET t = 20)
  \/ (20 <= t /\ MIN_TIMER_SET t = t).
Proof.
  intros t Ht. unfold MIN_TIMER_SET, MIN_TIMER_VAL_SECONDS.
  destruct (Z.eqb_spec 0 t); destruct (Z.ltb_spec t 20); cbn [negb andb]; lia.
Qed.

Lemma MIN_TIMER_SET_range : forall t,
  0 <= t -> MIN_TIMER_SET t = 0 \/ 20 <= MIN_TIMER_SET t.
Proof.
  intros t Ht. destruct (MIN_TIMER_SET_cases t Ht) as [[? ?] | [[? ?] | [? ?]]]; lia.
Qed.

Lemma MIN_TIMER_SET_idem : forall t,
  0 <= t -> MIN_TIMER_SET (MIN_TIMER_SET t) = MIN_TIMER_SET t.
Proof.
  intros t Ht. destruct (MIN_TIMER_SET_cases t Ht) as [[? E] | [[? E] | [? E]]]; rewrite E.
  - reflexivity.
  - reflexivity.
  - exact E.
Qed.

(** [netapp_timeout_values] raises every timer that is neither 0 nor at
    least 20 seconds to 20, both in the caller's variables and in the
    command: the frame carries the four adjusted values (each 0 or at
    least 20), 32 bits little-endian each, and a second adjustment changes
    nothing.  The call returns the 32-bit result of the reply. *)
Theorem netapp_timeout_values_raises_short_timers :
  forall st dhcp arp keepalive inactivity k1 k2 irs c0 cs c late cl j ps
         junk b0 b1 b2 sz status v more ms,
  0 <= dhcp -> 0 <= arp -> 0 <= keepalive -> 0 <= inactivity ->
  in_isr st = false ->
  irqs st = repeat false k1 ++ true :: repeat false k2 ++ true :: irs ->
  clock st = c0 :: cs ++ c :: late :: cl ->
  length cs = k2 ->
  Forall (fun t => u32 t <= u32 (u32 c0 + 1000)) (cs ++ [c; late]) ->
  pins st = repeat true j ++ false :: ps ->
  0 <= v < 4294967296 ->
  length junk = 26%nat ->
  Z.of_nat (length (reply_payload HCI_NETAPP_SET_TIMERS sz status v more)) < 65536 ->
  miso st = junk ++ rx_frame b0 b1 b2 (reply_payload HCI_NETAPP_SET_TIMERS sz status v more)
            ++ ms ->
  exists st' rest d a ka ia,
    netapp_timeout_values dhcp arp keepalive inactivity st =
    Some ((to_signed 32 v, (d, a, ka, ia)), st')
    /\ d = MIN_TIMER_SET dhcp /\ a = MIN_TIMER_SET arp
    /\ ka = MIN_TIMER_SET keepalive /\ ia = MIN_TIMER_SET inactivity
    /\ Forall (fun t => t = 0 \/ 20 <= t) [d; a; ka; ia]
    /\ Forall (fun t => MIN_TIMER_SET t = t) [d; a; ka; ia]
    /\ (dhcp = 0 \/ 20 <= dhcp -> d = dhcp)
    /\ trace st' =
       trace st ++ (false, CsAssert)
       :: xfers false ([1; 0; 21; 0; 0; 1; 0x09; 0x20; 16]
                       ++ le32 (u32 d) ++ le32 (u32 a) ++ le32 (u32 ka) ++ le32 (u32 ia)
                       ++ [0]) junk
       ++ (false, CsRelease) :: rest
    /\ miso st' = ms
    /\ hci_payload_size st' = 0.
Proof.
  intros st dhcp arp keepalive inactivity k1 k2 irs c0 cs c late cl j ps
         junk b0 b1 b2 sz status v more ms
         Hd Ha Hk Hia Hi Hirq Hc Hlen HF Hpins Hv Hj HP Hm.
  do 26 (destruct junk as [| ? junk]; [discriminate |]).
  destruct junk; [| discriminate]. clear Hj.
  destruct st as [wc wd ip da pa pe bs bc ab py pd hs mi ir pn ck ii tr].
  cbn [in_isr irqs clock pins miso] in Hi, Hirq, Hc, Hpins, Hm. subst ii ir ck pn mi.
  unfold netapp_timeout_values. cbv zeta. unfold bind at 1.
  rewrite (hci_begin_command_some _ _ k1 (repeat false k2 ++ true :: irs)) by reflexivity.
  change (command_size 16) with 21 in *.
  unfold bind at 1.
  rewrite hci_write_u32_le_some by (proj; change (command_size 16) with 21; lia).
  proj. change (command_size 16) with 21.
  unfold bind at 1. rewrite hci_write_u32_le_some by (proj; lia). proj.
  unfold bind at 1. rewrite hci_write_u32_le_some by (proj; lia). proj.
  unfold bind at 1. rewrite hci_write_u32_le_some by (proj; lia). proj.
  unfold bind at 1.
  match goal with
  | |- context [hci_end_command_receive_u32_result _ _ ?S] =>
      destruct (end_command_receive_u32_answered S HCI_NETAPP_SET_TIMERS 1000 k2 irs
                  c0 cs c late cl j ps z24 b0 b1 b2 sz status v more ms)
        as [st' [E [[rest Htr] [Hms [Hp _]]]]]
  end; try reflexivity; try assumption.
  rewrite E. unfold ret.
  exists st', rest, (MIN_TIMER_SET dhcp), (MIN_TIMER_SET arp),
    (MIN_TIMER_SET keepalive), (MIN_TIMER_SET inactivity).
  split; [reflexivity |].
  split; [reflexivity |]. split; [reflexivity |]. split; [reflexivity |].
  split; [reflexivity |].
  split.
  { repeat (apply Forall_cons; [apply MIN_TIMER_SET_range; assumption |]). apply Forall_nil. }
  split.
  { repeat (apply Forall_cons; [apply MIN_TIMER_SET_idem; assumption |]). apply Forall_nil. }
  split.
  { intro Hok. destruct (MIN_TIMER_SET_cases dhcp Hd) as [[? ?] | [[? ?] | [? ?]]]; lia. }
  split; [| split; assumption].
  rewrite Htr. proj. cbn [xfers hd tl skipn length app le32].
  rewrite <- !app_assoc. reflexivity.
Qed.

(** ** [select] *)

(** [select]: the command carries [nfds], four times the constant 0x14,
    a flag for the timeout, the three sets (0 for a null pointer) and the
    timeout (0 and 0 for a null pointer).  A timeout below 5000
    microseconds (with 0 seconds) is raised to 5000 in the command and in
    the caller's [timeval]; any other is left alone.  The call returns the
    first 32-bit field of the reply and stores the next three through the
    set pointers that are not null. *)
Theorem select_raises_short_timeouts :
  forall st nfds rd wr ex timeout k1 k2 irs c0 cs c late cl j ps junk x
         b0 b1 b2 sz status rstatus rdfd wrfd exfd more ms,
  in_isr st = false ->
  irqs st = repeat false k1 ++ true :: repeat false k2 ++ true :: irs ->
  clock st = c0 :: cs ++ c :: late :: cl ->
  length cs = k2 ->
  Forall (fun t => u32 t <= u32 (u32 c0 + 10000)) (cs ++ [c; late]) ->
  pins st = repeat true j ++ false :: ps ->
  length junk = 53%nat ->
  0 <= rstatus < 4294967296 -> 0 <= rdfd < 4294967296 ->
  0 <= wrfd < 4294967296 -> 0 <= exfd < 4294967296 ->
  Z.of_nat (length (select_reply_payload sz status rstatus rdfd wrfd exfd more)) < 65536 ->
  miso st = junk ++ [x]
            ++ rx_frame b0 b1 b2 (select_reply_payload sz status rstatus rdfd wrfd exfd more)
            ++ ms ->
  exists st' rest tflag tsec tusec timeout',
    select nfds rd wr ex timeout st =
    Some ((to_signed INT_BITS (to_signed 32 rstatus),
           (stored_through rd rdfd, stored_through wr wrfd, stored_through ex exfd),
           timeout'), st')
    /\ (timeout = None -> tflag = 0 /\ tsec = 0 /\ tusec = 0 /\ timeout' = None)
    /\ (forall s u, timeout = Some (s, u) ->
        tflag = 1 /\ tsec = s /\ timeout' = Some (s, tusec)
        /\ (s = 0 -> u < 5000 -> tusec = 5000)
        /\ (s <> 0 \/ 5000 <= u -> tusec = u))
    /\ by_thread (trace st') =
       by_thread (trace st) ++ CsAssert
       :: map snd (xfers false
                     (command_header HCI_CMND_SELECT 44
                      ++ le32 (u32 nfds) ++ le32 0x14 ++ le32 0x14 ++ le32 0x14 ++ le32 0x14
                      ++ le32 tflag
                      ++ le32 (u32 (set_or_zero rd)) ++ le32 (u32 (set_or_zero wr))
                      ++ le32 (u32 (set_or_zero ex))
                      ++ le32 (u32 tsec) ++ le32 (u32 tusec) ++ [0]) (miso st))
       ++ CsRelease :: rest
    /\ miso st' = ms
    /\ hci_payload_size st' = 0.
Proof.
  intros st nfds rd wr ex timeout k1 k2 irs c0 cs c late cl j ps junk x
         b0 b1 b2 sz status rstatus rdfd wrfd exfd more ms
         Hi Hirq Hc Hlen HF Hpins Hj Hrs Hrd Hwr Hex HP Hm.
  assert (Hl : Z.of_nat (length (select_reply_payload sz status rstatus rdfd wrfd exfd more)) =
               21 + Z.of_nat (length more)).
  { unfold select_reply_payload. cbn [app le16 le32 length].
    rewrite ?length_app; cbn [length]; lia. }
  rewrite Hl in HP.
  (* the timeout as it goes out *)
  pose (tflag := match timeout with Some _ => 1 | None => 0 end).
  pose (timeout' := match timeout with
                    | Some (s, u) => Some (s, if (s =? 0) && (u <? 5000) then 5000 else u)
                    | None => None
                    end).
  pose (tsec := match timeout' with Some (s, _) => s | None => 0 end).
  pose (tusec := match timeout' with Some (_, u) => u | None => 0 end).
  assert (Ew : forall s0,
             4 + 4 <= hci_payload_size s0 ->
             match timeout' with
             | Some (tv_sec, tv_usec) => hci_write_u32_le tv_sec ;; hci_write_u32_le tv_usec
             | None => hci_write_u32_le 0 ;; hci_write_u32_le 0
             end s0 =
             Some (tt, after_xfers (le32 (u32 tsec) ++ le32 (u32 tusec))
                         (set_hci_payload_size (hci_payload_size s0 - 4 - 4) s0))).
  { intros s0 Hp0. subst tsec tusec.
    destruct timeout' as [[s u] |]; unfold bind;
      rewrite hci_write_u32_le_some by lia;
      rewrite hci_write_u32_le_some by (proj; lia);
      rewrite after_xfers_twice; proj; reflexivity. }
  unfold select. cbv zeta. fold timeout'.
  unfold bind at 1.
  rewrite (hci_begin_command_some _ _ k1 (repeat false k2 ++ true :: irs)) by assumption.
  unfold after_begin_command. change (command_size 44) with 49.
  change (command_pad_flag 44) with 1.
  do 9 (unfold bind at 1; rewrite hci_write_u32_le_some by (proj; lia);
        rewrite after_xfers_twice; proj).
  unfold bind at 1. rewrite Ew by (proj; lia). rewrite after_xfers_twice. proj.
  unfold bind at 1.
  match goal with
  | |- context [hci_end_command_begin_receive _ _ ?S] =>
      edestruct (end_command_exchange S HCI_CMND_SELECT 10000 k2 irs c0 cs c late cl
                   [x] b0 b1 b2 (21 + Z.of_nat (length more)) sz)
        as [st4 [E4 [Hi4 [Hs4 [Hp4 [Hm4 [Hq4 [Hc4 [Hn4 [_ [_ [_ [_ Hbt]]]]]]]]]]]]]
  end.
  { proj. exact Hi. }
  { reflexivity. }
  { proj. right. split; reflexivity. }
  { reflexivity. }
  { proj. exact Hc. }
  { exact Hlen. }
  { exact HF. }
  { lia. }
  { proj. rewrite Hm. rewrite skipn_exact.
    + unfold rx_frame. rewrite Hl. unfold select_reply_payload.
      cbn [app le16 le32]. reflexivity.
    + rewrite !length_app. unfold command_header, le32.
      cbn [length]. lia. }
  rewrite E4. clear E4.
  revert Hn4 Hbt. proj. rewrite Hi, Hpins. intros Hn4 Hbt.
  unfold hci_read_status. unfold bind at 1. unfold bind at 1.
  rewrite hci_read_u8_some by (rewrite Hp4; lia).
  unfold ret at 1.
  do 4 (unfold bind at 1; rewrite hci_read_u32_le_some by (proj; rewrite Hp4; lia)).
  unfold bind at 1.
  rewrite (hci_end_receive_some j ps) by (proj; rewrite ?Hp4, ?Hn4; (lia || reflexivity)).
  unfold ret. eexists. eexists. exists tflag, tsec, tusec, timeout'. split.
  { apply some_pair; [| reflexivity].
    proj. rewrite Hm4. cbn [length skipn hd app le32].
    rewrite (le32_decode rstatus) by lia. rewrite (le32_decode rdfd) by lia.
    rewrite (le32_decode wrfd) by lia. rewrite (le32_decode exfd) by lia.
    reflexivity. }
  split; [| split; [| split; [| split; [| reflexivity]]]].
  - intros ->. repeat split; reflexivity.
  - intros s u ->. subst tflag tsec tusec timeout'. cbn beta iota.
    split; [reflexivity |]. split; [reflexivity |]. split; [reflexivity |].
    split.
    + intros -> Hu. destruct (Z.ltb_spec u 5000); [reflexivity | lia].
    + intros [Hs | Hu].
      * destruct (Z.eqb_spec s 0); [contradiction | reflexivity].
      * destruct (Z.ltb_spec u 5000); [lia |]. rewrite andb_false_r. reflexivity.
  - proj. rewrite Hi4, !by_thread_app, Hbt.
    rewrite !by_thread_app, by_thread_xfers.
    change (by_thread [(false, CsAssert)]) with [CsAssert].
    fold tflag. fold (set_or_zero rd). fold (set_or_zero wr). fold (set_or_zero ex).
    change (u32 20) with 20.
    replace (command_header HCI_CMND_SELECT 44
             ++ le32 (u32 nfds) ++ le32 20 ++ le32 20 ++ le32 20 ++ le32 20
             ++ le32 tflag
             ++ le32 (u32 (set_or_zero rd)) ++ le32 (u32 (set_or_zero wr))
             ++ le32 (u32 (set_or_zero ex))
             ++ le32 (u32 tsec) ++ le32 (u32 tusec) ++ [0])
      with (((((((((((command_header HCI_CMND_SELECT 44 ++ le32 (u32 nfds)) ++ le32 20)
                     ++ le32 20) ++ le32 20) ++ le32 20) ++ le32 (u32 tflag))
                 ++ le32 (u32 (set_or_zero rd))) ++ le32 (u32 (set_or_zero wr)))
               ++ le32 (u32 (set_or_zero ex))) ++ le32 (u32 tsec) ++ le32 (u32 tusec))
            ++ [0]).
    2:{ replace (u32 tflag) with tflag by (subst tflag; destruct timeout; reflexivity).
        rewrite <- !app_assoc. reflexivity. }
    rewrite (xfers_app false _ [0]), map_app.
    rewrite <- !app_assoc. cbn [app]. rewrite <- ?app_assoc. cbn [app]. reflexivity.
  - proj. rewrite Hm4, Hp4. cbn [length skipn app le32].
    apply skipn_exact. rewrite repeat_length. lia.
Qed.

End Driver.

(** * Concrete runs *)

Lemma cc3000_labels_distinct : NoDup (case_labels cc3000_h).
Proof.
  unfold case_labels, cc3000_h; cbn.
  repeat (constructor; [cbn; intuition discriminate |]). constructor.
Qed.

Lemma cc3000_free_buff_u16 : is_u16 (HCI_EVNT_DATA_UNSOL_FREE_BUFF cc3000_h).
Proof. unfold is_u16; cbn; lia. Qed.

(** Five reads in a frame of declared length 2: two transfers, then zeros. *)
Lemma hci_read_u8_floor_witness :
  exists st',
    hci_read_array 5 (set_hci_payload_size 2 (set_miso [7; 9; 11] idle_board)) =
    Some ([7; 9; 0; 0; 0], st')
    /\ hci_payload_size st' = 0
    /\ miso st' = [11].
Proof.
  destruct (hci_read_u8_floor 2 3 (set_hci_payload_size 2 (set_miso [7; 9; 11] idle_board))
              eq_refl) as [_ [_ [st' [E [Hst [Hp _]]]]]].
  exists st'. split; [exact E |]. split; [exact Hp |]. rewrite Hst. reflexivity.
Defined.

(** A "buffers freed" event with the two entries 3 and 5, one buffer free
    before: nine after. *)
Lemma free_buff_event_adds_the_sum_witness :
  exists st',
    interrupt cc3000_h
      (set_miso (rx_frame 0 0 0 (free_buff_payload cc3000_h 11 0 [(0, 3); (0, 5)])) (set_pins [true; false]
         (set_hci_available_buffer_count 1 idle_board))) = Some (tt, st')
    /\ hci_available_buffer_count st' = 1 + 8.
Proof.
  destruct (free_buff_event_adds_the_sum cc3000_h cc3000_labels_distinct cc3000_free_buff_u16
              (set_miso (rx_frame 0 0 0 (free_buff_payload cc3000_h 11 0 [(0, 3); (0, 5)])) (set_pins [true; false]
                 (set_hci_available_buffer_count 1 idle_board)))
              0 0 0 11 0 [(0, 3); (0, 5)] [] 1%nat [])
    as [st' [E [_ Hsum]]].
  - reflexivity.
  - cbn; discriminate.
  - cbn; lia.
  - cbn; lia.
  - repeat constructor; cbn; lia.
  - cbn. reflexivity.
  - reflexivity.
  - exists st'. split; [exact E |]. apply Hsum. cbn. lia.
Defined.

(** C1 as stated fails: straight after [wlan_init], with all six buffers
    free, a "buffers freed" event reporting one buffer makes
    [hci_available_buffer_count] 7, above [hci_buffer_count]. *)
Lemma pool_invariant_fails_unguarded :
  exists st,
    pool_reach cc3000_h false idle_board st
    /\ hci_available_buffer_count idle_board = hci_buffer_count idle_board
    /\ ~ hci_available_buffer_count st <= hci_buffer_count st.
Proof.
  eexists. split; [| split].
  - eapply reach_step; [apply reach_init |].
    eapply (pool_freed cc3000_h false idle_board 0 0 0 7 0 [(0, 1)] [] [false]).
    + reflexivity.
    + reflexivity.
    + cbn; discriminate.
    + cbn; lia.
    + repeat constructor; cbn; lia.
    + discriminate.
    + vm_compute. reflexivity.
  - reflexivity.
  - cbn. lia.
Qed.

(** One send and the event that frees its buffer: the pool is full again. *)
Lemma pool_invariant_when_guarded_witness :
  exists st,
    pool_reach cc3000_h true idle_board st
    /\ hci_available_buffer_count st = 6
    /\ 0 <= hci_available_buffer_count st <= hci_buffer_count st.
Proof.
  assert (R : { st | pool_reach cc3000_h true idle_board st
                     /\ hci_available_buffer_count st = 6 }).
  { eexists. split.
    - eapply reach_step; [eapply reach_step; [apply reach_init |] |].
      + apply (pool_send cc3000_h true idle_board). cbn. discriminate.
      + eapply (pool_freed cc3000_h true _ 0 0 0 7 0 [(0, 1)] [] [false]).
        * reflexivity.
        * reflexivity.
        * cbn; discriminate.
        * cbn; lia.
        * repeat constructor; cbn; lia.
        * intros _. cbn. lia.
        * vm_compute. reflexivity.
    - reflexivity. }
  destruct R as [st [Hreach Hsix]].
  exists st. split; [exact Hreach |]. split; [exact Hsix |].
  apply (pool_invariant_when_guarded cc3000_h cc3000_labels_distinct cc3000_free_buff_u16
           idle_board st); [cbn; lia | reflexivity | exact Hreach].
Defined.

Lemma int_width_16 : int_width 16.
Proof. unfold int_width; lia. Qed.

(** A TCP_CLOSE_WAIT event for socket 3 while another reply is awaited:
    one call of the callback with the socket number, the rest of the frame
    read off. *)
Lemma hci_dispatch_event_routes_witness :
  exists st',
    hci_dispatch_event cc3000_h
      (set_hci_payload_size 9
         (scripted [0x00; 0x88; 5; 0; 3; 0; 0; 0; 7] [] [false] [] idle_board)) = Some (tt, st')
    /\ calls (trace st') = [(false, 0x8800, 3)]
    /\ hci_payload_size st' = 0
    /\ miso st' = [].
Proof.
  pose (st0 := set_hci_payload_size 9
         (scripted [0x00; 0x88; 5; 0; 3; 0; 0; 0; 7] [] [false] [] idle_board)).
  assert (R1 : { p | hci_read_u16_le st0 = Some (0x8800, p) })
    by (eexists; vm_compute; reflexivity).
  destruct R1 as [st1 E1].
  assert (R2 : { p | hci_read_u8 st1 = Some (5, p) }).
  { eexists. vm_compute in E1. injection E1 as <-. vm_compute. reflexivity. }
  destruct R2 as [st2 E2].
  destruct (hci_dispatch_event_routes cc3000_h cc3000_labels_distinct st0 0x8800 5 st1 st2)
    as [_ Hun]; [cbn; lia | exact E1 | exact E2 |].
  destruct (Hun ltac:(cbn; discriminate) 0%nat [] eq_refl)
    as [arg [st3 [st' [_ [E [_ [Htr [Hc [Hp [Harg _]]]]]]]]]].
  exists st'. split; [exact E |].
  specialize (Harg eq_refl).
  vm_compute in E1. injection E1 as <-.
  vm_compute in E2. injection E2 as <-.
  vm_compute in Harg. injection Harg as <- <-.
  split; [exact Hc |]. split; [exact Hp |].
  change (hci_dispatch_event cc3000_h st0) with (hci_dispatch_event cc3000_h st0) in E.
  vm_compute in E. injection E as <-. reflexivity.
Defined.


(** Timeout 1000 armed at clock 0.  Without a reply the wait ends at the
    reading 1001 and the callback is called once; with the reply at the
    first poll and the clock at 2 it is not called. *)
Lemma locked_callback_follows_the_clock_witness :
  (exists st',
     hci_end_command_begin_receive cc3000_h HCI_CMND_SOCKET 1000
       (scripted [] [false; false] [] [0; 500; 1001; 1002] idle_board) = Some (tt, st')
     /\ hci_pending_event_available st' = 0
     /\ calls (trace st') = [(false, 0x8FFF, 0)])
  /\
  (exists st',
     hci_end_command_begin_receive cc3000_h HCI_CMND_SOCKET 1000
       (scripted (rx_frame 0 0 0 (reply_payload HCI_CMND_SOCKET 4 0 0 []))
          [true] [] [0; 1; 2] idle_board) = Some (tt, st')
     /\ hci_pending_event_available st' = 1
     /\ calls (trace st') = []).
Proof.
  destruct (locked_callback_follows_the_clock cc3000_h) as [_ [Hquiet Hanswered]].
  split.
  - apply (Hquiet (scripted [] [false; false] [] [0; 500; 1001; 1002] idle_board)
             HCI_CMND_SOCKET 1000 1%nat [false] 0 [500] 1001 1002 []).
    + reflexivity.
    + reflexivity.
    + reflexivity.
    + reflexivity.
    + repeat constructor; vm_compute; discriminate.
    + vm_compute; reflexivity.
    + vm_compute; discriminate.
  - apply (Hanswered (scripted (rx_frame 0 0 0 (reply_payload HCI_CMND_SOCKET 4 0 0 []))
                        [true] [] [0; 1; 2] idle_board)
             HCI_CMND_SOCKET 1000 0%nat [] 0 [] 1 2 [] 0 0 0 9 4 [0; 0; 0; 0; 0]).
    + reflexivity.
    + reflexivity.
    + reflexivity.
    + reflexivity.
    + reflexivity.
    + repeat constructor; vm_compute; discriminate.
    + lia.
    + reflexivity.
Defined.

(** A command with 12 argument bytes (payload length 4 + 12, even) gets its
    pad byte; a data frame with 16 + 3 bytes (4 + 19, odd) gets one too. *)
Lemma pad_byte_rule_witness :
  (exists st_r,
     (hci_begin_command cc3000_h HCI_CMND_SOCKET 12 ;;
      hci_write_array [2; 0; 0; 0; 1; 0; 0; 0; 6; 0; 0; 0] 12 ;;
      hci_end_command_begin_receive cc3000_h HCI_CMND_SOCKET 1000)
       (scripted [] [true] [] [0] idle_board) =
     await_reply cc3000_h 1000 st_r
     /\ trace st_r =
        (false, CsAssert)
        :: xfers false ([1; 0; 17; 0; 0; 1; 0x01; 0x10; 12]
                        ++ [2; 0; 0; 0; 1; 0; 0; 0; 6; 0; 0; 0] ++ [0]) []
        ++ [(false, CsRelease)])
  /\
  (exists st_r,
     (hci_begin_data cc3000_h 16 HCI_CMND_SEND 16 3 ;;
      hci_write_array [] 19 ;;
      hci_end_data_begin_receive cc3000_h (HCI_EVNT_SEND cc3000_h) 5000)
       (scripted [] [true] [] [0] idle_board) =
     await_reply cc3000_h 5000 st_r
     /\ trace st_r =
        (false, CsAssert)
        :: xfers false ([1; 0; 24; 0; 0; 2; 0x81; 16; 19; 0] ++ repeat 0 19 ++ [0]) []
        ++ [(false, CsRelease)]).
Proof.
  destruct (pad_byte_rule cc3000_h 16 int_width_16) as [Hc Hd].
  split.
  - destruct (Hc (scripted [] [true] [] [0] idle_board) HCI_CMND_SOCKET 12
                [2; 0; 0; 0; 1; 0; 0; 0; 6; 0; 0; 0] HCI_CMND_SOCKET 1000 0%nat [] 0 [])
      as [st_r [E [Htr _]]]; [reflexivity | lia | reflexivity | reflexivity |].
    exists st_r. split; [exact E | exact Htr].
  - destruct (Hd (scripted [] [true] [] [0] idle_board) HCI_CMND_SEND 16 3
                [] (HCI_EVNT_SEND cc3000_h) 5000 0%nat [] 0 [])
      as [st_r [E [Htr _]]]; [reflexivity | lia | lia | lia | reflexivity | reflexivity |].
    exists st_r. split; [exact E | exact Htr].
Defined.

(** [socket(AF_INET, SOCK_STREAM, IPPROTO_TCP)] answered with descriptor 2. *)
Lemma socket_frame_and_result_witness :
  exists st' rest,
    socket cc3000_h 16 2 1 6
      (scripted (repeat 0 22 ++ rx_frame 0 0 0 (reply_payload HCI_CMND_SOCKET 4 0 2 []))
         [true; true] [false] [0; 1; 2] idle_board) = Some (2, st')
    /\ trace st' =
       (false, CsAssert)
       :: xfers false ([1; 0; 17; 0; 0; 1; 0x01; 0x10; 12]
                       ++ [2; 0; 0; 0] ++ [1; 0; 0; 0] ++ [6; 0; 0; 0] ++ [0]) (repeat 0 22)
       ++ (false, CsRelease) :: rest
    /\ miso st' = []
    /\ hci_payload_size st' = 0.
Proof.
  destruct (socket_frame_and_result cc3000_h 16
              (scripted (repeat 0 22 ++ rx_frame 0 0 0 (reply_payload HCI_CMND_SOCKET 4 0 2 []))
                 [true; true] [false] [0; 1; 2] idle_board)
              2 1 6 0%nat 0%nat [] 0 [] 1 2 [] 0%nat [] (repeat 0 22) 0 0 0 4 0 2 [] [])
    as [st' [rest [E [Htr [Hm Hp]]]]].
  - reflexivity.
  - reflexivity.
  - reflexivity.
  - reflexivity.
  - repeat constructor; vm_compute; discriminate.
  - reflexivity.
  - lia.
  - reflexivity.
  - cbn; lia.
  - reflexivity.
  - exists st', rest. split; [exact E |]. split; [exact Htr |]. split; [exact Hm | exact Hp].
Defined.

(** [connect] to 192.168.1.10:80 on socket 2 with an [addrlen] of 16: the
    frame carries the length 8 and the first 8 bytes of the address. *)
Lemma connect_guard_and_marshalling_witness :
  connect cc3000_h 16 2 None 16 idle_board = Some (-1, idle_board)
  /\ exists st_m,
       (hci_begin_command cc3000_h HCI_CMND_CONNECT 20 ;;
        hci_write_u32_le 2 ;;
        hci_write_u32_le 8 ;;
        hci_write_u32_le 8 ;;
        hci_write_array [2; 0; 0; 80; 192; 168; 1; 10] 8)
         (scripted [] [true] [] [] idle_board) = Some (tt, st_m)
       /\ trace st_m =
          (false, CsAssert)
          :: xfers false ([1; 0; 25; 0; 0; 1; 0x07; 0x10; 20]
                          ++ [2; 0; 0; 0] ++ [8; 0; 0; 0] ++ [8; 0; 0; 0]
                          ++ [2; 0; 0; 80; 192; 168; 1; 10]) [].
Proof.
  destruct (connect_guard_and_marshalling cc3000_h 16) as [Hnull [_ [_ Hframe]]].
  split; [apply (Hnull 2 16 idle_board) |].
  destruct (Hframe (scripted [] [true] [] [] idle_board) 2 [2; 0; 0; 80; 192; 168; 1; 10]
              16 0%nat [])
    as [st_m [E [_ [Htr _]]]]; [discriminate | reflexivity | reflexivity |].
  exists st_m. split; [exact E | exact Htr].
Defined.

(** Three bytes arrive for a buffer of two: [recv] stores the first two
    and returns 2; the third is read off with the rest of the frame. *)
Lemma recv_copies_up_to_size_witness :
  exists st',
    recv cc3000_h 16 1 2 0
      (scripted (repeat 0 22
                 ++ rx_frame 0 0 0 (recv_reply_payload 12 0 1 3 0 [])
                 ++ rx_frame 0 0 0 (data_payload 0x85 3 [1; 2] [10; 20; 30] []))
         [true; true; true] [false; false] [0; 1; 2] idle_board) =
    Some ((2, [10; 20]), st')
    /\ miso st' = []
    /\ hci_payload_size st' = 0.
Proof.
  destruct (recv_copies_up_to_size cc3000_h 16 int_width_16
              (scripted (repeat 0 22
                         ++ rx_frame 0 0 0 (recv_reply_payload 12 0 1 3 0 [])
                         ++ rx_frame 0 0 0 (data_payload 0x85 3 [1; 2] [10; 20; 30] []))
                 [true; true; true] [false; false] [0; 1; 2] idle_board)
              1 2 0 0%nat 0%nat 0%nat [] 0 [] 1 2 [] 0%nat 0%nat [] (repeat 0 22)
              0 0 0 12 0 1 3 0 [] 0 0 0 0x85 3 [1; 2] [10; 20; 30] [] [])
    as [st' [E [Hm Hp]]].
  - reflexivity.
  - reflexivity.
  - reflexivity.
  - reflexivity.
  - repeat constructor; vm_compute; discriminate.
  - reflexivity.
  - reflexivity.
  - lia.
  - reflexivity.
  - cbn; lia.
  - cbn; lia.
  - cbn; lia.
  - cbn; lia.
  - reflexivity.
  - exists st'. split; [exact E |]. split; [exact Hm | exact Hp].
Defined.

(** An event the [switch] does not know (code 0x8100) with three more
    bytes: one call of the callback, and the link is at the byte that
    follows the frame. *)
Lemma unsolicited_event_consumes_its_frame_witness :
  exists arg st',
    interrupt cc3000_h
      (scripted (rx_frame 0 0 0 ([HCI_TYPE_EVNT; 0x00; 0x81; 3] ++ [1; 2; 3]) ++ [9])
         [] [true; false] [] idle_board) = Some (tt, st')
    /\ miso st' = [9]
    /\ hci_payload_size st' = 0
    /\ calls (trace st') = [(true, 0x8100, arg)].
Proof.
  destruct (unsolicited_event_consumes_its_frame cc3000_h
              (scripted (rx_frame 0 0 0 ([HCI_TYPE_EVNT; 0x00; 0x81; 3] ++ [1; 2; 3]) ++ [9])
                 [] [true; false] [] idle_board)
              0 0 0 0x00 0x81 3 [1; 2; 3] [9] 1%nat [])
    as [arg [st' [E [Hm [Hp [_ [_ [Hc _]]]]]]]].
  - cbn. discriminate.
  - cbn. discriminate.
  - cbn. lia.
  - reflexivity.
  - reflexivity.
  - exists arg, st'. split; [exact E |]. split; [exact Hm |]. split; [exact Hp | exact Hc].
Defined.

(** The lease 192.168.1.10 arrives as 10, 1, 168, 192 after the status
    byte. *)
Lemma dhcp_event_stores_the_address_witness :
  exists st',
    interrupt cc3000_h
      (scripted (rx_frame 0 0 0 ([HCI_TYPE_EVNT] ++ le16 0x8010 ++ [20]
                                 ++ [0; 10; 1; 168; 192] ++ [255; 255; 255; 0]))
         [] [false] [] idle_board) = Some (tt, st')
    /\ wifi_dhcp st' = 1
    /\ ip_addr st' = [192; 168; 1; 10]
    /\ calls (trace st') = [(true, 0x8010, 0)].
Proof.
  destruct (dhcp_event_stores_the_address cc3000_h cc3000_labels_distinct
              (scripted (rx_frame 0 0 0 ([HCI_TYPE_EVNT] ++ le16 0x8010 ++ [20]
                                         ++ [0; 10; 1; 168; 192] ++ [255; 255; 255; 0]))
                 [] [false] [] idle_board)
              0 0 0 20 0 10 1 168 192 [255; 255; 255; 0] [] 0%nat [])
    as [st' [E [Hd [Hi [_ [Hc _]]]]]].
  - cbn. discriminate.
  - unfold is_u16. cbn. lia.
  - cbn. discriminate.
  - reflexivity.
  - cbn. lia.
  - reflexivity.
  - reflexivity.
  - exists st'. split; [exact E |]. split; [exact Hd |]. split; [exact Hi | exact Hc].
Defined.

(** A board that is connected and has its lease loses both flags on the
    "disconnected" event. *)
Lemma wlan_events_set_the_flags_witness :
  exists st',
    interrupt cc3000_h
      (scripted (rx_frame 0 0 0 ([HCI_TYPE_EVNT] ++ le16 0x8002 ++ [0] ++ []))
         [] [false] [] (set_wifi_connected 1 (set_wifi_dhcp 1 idle_board))) = Some (tt, st')
    /\ wifi_connected st' = 0
    /\ wifi_dhcp st' = 0
    /\ calls (trace st') = [(true, 0x8002, 0)].
Proof.
  destruct (wlan_events_set_the_flags cc3000_h cc3000_labels_distinct
              (scripted (rx_frame 0 0 0 ([HCI_TYPE_EVNT] ++ le16 0x8002 ++ [0] ++ []))
                 [] [false] [] (set_wifi_connected 1 (set_wifi_dhcp 1 idle_board)))
              0 0 0 0 [] [] 0%nat [])
    as [_ Hdis].
  - cbn. discriminate.
  - cbn. lia.
  - reflexivity.
  - destruct Hdis as [st' [E [Hc [Hd [Hcl _]]]]].
    + unfold is_u16. cbn. lia.
    + cbn. discriminate.
    + reflexivity.
    + exists st'. split; [exact E |]. split; [exact Hc |]. split; [exact Hd | exact Hcl].
Defined.

(** A frame of type 3 (a patch) with four bytes declared: six transfers,
    no release of chip select, three bytes left on the link. *)
Lemma unknown_frame_type_is_left_open_witness :
  exists st',
    interrupt cc3000_h (scripted [0; 0; 0; 0; 4; 3; 7; 8; 9] [] [] [] idle_board) =
    Some (tt, st')
    /\ trace st' =
       [(true, CsAssert); (true, Xfer 3 0); (true, Xfer 0 0); (true, Xfer 0 0);
        (true, Xfer 0 0); (true, Xfer 0 4); (true, Xfer 0 3)]
    /\ hci_payload_size st' = 3
    /\ miso st' = [7; 8; 9].
Proof.
  destruct (unknown_frame_type_is_left_open cc3000_h
              (scripted [0; 0; 0; 0; 4; 3; 7; 8; 9] [] [] [] idle_board)
              0 0 0 4 3 [7; 8; 9])
    as [st' [E [Htr [Hp [Hm _]]]]].
  - cbn. discriminate.
  - lia.
  - cbn. discriminate.
  - cbn. discriminate.
  - reflexivity.
  - exists st'. split; [exact E |]. split; [exact Htr |]. split; [exact Hp | exact Hm].
Defined.

(** 0x12345678 goes out as 78 56 34 12 and is read back from these bytes. *)
Lemma little_endian_round_trip_witness :
  exists st_w' st_r',
    hci_write_u32_le 0x12345678 (set_hci_payload_size 4 idle_board) = Some (tt, st_w')
    /\ sent (trace st_w') = [0x78; 0x56; 0x34; 0x12]
    /\ hci_read_u32_le (set_hci_payload_size 4 (set_miso [0x78; 0x56; 0x34; 0x12] idle_board)) =
       Some (0x12345678, st_r').
Proof.
  destruct (proj1 little_endian_round_trip 0x12345678
              (set_hci_payload_size 4 idle_board)
              (set_hci_payload_size 4 (set_miso [0x78; 0x56; 0x34; 0x12] idle_board)) [])
    as [st_w' [bytes [Ew [Hs [_ Hread]]]]].
  - cbn. lia.
  - cbn. lia.
  - assert (Hb : bytes = [0x78; 0x56; 0x34; 0x12]).
    { vm_compute in Ew. injection Ew as <-. vm_compute in Hs. symmetry. exact Hs. }
    subst bytes.
    destruct (Hread eq_refl) as [st_r' [Er _]].
    exists st_w', st_r'. split; [exact Ew |]. split; [exact Hs | exact Er].
Defined.



(** The CC3000 answers with the length -57: [recv] returns -57 and the
    buffer stays as it was. *)
Lemma recv_without_data_witness :
  exists st',
    recv cc3000_h 16 1 64 0
      (scripted (repeat 0 22 ++ rx_frame 0 0 0 (recv_reply_payload 12 0 1 4294967239 0 []))
         [true; true] [false] [0; 1; 2] idle_board) = Some ((-57, []), st')
    /\ irqs st' = []
    /\ miso st' = [].
Proof.
  destruct (recv_without_data cc3000_h 16 int_width_16
              (scripted (repeat 0 22
                         ++ rx_frame 0 0 0 (recv_reply_payload 12 0 1 4294967239 0 []))
                 [true; true] [false] [0; 1; 2] idle_board)
              1 64 0 0%nat 0%nat [] 0 [] 1 2 [] 0%nat [] (repeat 0 22)
              0 0 0 12 0 1 4294967239 0 [] [])
    as [st' [E [Hq [_ [Hm _]]]]].
  - reflexivity.
  - reflexivity.
  - reflexivity.
  - reflexivity.
  - repeat constructor; vm_compute; discriminate.
  - reflexivity.
  - reflexivity.
  - lia.
  - vm_compute. discriminate.
  - cbn; lia.
  - reflexivity.
  - exists st'. split; [exact E |]. split; [exact Hq | exact Hm].
Defined.


(** The name "ab" with a limit of 230 bytes: the command carries 8, the
    length 2 and the two letters, and [gethostbyname] returns the status
    1 and the address 10.1.168.192 as the CC3000 gave it. *)
Lemma gethostbyname_guard_and_result_witness :
  exists st',
    gethostbyname cc3000_h 16 230 (Some [97; 98]) 2
      (scripted (repeat 0 20
                 ++ rx_frame 0 0 0 (gethostbyname_reply_payload 8 0 1 0x0A01A8C0 []))
         [true; true] [false] [0; 1; 2] idle_board) =
    Some ((1, Some 0x0A01A8C0), st')
    /\ miso st' = [].
Proof.
  destruct (gethostbyname_guard_and_result cc3000_h 16 230) as [_ [_ H]].
  destruct (H (scripted (repeat 0 20
                         ++ rx_frame 0 0 0 (gethostbyname_reply_payload 8 0 1 0x0A01A8C0 []))
                 [true; true] [false] [0; 1; 2] idle_board)
              [97; 98] 2 0%nat 0%nat [] 0 [] 1 2 [] 0%nat [] (repeat 0 19) [0]
              0 0 0 8 0 1 0x0A01A8C0 [] [])
    as [st' [rest [E [_ [Hm _]]]]].
  - lia.
  - lia.
  - reflexivity.
  - reflexivity.
  - reflexivity.
  - reflexivity.
  - repeat constructor; vm_compute; discriminate.
  - reflexivity.
  - reflexivity.
  - reflexivity.
  - lia.
  - lia.
  - cbn; lia.
  - reflexivity.
  - exists st'. split; [exact E | exact Hm].
Defined.

(** Timers 0, 5, 20 and 3600 seconds: 5 is raised to 20, the others go
    out as they are. *)
Lemma netapp_timeout_values_raises_short_timers_witness :
  exists st',
    netapp_timeout_values cc3000_h 0 5 20 3600
      (scripted (repeat 0 26 ++ rx_frame 0 0 0 (reply_payload 0x2009 4 0 0 []))
         [true; true] [false] [0; 1; 2] idle_board) =
    Some ((0, (0, 20, 20, 3600)), st')
    /\ miso st' = [].
Proof.
  destruct (netapp_timeout_values_raises_short_timers cc3000_h
              (scripted (repeat 0 26 ++ rx_frame 0 0 0 (reply_payload 0x2009 4 0 0 []))
                 [true; true] [false] [0; 1; 2] idle_board)
              0 5 20 3600 0%nat 0%nat [] 0 [] 1 2 [] 0%nat [] (repeat 0 26)
              0 0 0 4 0 0 [] [])
    as [st' [rest [d [a [ka [ia [E [Hd [Ha [Hka [Hia [_ [_ [_ [_ [Hm _]]]]]]]]]]]]]]]].
  - lia.
  - lia.
  - lia.
  - lia.
  - reflexivity.
  - reflexivity.
  - reflexivity.
  - reflexivity.
  - repeat constructor; vm_compute; discriminate.
  - reflexivity.
  - lia.
  - reflexivity.
  - cbn; lia.
  - reflexivity.
  - exists st'. split; [| exact Hm].
    rewrite E, Hd, Ha, Hka, Hia. reflexivity.
Defined.

(** A read set with descriptor 1, no write or exception set and a timeout
    of 100 microseconds: the timeout comes back as 5000 microseconds, the
    read set as the CC3000 reported it, and nothing is stored for the null
    sets. *)
Lemma select_raises_short_timeouts_witness :
  exists st',
    select cc3000_h 16 2 (Some 2) None None (Some (0, 100))
      (scripted (repeat 0 54
                 ++ rx_frame 0 0 0 (select_reply_payload 16 0 1 2 0 0 []))
         [true; true] [false] [0; 1; 2] idle_board) =
    Some ((1, (Some 2, None, None), Some (0, 5000)), st')
    /\ miso st' = [].
Proof.
  destruct (select_raises_short_timeouts cc3000_h 16
              (scripted (repeat 0 54
                         ++ rx_frame 0 0 0 (select_reply_payload 16 0 1 2 0 0 []))
                 [true; true] [false] [0; 1; 2] idle_board)
              2 (Some 2) None None (Some (0, 100))
              0%nat 0%nat [] 0 [] 1 2 [] 0%nat [] (repeat 0 53) 0
              0 0 0 16 0 1 2 0 0 [] [])
    as [st' [rest [tflag [tsec [tusec [timeout' [E [_ [Ht [_ [Hm _]]]]]]]]]]].
  - reflexivity.
  - reflexivity.
  - reflexivity.
  - reflexivity.
  - repeat constructor; vm_compute; discriminate.
  - reflexivity.
  - reflexivity.
  - lia.
  - lia.
  - lia.
  - lia.
  - cbn; lia.
  - reflexivity.
  - destruct (Ht 0 100 eq_refl) as [_ [_ [Ht' [Hu _]]]].
    exists st'. split; [| exact Hm].
    rewrite E, Ht', (Hu eq_refl) by lia. reflexivity.
Defined.
